(** * version-generator: tag resolution, commit counting and version synthesis

    A shallow embedding of the Go packages [versionSchemes] (the version
    formatter) and [gitType] (the go-git and system-git handlers), followed
    by the properties of the tag resolver, the commit counter and the
    formatter.

    Go values are modelled as follows.
    - [string] : a Go string, i.e. a sequence of bytes ([ascii]).
    - [int]    : a 64-bit signed integer, carried in [Z]; the only arithmetic
                 the program does on it is [count++], written [int_incr] with
                 its wrap-around.
    - [(T, error)] results : [Result T]; a Go [error] is observed by this
                 program only through its message, so it is a [string].
    - [plumbing.Hash] : a 160-bit number, carried in [N]. *)

From Stdlib Require Import ZArith List Lia Bool Ascii String Permutation Sorted.
From Stdlib Require Import Numbers.DecimalString.
From Stdlib Require DecimalPos DecimalZ.
Import ListNotations.

Open Scope string_scope.
Open Scope Z_scope.

(* ================================================================== *)
(** * Go runtime pieces used by the program *)
(* ================================================================== *)

Module Go.

(** [(T, error)]: either a value or an error carrying its message. *)
Inductive Result (A : Type) : Type :=
| Ok (a : A)
| Err (msg : string).
Arguments Ok {A} a.
Arguments Err {A} msg.

Definition is_ok {A} (r : Result A) : bool :=
  match r with Ok _ => true | Err _ => false end.

(** ** [int] *)

(** Two's complement wrap-around of a 64-bit signed integer. *)
Definition wrap_int (z : Z) : Z := (z + 2 ^ 63) mod 2 ^ 64 - 2 ^ 63.

(** [n++] on an [int]. *)
Definition int_incr (n : Z) : Z := wrap_int (n + 1).

(** ** [fmt.Sprintf] verbs *)

(** [%d]: decimal, with a minus sign for negative numbers. *)
Definition fmt_d (n : Z) : string := NilZero.string_of_int (Z.to_int n).

(** [%02d]: decimal padded on the left with zeros to width two; the sign
    counts in the width, so only 0..9 are padded. *)
Definition fmt_02d (n : Z) : string :=
  if (0 <=? n) && (n <? 10) then "0" ++ fmt_d n else fmt_d n.

(** ** [strings.HasPrefix] *)

Fixpoint HasPrefix (s prefix : string) {struct prefix} : bool :=
  match prefix with
  | EmptyString => true
  | String p prefix' =>
      match s with
      | EmptyString => false
      | String c s' => (c =? p)%char && HasPrefix s' prefix'
      end
  end.

(** [s[1:]] on a non-empty string; on the empty string Go panics, the
    program only slices after [HasPrefix s "v"]. *)
Definition tail (s : string) : string :=
  match s with
  | EmptyString => EmptyString
  | String _ rest => rest
  end.

(** ** UTF-8 decoding, as [regexp] reads its input

    [utf8.DecodeRuneInString] returns the first rune and its width in
    bytes; a byte that does not start a well-formed encoding is the rune
    U+FFFD of width 1.  Only the width matters below: every rune that is
    not ASCII is outside the class [a-zA-Z0-9-]. *)

Definition byte_val (c : ascii) : Z := Z.of_N (N_of_ascii c).

Definition between (lo hi : Z) (c : ascii) : bool :=
  (lo <=? byte_val c) && (byte_val c <=? hi).

Definition rune_width (s : string) : nat :=
  match s with
  | EmptyString => 0%nat
  | String c0 rest =>
      let b0 := byte_val c0 in
      if b0 <? 0x80 then 1%nat                       (* ASCII *)
      else if b0 <? 0xC2 then 1%nat                  (* invalid leader *)
      else if b0 <? 0xE0 then                        (* two bytes *)
        match rest with
        | String c1 _ => if between 0x80 0xBF c1 then 2%nat else 1%nat
        | _ => 1%nat
        end
      else if b0 <? 0xF0 then                        (* three bytes *)
        let lo := if b0 =? 0xE0 then 0xA0 else 0x80 in
        let hi := if b0 =? 0xED then 0x9F else 0xBF in
        match rest with
        | String c1 (String c2 _) =>
            if between lo hi c1 && between 0x80 0xBF c2 then 3%nat else 1%nat
        | _ => 1%nat
        end
      else if b0 <? 0xF5 then                        (* four bytes *)
        let lo := if b0 =? 0xF0 then 0x90 else 0x80 in
        let hi := if b0 =? 0xF4 then 0x8F else 0xBF in
        match rest with
        | String c1 (String c2 (String c3 _)) =>
            if between lo hi c1 && between 0x80 0xBF c2 && between 0x80 0xBF c3
            then 4%nat else 1%nat
        | _ => 1%nat
        end
      else 1%nat                                     (* invalid leader *)
  end.

End Go.
Import Go.

(* ================================================================== *)
(** * Package versionSchemes: the version formatter *)
(* ================================================================== *)

Module VersionSchemes.

(** [VersioningOptions] *)
Record VersioningOptions : Type := {
  Semver : bool;
  CalVer : bool;
  Simple : bool;
  Hash   : bool
}.

(** What [GenerateCalVer] reads of [time.Now()]. *)
Record Date : Type := {
  Year  : Z;
  Month : Z
}.

(** [isMainBranch] *)
Definition isMainBranch (branchName : string) : bool :=
  (branchName =? "main")%string || (branchName =? "master")%string
  || (branchName =? "detached")%string.

(** The bytes the class [a-zA-Z0-9\-] accepts. *)
Definition in_class (c : ascii) : bool :=
  between 97 122 c || between 65 90 c || between 48 57 c || (byte_val c =? 45).

(** [regexp.MustCompile(`[^a-zA-Z0-9\-]`).ReplaceAllString(s, "-")]: the
    input is read rune by rune; a rune in the class is copied, any other
    rune (of one to four bytes) becomes one ["-"].  [skip] counts the bytes
    still to drop of a rune that has already been replaced. *)
Fixpoint replaceAllOutsideClass (skip : nat) (s : string) : string :=
  match s with
  | EmptyString => EmptyString
  | String c rest =>
      match skip with
      | S k => replaceAllOutsideClass k rest
      | O =>
          if in_class c then String c (replaceAllOutsideClass 0 rest)
          else String "-" (replaceAllOutsideClass (rune_width s - 1) rest)
      end
  end.

(** [cleanBranchName] *)
Definition cleanBranchName (branchName : string) : string :=
  replaceAllOutsideClass 0 branchName.

(** [hasVersionPrefix] *)
Definition hasVersionPrefix (version : string) : bool :=
  HasPrefix version "v".

(** [ensureVersionPrefix] *)
Definition ensureVersionPrefix (version : string) : string :=
  if negb (hasVersionPrefix version) then "v" ++ version else version.

(** [GenerateCalVer]; [now] is the value of [time.Now()]. *)
Definition GenerateCalVer (now : Date) (lastTag : string) (commitsSince : Z)
    (branchName : string) (includeHash : bool) (shortHash : string) : string :=
  let calVer := fmt_d (Year now) ++ "." ++ fmt_02d (Month now) in
  let calVer :=
    if commitsSince >? 0 then calVer ++ "." ++ fmt_d commitsSince else calVer in
  let calVer :=
    if negb (isMainBranch branchName)
    then calVer ++ "-" ++ cleanBranchName branchName
    else calVer in
  let calVer :=
    if includeHash && negb (shortHash =? "")%string
    then calVer ++ "+" ++ shortHash
    else calVer in
  calVer.

(** [GenerateSemVer] *)
Definition GenerateSemVer (lastTag : string) (commitsSince : Z)
    (branchName : string) (includeHash : bool) (shortHash : string) : string :=
  if (commitsSince =? 0) && negb includeHash then lastTag
  else
    let version := lastTag in
    let version := if hasVersionPrefix version then tail version else version in
    let version :=
      if isMainBranch branchName then
        if commitsSince >? 0 then version ++ "-dev." ++ fmt_d commitsSince
        else version
      else
        let cleanBranch := cleanBranchName branchName in
        if commitsSince >? 0
        then version ++ "-" ++ cleanBranch ++ "." ++ fmt_d commitsSince
        else version ++ "-" ++ cleanBranch in
    let version :=
      if includeHash && negb (shortHash =? "")%string
      then version ++ "+" ++ shortHash
      else version in
    ensureVersionPrefix version.

(** [GenerateSimple] *)
Definition GenerateSimple (lastTag shortHash : string) (includeHash : bool)
    : string :=
  if includeHash then lastTag ++ "+" ++ shortHash else lastTag.

(** [GenerateDefault] *)
Definition GenerateDefault (lastTag : string) (commitsSince : Z)
    (shortHash branchName : string) (includeHash : bool) : string :=
  if (commitsSince =? 0) && negb includeHash then lastTag
  else
    let version :=
      if isMainBranch branchName then
        if commitsSince >? 0 then lastTag ++ "+" ++ fmt_d commitsSince
        else lastTag
      else
        let cleanBranch := cleanBranchName branchName in
        if commitsSince >? 0
        then lastTag ++ "-" ++ cleanBranch ++ "+" ++ fmt_d commitsSince
        else lastTag ++ "-" ++ cleanBranch in
    if includeHash then version ++ "+" ++ shortHash else version.

(** [GenerateVersion] *)
Definition GenerateVersion (now : Date) (lastTag : string) (commitsSince : Z)
    (shortHash branchName : string) (options : VersioningOptions) : string :=
  if (commitsSince =? 0) && negb (Hash options) then
    if Simple options then lastTag
    else if CalVer options
    then GenerateCalVer now lastTag 0 branchName false shortHash
    else lastTag
  else if CalVer options then
    GenerateCalVer now lastTag commitsSince branchName (Hash options) shortHash
  else if Semver options then
    GenerateSemVer lastTag commitsSince branchName (Hash options) shortHash
  else if Simple options then
    GenerateSimple lastTag shortHash (Hash options)
  else
    GenerateDefault lastTag commitsSince shortHash branchName (Hash options).

(** [GenerateLegacy] *)
Definition GenerateLegacy (lastTag : string) (commitsSince : Z)
    (shortHash branchName : string) (dockerFormat : bool) : string :=
  if commitsSince =? 0 then lastTag
  else if isMainBranch branchName then
    if dockerFormat then lastTag ++ "-" ++ fmt_d commitsSince
    else lastTag ++ "+" ++ fmt_d commitsSince
  else
    let cleanBranch := cleanBranchName branchName in
    if dockerFormat
    then lastTag ++ "-" ++ cleanBranch ++ "-" ++ fmt_d commitsSince
    else lastTag ++ "-" ++ cleanBranch ++ "+" ++ fmt_d commitsSince.

(** The four schemes of the options struct, as [GenerateVersion] reads
    them: CalVer wins over Semver, Semver over Simple. *)
Definition defaultScheme (h : bool) : VersioningOptions :=
  {| Semver := false; CalVer := false; Simple := false; Hash := h |}.

Definition semverScheme (simple h : bool) : VersioningOptions :=
  {| Semver := true; CalVer := false; Simple := simple; Hash := h |}.

End VersionSchemes.


(* ================================================================== *)
(** * The repository, as go-git shows it to the handler *)
(* ================================================================== *)

Module Git.

(** [plumbing.Hash] *)
Definition plumbing_Hash : Type := N.

Definition ZeroHash : plumbing_Hash := 0%N.

(** An object of the store, as far as the handler tells objects apart: a
    commit (its parents in order, its committer time in Unix seconds), an
    annotated tag (its target), or anything else (a tree, a blob). *)
Inductive Object : Type :=
| CommitObj (parents : list plumbing_Hash) (when : Z)
| TagObj (target : plumbing_Hash)
| OtherObj.

(** [object.Commit] *)
Record Commit : Type := {
  Hash : plumbing_Hash;
  ParentHashes : list plumbing_Hash;
  When : Z
}.

(** One snapshot of a repository: the object store, what HEAD resolves to
    (if it does), the branch heads and the tag references, the latter in
    the order [repo.Tags()] iterates them. *)
Record Repository : Type := {
  objects  : list (plumbing_Hash * Object);
  HEAD     : option plumbing_Hash;
  branches : list (string * plumbing_Hash);
  tags     : list (string * plumbing_Hash)
}.

Fixpoint lookupObject (store : list (plumbing_Hash * Object)) (h : plumbing_Hash)
    : option Object :=
  match store with
  | [] => None
  | (k, o) :: rest => if (k =? h)%N then Some o else lookupObject rest h
  end.

Fixpoint lookupRef (refs : list (string * plumbing_Hash)) (name : string)
    : option plumbing_Hash :=
  match refs with
  | [] => None
  | (k, h) :: rest => if (k =? name)%string then Some h else lookupRef rest name
  end.

(** [repo.Head()] *)
Definition Head (r : Repository) : Result plumbing_Hash :=
  match HEAD r with
  | Some h => Ok h
  | None => Err "reference not found"
  end.

(** [repo.Object(plumbing.AnyObject, h)] *)
Definition AnyObject (r : Repository) (h : plumbing_Hash) : Result Object :=
  match lookupObject (objects r) h with
  | Some o => Ok o
  | None => Err "object not found"
  end.

(** [repo.CommitObject(h)] *)
Definition CommitObject (r : Repository) (h : plumbing_Hash) : Result Commit :=
  match lookupObject (objects r) h with
  | Some (CommitObj ps t) => Ok {| Hash := h; ParentHashes := ps; When := t |}
  | _ => Err "object not found"
  end.

(** [repo.Reference(plumbing.NewBranchReferenceName(name), true)] *)
Definition BranchReference (r : Repository) (name : string)
    : Result plumbing_Hash :=
  match lookupRef (branches r) name with
  | Some h => Ok h
  | None => Err "reference not found"
  end.

(** [repo.Tag(name)] *)
Definition Tag (r : Repository) (name : string) : Result plumbing_Hash :=
  match lookupRef (tags r) name with
  | Some h => Ok h
  | None => Err "tag not found"
  end.

(** ** [object.NewCommitPreorderIter]

    The iterator holds the start commit until it is handed out, a stack of
    iterators over parent hashes (the head of the list is the top), and
    the set of hashes already handed out.  The handler always passes [nil]
    for the two other arguments of the constructor (commits seen elsewhere,
    commits to ignore). *)

Record commitPreIterator : Type := {
  start : option Commit;
  stack : list (list plumbing_Hash);
  seen  : list plumbing_Hash
}.

Definition NewCommitPreorderIter (c : Commit) : commitPreIterator :=
  {| start := Some c; stack := []; seen := [] |}.

Definition mem (h : plumbing_Hash) (s : list plumbing_Hash) : bool :=
  existsb (N.eqb h) s.

(** [filteredParentIter]: the parents not seen yet. *)
Definition filteredParentIter (c : Commit) (seen : list plumbing_Hash)
    : list plumbing_Hash :=
  filter (fun h => negb (mem h seen)) (ParentHashes c).

(** What one call of [Next] gives. *)
Inductive NextResult : Type :=
| Yield (c : Commit) (w : commitPreIterator)
| EOF
| Failed (msg : string).

(** The end of [Next]'s loop body, for a commit [c] not seen before: mark
    it, push the iterator over its unseen parents, hand it out. *)
Definition visit (c : Commit) (stk : list (list plumbing_Hash))
    (seen : list plumbing_Hash) : NextResult :=
  let seen' := Hash c :: seen in
  let stk' :=
    match ParentHashes c with
    | [] => stk
    | _ :: _ => filteredParentIter c seen' :: stk
    end in
  Yield c {| start := None; stack := stk'; seen := seen' |}.

(** [Next] once the start commit is gone: take the next hash of the top
    iterator, popping exhausted iterators; load the commit (a missing
    object is an error); skip it if it has been seen. *)
Fixpoint nextFromStack (r : Repository) (seen : list plumbing_Hash)
    (stk : list (list plumbing_Hash)) : NextResult :=
  match stk with
  | [] => EOF
  | top :: below =>
      (fix nextFromTop (pending : list plumbing_Hash) : NextResult :=
         match pending with
         | [] => nextFromStack r seen below
         | h :: pending' =>
             match CommitObject r h with
             | Err e => Failed e
             | Ok c =>
                 if mem h seen then nextFromTop pending'
                 else visit c (pending' :: below) seen
             end
         end) top
  end.

(** [commitPreIterator.Next] *)
Definition Next (r : Repository) (w : commitPreIterator) : NextResult :=
  match start w with
  | Some c =>
      if mem (Hash c) (seen w) then nextFromStack r (seen w) (stack w)
      else visit c (stack w) (seen w)
  | None => nextFromStack r (seen w) (stack w)
  end.

(** [commitPreIterator.ForEach]: call [cb] on every commit [Next] hands
    out, until [Next] ends or fails or [cb] returns an error.  The
    callbacks of this program are closures over local variables; [St] is
    the type of what they capture and [cb c s] gives the captured state
    after the call and the error returned ([None] for [nil]).

    The loop runs on fuel; [None] means the fuel ran out. *)
Fixpoint forEachLoop {St : Type} (fuel : nat) (r : Repository)
    (w : commitPreIterator) (cb : Commit -> St -> St * option string) (s : St)
    : option (St * option string) :=
  match Next r w with
  | EOF => Some (s, None)
  | Failed e => Some (s, Some e)
  | Yield c w' =>
      match cb c s with
      | (s', Some e) => Some (s', Some e)
      | (s', None) =>
          match fuel with
          | O => None
          | S fuel' => forEachLoop fuel' r w' cb s'
          end
      end
  end.

(** Every commit handed out is a new one, and all but the start commit
    are in the store: one more than the size of the store is fuel enough
    ([ForEach_terminates] below). *)
Definition walkFuel (r : Repository) : nat := S (List.length (objects r)).

Definition ForEach {St : Type} (r : Repository) (w : commitPreIterator)
    (cb : Commit -> St -> St * option string) (s : St) : St * option string :=
  match forEachLoop (walkFuel r) r w cb s with
  | Some res => res
  | None => (s, Some "commit walk: out of fuel")
  end.

End Git.
Import Git.

(* ================================================================== *)
(** * Package gitType: the go-git handler *)
(* ================================================================== *)

Module GoGit.

(** The element type of the slice [tags] of [findTagFromCurrentBranch]. *)
Record tagEntry : Type := {
  name : string;
  hash : plumbing_Hash;
  time : Z
}.

(** The commit a tag reference stands for, as both [GetCommitsSinceTag]
    and [findTagFromCurrentBranch] compute it by a type switch on the
    object the reference points to: the target of an annotated tag, the
    hash itself for a lightweight tag, nothing for other objects. *)
Definition tagCommitHashOf (refHash : plumbing_Hash) (obj : Object)
    : option plumbing_Hash :=
  match obj with
  | TagObj target => Some target
  | CommitObj _ _ => Some refHash
  | OtherObj => None
  end.

(** [isCommitReachable]: any error of the walk other than the callback's
    own ["found"] is dropped and reads as "not reachable". *)
Definition isCommitReachable (r : Repository) (from to : plumbing_Hash)
    : Result bool :=
  if (from =? to)%N then Ok true
  else
    match CommitObject r from with
    | Err e => Err e
    | Ok commit =>
        let cb (c : Commit) (_ : unit) :=
          if (Hash c =? to)%N then (tt, Some "found") else (tt, None) in
        match snd (ForEach r (NewCommitPreorderIter commit) cb tt) with
        | Some msg => Ok (msg =? "found")%string
        | None => Ok false
        end
    end.

(** [countAllCommits] *)
Definition countAllCommits (r : Repository) (commitHash : plumbing_Hash)
    : Result Z :=
  match CommitObject r commitHash with
  | Err e => Err e
  | Ok commit =>
      let cb (c : Commit) (count : Z) := (int_incr count, @None string) in
      match ForEach r (NewCommitPreorderIter commit) cb 0 with
      | (count, None) => Ok count
      | (_, Some e) => Err e
      end
  end.

(** [findCommonAncestor] *)
Definition findCommonAncestor (r : Repository) (commit1 commit2 : plumbing_Hash)
    : Result plumbing_Hash :=
  if (commit1 =? commit2)%N then Ok commit1
  else
    match CommitObject r commit1 with
    | Err e => Err e
    | Ok c1 =>
        match CommitObject r commit2 with
        | Err e => Err e
        | Ok c2 =>
            let collect (c : Commit) (ancestorsMap : list plumbing_Hash) :=
              (Hash c :: ancestorsMap, @None string) in
            match ForEach r (NewCommitPreorderIter c2) collect [] with
            | (_, Some e) => Err e
            | (ancestorsMap, None) =>
                let cb (c : Commit) (commonAncestor : plumbing_Hash) :=
                  if mem (Hash c) ancestorsMap
                  then (Hash c, Some "found common ancestor")
                  else (commonAncestor, None) in
                match ForEach r (NewCommitPreorderIter c1) cb ZeroHash with
                | (commonAncestor, Some msg) =>
                    if (msg =? "found common ancestor")%string
                    then Ok commonAncestor
                    else Err "no common ancestor found"
                | (_, None) => Err "no common ancestor found"
                end
            end
        end
    end.

(** The body of [tagRefs.ForEach] in [findTagFromCurrentBranch]: the tags
    reachable from [commitHash], appended to [acc] in iteration order. *)
Fixpoint collectReachableTags (r : Repository) (commitHash : plumbing_Hash)
    (refs : list (string * plumbing_Hash)) (acc : list tagEntry)
    : Result (list tagEntry) :=
  match refs with
  | [] => Ok acc
  | (tagName, refHash) :: rest =>
      match AnyObject r refHash with
      | Err e => Err e
      | Ok obj =>
          match tagCommitHashOf refHash obj with
          | None => collectReachableTags r commitHash rest acc
          | Some tagCommitHash =>
              match isCommitReachable r commitHash tagCommitHash with
              | Err e => Err e
              | Ok false => collectReachableTags r commitHash rest acc
              | Ok true =>
                  match CommitObject r tagCommitHash with
                  | Err e => Err e
                  | Ok commit =>
                      collectReachableTags r commitHash rest
                        (acc ++ [{| name := tagName;
                                    hash := tagCommitHash;
                                    time := When commit |}])
                  end
              end
          end
      end
  end.

Section Handler.

(** [sort.Slice], of Go's library: which of several elements that compare
    equal comes first is not fixed by its contract, so the function is a
    parameter here. *)
Variable sortSlice : forall A : Type, (A -> A -> bool) -> list A -> list A.

(** [findTagFromCurrentBranch] *)
Definition findTagFromCurrentBranch (r : Repository) (commitHash : plumbing_Hash)
    : Result string :=
  match collectReachableTags r commitHash (tags r) [] with
  | Err e => Err e
  | Ok tags =>
      if (List.length tags =? 0)%nat then Ok "v0.0.0"
      else
        match sortSlice tagEntry (fun a b => time a >? time b) tags with
        | t :: _ => Ok (name t)
        | [] => Err "index out of range"
        end
  end.

(** [findTagFromRebasePoint] *)
Definition findTagFromRebasePoint (r : Repository) (commitHash : plumbing_Hash)
    (branchName : string) : Result string :=
  let mainBranch :=
    match BranchReference r "main" with
    | Ok mainRef => Some mainRef
    | Err _ =>
        match BranchReference r "master" with
        | Ok masterRef => Some masterRef
        | Err _ => None
        end
    end in
  match mainBranch with
  | None => findTagFromCurrentBranch r commitHash
  | Some mainHash =>
      match findCommonAncestor r commitHash mainHash with
      | Err _ => findTagFromCurrentBranch r commitHash
      | Ok commonAncestor => findTagFromCurrentBranch r commonAncestor
      end
  end.

(** [GetLastTag] *)
Definition GetLastTag (r : Repository) (branchName : string) : Result string :=
  match Head r with
  | Err e => Err ("failed to get HEAD: " ++ e)
  | Ok head =>
      if negb (branchName =? "main")%string
         && negb (branchName =? "master")%string
      then findTagFromRebasePoint r head branchName
      else findTagFromCurrentBranch r head
  end.

End Handler.

(** [GetCommitsSinceTag] *)
Definition GetCommitsSinceTag (r : Repository) (tagName : string) : Result Z :=
  match Head r with
  | Err e => Err ("failed to get HEAD: " ++ e)
  | Ok head =>
      if (tagName =? "v0.0.0")%string then countAllCommits r head
      else
        match Tag r tagName with
        | Err e => Err ("failed to get tag reference: " ++ e)
        | Ok tagRef =>
            match AnyObject r tagRef with
            | Err e => Err e
            | Ok obj =>
                match tagCommitHashOf tagRef obj with
                | None => Err "tag points to unsupported object type"
                | Some tagCommitHash =>
                    if (head =? tagCommitHash)%N then Ok 0
                    else
                      match CommitObject r head with
                      | Err e => Err e
                      | Ok commit =>
                          let cb (c : Commit) (count : Z) :=
                            if (Hash c =? tagCommitHash)%N
                            then (count, Some "found tag")
                            else (int_incr count, None) in
                          match ForEach r (NewCommitPreorderIter commit) cb 0 with
                          | (count, None) => Ok count
                          | (count, Some msg) =>
                              if (msg =? "found tag")%string then Ok count
                              else Err msg
                          end
                      end
                end
            end
        end
  end.

End GoGit.

(* ================================================================== *)
(** * Package gitType: the system-git handler *)
(* ================================================================== *)

Module SystemGit.

Section Handler.

(** [runGitCommand]: the trimmed standard output of [git args...] run in
    the repository, or an error when the command exits with a failure. *)
Variable runGitCommand : list string -> Result string.

(** [findTagFromRebasePoint]; it calls [GetLastTag("main")] when no merge
    base is found, and is called by [GetLastTag]: the method it calls back
    is the argument [GetLastTag] here. *)
Definition findTagFromRebasePoint_calling (GetLastTag : string -> Result string)
    (branchName : string) : Result string :=
  let describeFrom (mergeBase : string) :=
    match runGitCommand ["describe"; "--tags"; "--abbrev=0"; mergeBase] with
    | Err _ => Ok "v0.0.0"
    | Ok output => Ok output
    end in
  match runGitCommand ["merge-base"; "HEAD"; "main"] with
  | Ok mergeBase => describeFrom mergeBase
  | Err _ =>
      match runGitCommand ["merge-base"; "HEAD"; "master"] with
      | Ok mergeBase => describeFrom mergeBase
      | Err _ => GetLastTag "main"
      end
  end.

(** [GetLastTag], with a bound on the depth of the calls between the two
    methods: [GetLastTag("main")] does not call back, so the depth is at
    most two. *)
Fixpoint GetLastTag_at (depth : nat) (branchName : string) : Result string :=
  match depth with
  | O => Err "call depth exceeded"
  | S depth' =>
      if negb (branchName =? "main")%string
         && negb (branchName =? "master")%string
      then findTagFromRebasePoint_calling (GetLastTag_at depth') branchName
      else
        match runGitCommand ["describe"; "--tags"; "--abbrev=0"] with
        | Err _ => Ok "v0.0.0"
        | Ok output => Ok output
        end
  end.

(** [GetLastTag] *)
Definition GetLastTag (branchName : string) : Result string :=
  GetLastTag_at 2 branchName.

(** [findTagFromRebasePoint] *)
Definition findTagFromRebasePoint (branchName : string) : Result string :=
  findTagFromRebasePoint_calling GetLastTag branchName.

End Handler.

End SystemGit.

(** Go's [sort.Slice] on short slices is an insertion sort: each element
    in turn is swapped with its left neighbour while it is less than it.
    It is the instance used to run the handler on examples. *)
Module InsertionSort.

(** The inner loop: [x] moves left over [revPrefix], the elements on its
    left from the nearest on; [right] are the elements already passed. *)
Fixpoint moveLeft {A : Type} (less : A -> A -> bool) (x : A)
    (revPrefix right : list A) : list A :=
  match revPrefix with
  | [] => x :: right
  | y :: revPrefix' =>
      if less x y then moveLeft less x revPrefix' (y :: right)
      else rev_append revPrefix (x :: right)
  end.

Definition sortSlice (A : Type) (less : A -> A -> bool) (l : list A) : list A :=
  fold_left (fun sorted x => moveLeft less x (rev sorted) []) l [].

End InsertionSort.

(** ** Example repositories *)

Module Examples.

(** A detached HEAD on a tagged commit one ahead of [main]:
<<
      1 (main) <-- 2 (HEAD, tag v1.0.0)
>> *)
Definition detachedAhead : Repository :=
  {| objects  := [(1%N, CommitObj [] 100); (2%N, CommitObj [1%N] 200)];
     HEAD     := Some 2%N;
     branches := [("main", 1%N)];
     tags     := [("v1.0.0", 2%N)] |}.

(** A feature branch into which [main] has been merged; v1.0.0 is a
    lightweight tag, v0.9.0 an annotated one (the tag object 20):
<<
      1 (v0.9.0) <-- 2 (v1.0.0) <-- 3 (main) <--.
                      ^                          \
                      '------------ 4 <---------- 5 (HEAD, feature/auth)
>> *)
Definition mergedFeature : Repository :=
  {| objects  := [(1%N, CommitObj [] 100); (2%N, CommitObj [1%N] 200);
                  (3%N, CommitObj [2%N] 300); (4%N, CommitObj [2%N] 250);
                  (5%N, CommitObj [4%N; 3%N] 350); (20%N, TagObj 1%N)];
     HEAD     := Some 5%N;
     branches := [("main", 3%N); ("feature/auth", 5%N)];
     tags     := [("v0.9.0", 20%N); ("v1.0.0", 2%N)] |}.

(** A branch with a history of its own, unrelated to that of [main]:
<<
      1 (v1.0.0) <-- 2 (main)        10 (docs-1) <-- 11 (HEAD, docs)
>> *)
Definition orphanBranch : Repository :=
  {| objects  := [(1%N, CommitObj [] 100); (2%N, CommitObj [1%N] 200);
                  (10%N, CommitObj [] 150); (11%N, CommitObj [10%N] 250)];
     HEAD     := Some 11%N;
     branches := [("main", 2%N); ("docs", 11%N)];
     tags     := [("v1.0.0", 1%N); ("docs-1", 10%N)] |}.

(** A history of ten commits in a line, without any tag, HEAD on [main]:
<<
      1 <-- 2 <-- ... <-- 10 (HEAD, main)
>> *)
Definition tenUntagged : Repository :=
  {| objects  := (1%N, CommitObj [] 100)
                 :: map (fun n => (N.of_nat n, CommitObj [N.of_nat (n - 1)]
                                                 (100 + Z.of_nat n)))
                        (seq 2 9);
     HEAD     := Some 10%N;
     branches := [("main", 10%N)];
     tags     := [] |}.

(** A branch [hotfix] whose head is a tagged commit of [main], one behind
    the head of [main]:
<<
      1 <-- 2 (HEAD, hotfix, tag v1.0.0) <-- 3 (main, tag v1.1.0)
>> *)
Definition detachedBehind : Repository :=
  {| objects  := [(1%N, CommitObj [] 100); (2%N, CommitObj [1%N] 200);
                  (3%N, CommitObj [2%N] 300)];
     HEAD     := Some 2%N;
     branches := [("main", 3%N); ("hotfix", 2%N)];
     tags     := [("v1.0.0", 2%N); ("v1.1.0", 3%N)] |}.

(** A fake [git]: HEAD is detached on a tagged commit ahead of [main]. *)
Definition gitDetachedAhead (args : list string) : Result string :=
  match args with
  | ["merge-base"; "HEAD"; "main"] => Ok "1111111"
  | ["describe"; "--tags"; "--abbrev=0"] => Ok "v1.0.0"
  | _ => Err "git command failed"
  end.

(** A fake [git] in a repository with neither [main] nor [master]. *)
Definition gitNoTrunk (args : list string) : Result string :=
  match args with
  | ["describe"; "--tags"; "--abbrev=0"] => Ok "v1.0.0"
  | _ => Err "git command failed"
  end.

(** A branch [feature] grown from [master], beside a [main] whose history
    has nothing in common with it:
<<
      20 (main)

      1 (v0.5.0) <-- 2 (master) <-- 3 (v1.0.0) <-- 4 (HEAD, feature)
>> *)
Definition unrelatedMain : Repository :=
  {| objects  := [(1%N, CommitObj [] 100); (2%N, CommitObj [1%N] 200);
                  (3%N, CommitObj [2%N] 300); (4%N, CommitObj [3%N] 400);
                  (20%N, CommitObj [] 150)];
     HEAD     := Some 4%N;
     branches := [("main", 20%N); ("master", 2%N); ("feature", 4%N)];
     tags     := [("v0.5.0", 1%N); ("v1.0.0", 3%N)] |}.

(** What [git] answers in [unrelatedMain]: [merge-base HEAD main] fails
    (no common ancestor), [merge-base HEAD master] prints the commit 2,
    [describe] finds v0.5.0 from the commit 2 and v1.0.0 from HEAD. *)
Definition gitUnrelatedMain (args : list string) : Result string :=
  match args with
  | ["merge-base"; "HEAD"; "master"] =>
      Ok "0000000000000000000000000000000000000002"
  | ["describe"; "--tags"; "--abbrev=0";
     "0000000000000000000000000000000000000002"] => Ok "v0.5.0"
  | ["describe"; "--tags"; "--abbrev=0"] => Ok "v1.0.0"
  | _ => Err "git command failed"
  end.

End Examples.

(* ================================================================== *)
(** * Notions of the specification *)
(* ================================================================== *)

Module Spec.

(** [{core}]: the tag with a single leading [v] stripped if present. *)
Definition core (tag : string) : string :=
  match tag with
  | String "v" rest => rest
  | _ => tag
  end.

(** The suffix [+shortHash] of the Semver and CalVer schemes: appended
    when the hash is asked for and is not empty. *)
Definition hashSuffix (includeHash : bool) (shortHash : string) : string :=
  if includeHash && negb (shortHash =? "")%string then "+" ++ shortHash else "".

(** Every byte of the string is in [A-Za-z0-9-]. *)
Fixpoint allInClass (s : string) : bool :=
  match s with
  | EmptyString => true
  | String c rest => VersionSchemes.in_class c && allInClass rest
  end.

(** [b] is reachable from [a]: [a] is [b], or [b] is reachable from a
    parent of the commit [a]. *)
Inductive reachable (r : Repository) : plumbing_Hash -> plumbing_Hash -> Prop :=
| reach_here (a : plumbing_Hash) : reachable r a a
| reach_parent (a p b : plumbing_Hash) (c : Commit) :
    CommitObject r a = Ok c -> In p (ParentHashes c) ->
    reachable r p b -> reachable r a b.

(** The commit a tag reference of the repository stands for. *)
Definition tagTarget (r : Repository) (refHash : plumbing_Hash)
    : option plumbing_Hash :=
  match AnyObject r refHash with
  | Ok obj => GoGit.tagCommitHashOf refHash obj
  | Err _ => None
  end.

(** No tag of the repository is reachable from [from]. *)
Definition noTagReachable (r : Repository) (from : plumbing_Hash) : Prop :=
  forall tagName refHash target,
    In (tagName, refHash) (tags r) -> tagTarget r refHash = Some target ->
    ~ reachable r from target.

(** The head of the trunk, as the resolver looks for it: [main], else
    [master]. *)
Definition trunkHead (r : Repository) : option plumbing_Hash :=
  match lookupRef (branches r) "main" with
  | Some h => Some h
  | None => lookupRef (branches r) "master"
  end.

(** [a] and [b] have no common ancestor. *)
Definition noCommonAncestor (r : Repository) (a b : plumbing_Hash) : Prop :=
  forall x, ~ (reachable r a x /\ reachable r b x).

(** The store is intact as far as the handler reads it: every parent of
    a commit of the store is a commit of the store, *)
Definition parentsPresent (r : Repository) : bool :=
  forallb (fun entry =>
             match snd entry with
             | CommitObj ps _ => forallb (fun p => is_ok (CommitObject r p)) ps
             | _ => true
             end) (objects r).

(** and every tag reference points to an object of the store. *)
Definition tagsPresent (r : Repository) : bool :=
  forallb (fun ref => is_ok (AnyObject r (snd ref))) (tags r).

(** ** What the proofs say of a walk *)

Section WalkNotions.

Local Open Scope list_scope.

Variable r : Repository.

(** The hashes the store has an object for. *)
Definition keys : list plumbing_Hash := map fst (objects r).

(** The hashes waiting on the stack of the iterator. *)
Definition pending (w : commitPreIterator) : list plumbing_Hash :=
  List.concat (stack w).

(** How many objects of the store have not been handed out. *)
Definition unseen (seen : list plumbing_Hash) : nat :=
  List.length (filter (fun k => negb (mem k seen)) keys).

(** An upper bound of the number of commits [Next] can still hand out. *)
Definition remaining (w : commitPreIterator) : nat :=
  (unseen (seen w) + match start w with Some _ => 1 | None => 0 end)%nat.

(** The invariant of a walk started at the commit [h0], once the start
    commit has been handed out. *)
Variable h0 : plumbing_Hash.

Record walking (w : commitPreIterator) : Prop := {
  walking_started : start w = None;
  walking_nodup : NoDup (seen w);
  walking_root : In h0 (seen w);
  (* what has been handed out is a commit reachable from the start *)
  walking_seen : forall h, In h (seen w) ->
    (exists c, CommitObject r h = Ok c) /\ reachable r h0 h;
  (* what waits on the stack is a parent of a commit handed out *)
  walking_pending : forall p, In p (pending w) ->
    exists h c, In h (seen w) /\ CommitObject r h = Ok c
                /\ In p (ParentHashes c);
  (* every parent of a commit handed out has been handed out or waits *)
  walking_closed : forall h c p, In h (seen w) -> CommitObject r h = Ok c ->
    In p (ParentHashes c) -> In p (seen w) \/ In p (pending w)
}.

(** [l] contains the parents of each of its commits. *)
Definition closedUnderParents (l : list plumbing_Hash) : bool :=
  forallb (fun h =>
             match CommitObject r h with
             | Ok c => forallb (fun p => mem p l) (ParentHashes c)
             | Err _ => true
             end) l.

End WalkNotions.

End Spec.
Import Spec.

(* ================================================================== *)
(** * More of the program: the rest of the two handlers, [main] *)
(* ================================================================== *)

(** ** Go library pieces *)

Module GoLib.

(** [strings.HasSuffix] *)
Definition HasSuffix (s suffix : string) : bool :=
  (String.length suffix <=? String.length s)%nat
  && (substring (String.length s - String.length suffix)
                (String.length suffix) s =? suffix)%string.

(** [s[n:]] *)
Fixpoint drop (n : nat) (s : string) : string :=
  match n, s with
  | O, _ => s
  | S n', String _ rest => drop n' rest
  | S _, EmptyString => EmptyString
  end.

(** [s[:n]], for [n] up to the length of [s] (beyond it Go panics). *)
Fixpoint take (n : nat) (s : string) : string :=
  match n, s with
  | S n', String c rest => String c (take n' rest)
  | _, _ => EmptyString
  end.

(** One digit of [encoding/hex]. *)
Definition hexDigit (d : N) : ascii :=
  match d with
  | 0%N => "0" | 1%N => "1" | 2%N => "2" | 3%N => "3"
  | 4%N => "4" | 5%N => "5" | 6%N => "6" | 7%N => "7"
  | 8%N => "8" | 9%N => "9" | 10%N => "a" | 11%N => "b"
  | 12%N => "c" | 13%N => "d" | 14%N => "e" | _ => "f"
  end%char.

(** The last [digits] hexadecimal digits of [h], most significant first,
    in front of [acc]. *)
Fixpoint hexOf (digits : nat) (h : N) (acc : string) : string :=
  match digits with
  | O => acc
  | S digits' => hexOf digits' (h / 16)%N (String (hexDigit (h mod 16)%N) acc)
  end.

End GoLib.

(** ** [plumbing.Hash.String]: the forty hexadecimal digits of the hash. *)
Definition Hash_String (h : plumbing_Hash) : string := GoLib.hexOf 40 h "".

(** ** Package gitType: [VersionInfo] and the base handler *)

Module GitType.

(** [VersionInfo] *)
Record VersionInfo : Type := {
  Branch       : string;
  LastTag      : string;
  CommitsSince : Z;
  ShortHash    : string;
  Version      : string
}.

(** [BaseGitHandler.GenerateVersionInfoFromComponents] *)
Definition GenerateVersionInfoFromComponents
    (branchName shortHash lastTag : string) (commitsSince : Z)
    (dockerFormat : bool) : VersionInfo :=
  let version :=
    VersionSchemes.GenerateLegacy lastTag commitsSince shortHash branchName
      dockerFormat in
  {| Branch := branchName; LastTag := lastTag; CommitsSince := commitsSince;
     ShortHash := shortHash; Version := version |}.

(** [BaseGitHandler.GenerateVersionInfoFromComponentsWithOptions] *)
Definition GenerateVersionInfoFromComponentsWithOptions
    (now : VersionSchemes.Date) (branchName shortHash lastTag : string)
    (commitsSince : Z) (options : VersionSchemes.VersioningOptions)
    : VersionInfo :=
  let version :=
    VersionSchemes.GenerateVersion now lastTag commitsSince shortHash
      branchName options in
  {| Branch := branchName; LastTag := lastTag; CommitsSince := commitsSince;
     ShortHash := shortHash; Version := version |}.

(** The interface [GitHandler], as far as [main] calls it. *)
Record GitHandler : Type := {
  GenerateVersionInfo : bool -> Result VersionInfo;
  GenerateVersionInfoWithOptions :
    VersionSchemes.VersioningOptions -> Result VersionInfo
}.

End GitType.

(** ** The go-git handler, continued *)

Module GoGitHandler.

Import GitType.

(** The callback [refs.ForEach] runs on a branch reference in
    [GetCurrentBranch]: does the history of the branch contain
    [currentHash]?  Errors of the walk are dropped; only the flag [found]
    counts. *)
Definition branchContains (r : Repository) (currentHash : plumbing_Hash)
    (branchCommit : Commit) : bool :=
  let cb (c : Commit) (found : bool) :=
    if (Hash c =? currentHash)%N then (true, Some "found")
    else (found, None) in
  fst (ForEach r (NewCommitPreorderIter branchCommit) cb false).

(** [refs.ForEach] in [GetCurrentBranch]: the error it returns, that of the
    first branch (in iteration order) whose callback returns one. *)
Fixpoint scanBranches (r : Repository) (currentHash : plumbing_Hash)
    (refs : list (string * plumbing_Hash)) : option string :=
  match refs with
  | [] => None
  | (short, refHash) :: rest =>
      match CommitObject r refHash with
      | Err _ => scanBranches r currentHash rest
      | Ok branchCommit =>
          if branchContains r currentHash branchCommit
          then Some ("branch:" ++ short)
          else scanBranches r currentHash rest
      end
  end.

(** [GetCurrentBranch]; [headBranch] is the short name of the branch HEAD
    points to when HEAD is on a branch ([head.Name().IsBranch()]), the one
    piece of state [Repository] does not hold. *)
Definition GetCurrentBranch (r : Repository) (headBranch : option string)
    : Result string :=
  match Head r with
  | Err e => Err ("failed to get HEAD: " ++ e)
  | Ok currentHash =>
      match headBranch with
      | Some short => Ok short
      | None =>
          match scanBranches r currentHash (branches r) with
          | Some errMsg =>
              if negb (errMsg =? "")%string
                 && (7 <? String.length errMsg)%nat
                 && (GoLib.take 7 errMsg =? "branch:")%string
              then Ok (GoLib.drop 7 errMsg)
              else Ok "detached"
          | None => Ok "detached"
          end
      end
  end.

(** [GetShortHash] *)
Definition GetShortHash (r : Repository) : Result string :=
  match Head r with
  | Err e => Err ("failed to get HEAD: " ++ e)
  | Ok head => Ok (GoLib.take 7 (Hash_String head))
  end.

Section Handler.

Variable sortSlice : forall A : Type, (A -> A -> bool) -> list A -> list A.

(** The four steps both entry points share. *)
Definition components (r : Repository) (headBranch : option string)
    : Result (string * string * string * Z) :=
  match GetCurrentBranch r headBranch with
  | Err e => Err e
  | Ok branchName =>
      match GetShortHash r with
      | Err e => Err e
      | Ok shortHash =>
          match GoGit.GetLastTag sortSlice r branchName with
          | Err e => Err e
          | Ok lastTag =>
              match GoGit.GetCommitsSinceTag r lastTag with
              | Err e => Err e
              | Ok commitsSince =>
                  Ok (branchName, shortHash, lastTag, commitsSince)
              end
          end
      end
  end.

(** [GenerateVersionInfo] *)
Definition GenerateVersionInfo (r : Repository) (headBranch : option string)
    (dockerFormat : bool) : Result VersionInfo :=
  match components r headBranch with
  | Err e => Err e
  | Ok (branchName, shortHash, lastTag, commitsSince) =>
      Ok (GenerateVersionInfoFromComponents branchName shortHash lastTag
            commitsSince dockerFormat)
  end.

(** [GenerateVersionInfoWithOptions] *)
Definition GenerateVersionInfoWithOptions (now : VersionSchemes.Date)
    (r : Repository) (headBranch : option string)
    (options : VersionSchemes.VersioningOptions) : Result VersionInfo :=
  match components r headBranch with
  | Err e => Err e
  | Ok (branchName, shortHash, lastTag, commitsSince) =>
      Ok (GenerateVersionInfoFromComponentsWithOptions now branchName
            shortHash lastTag commitsSince options)
  end.

(** The go-git handler behind the interface. *)
Definition handler (now : VersionSchemes.Date) (r : Repository)
    (headBranch : option string) : GitHandler :=
  {| GitType.GenerateVersionInfo := GenerateVersionInfo r headBranch;
     GitType.GenerateVersionInfoWithOptions :=
       GenerateVersionInfoWithOptions now r headBranch |}.

End Handler.

End GoGitHandler.

(** ** The system-git handler of [systemgit_handler.go], which formats the
    version itself *)

Module SystemGitFormat.

Import VersionSchemes.

(** [regexp.MustCompile(`[^a-zA-Z0-9\-]`).ReplaceAllString(branchName, "-")] *)
Definition cleanBranch (branchName : string) : string :=
  replaceAllOutsideClass 0 branchName.

(** [generateVersionString] *)
Definition generateVersionString (lastTag : string) (commitsSince : Z)
    (shortHash branchName : string) (dockerFormat : bool) : string :=
  if commitsSince =? 0 then lastTag
  else if (branchName =? "main")%string || (branchName =? "master")%string then
    if dockerFormat then lastTag ++ "-" ++ fmt_d commitsSince
    else lastTag ++ "+" ++ fmt_d commitsSince
  else
    if dockerFormat
    then lastTag ++ "-" ++ cleanBranch branchName ++ "-" ++ fmt_d commitsSince
    else lastTag ++ "-" ++ cleanBranch branchName ++ "+" ++ fmt_d commitsSince.

(** [generateCalVerString] *)
Definition generateCalVerString (now : Date) (lastTag : string)
    (commitsSince : Z) (shortHash branchName : string) (includeHash : bool)
    : string :=
  let calVer := fmt_d (Year now) ++ "." ++ fmt_02d (Month now) in
  let calVer :=
    if commitsSince >? 0 then calVer ++ "." ++ fmt_d commitsSince else calVer in
  let calVer :=
    if negb (branchName =? "main")%string && negb (branchName =? "master")%string
       && negb (branchName =? "detached")%string
    then calVer ++ "-" ++ cleanBranch branchName
    else calVer in
  if includeHash then calVer ++ "+" ++ shortHash else calVer.

(** [generateSemVerString] *)
Definition generateSemVerString (lastTag : string) (commitsSince : Z)
    (shortHash branchName : string) (includeHash : bool) : string :=
  if (commitsSince =? 0) && negb includeHash then lastTag
  else
    let version := lastTag in
    let version := if HasPrefix version "v" then tail version else version in
    let version :=
      if (branchName =? "main")%string || (branchName =? "master")%string
         || (branchName =? "detached")%string
      then
        if commitsSince >? 0 then version ++ "-dev." ++ fmt_d commitsSince
        else version
      else
        if commitsSince >? 0
        then version ++ "-" ++ cleanBranch branchName ++ "." ++ fmt_d commitsSince
        else version ++ "-" ++ cleanBranch branchName in
    let version :=
      if includeHash then version ++ "+" ++ shortHash else version in
    "v" ++ version.

(** [generateSimpleString] *)
Definition generateSimpleString (lastTag : string) (commitsSince : Z)
    (shortHash : string) (includeHash : bool) : string :=
  if includeHash then lastTag ++ "+" ++ shortHash else lastTag.

(** [generateDefaultString] *)
Definition generateDefaultString (lastTag : string) (commitsSince : Z)
    (shortHash branchName : string) (includeHash : bool) : string :=
  if (commitsSince =? 0) && negb includeHash then lastTag
  else
    let version :=
      if (branchName =? "main")%string || (branchName =? "master")%string
         || (branchName =? "detached")%string
      then
        if commitsSince >? 0 then lastTag ++ "+" ++ fmt_d commitsSince
        else lastTag
      else
        if commitsSince >? 0
        then lastTag ++ "-" ++ cleanBranch branchName ++ "+" ++ fmt_d commitsSince
        else lastTag ++ "-" ++ cleanBranch branchName in
    if includeHash then version ++ "+" ++ shortHash else version.

(** [convertToCalVer] *)
Definition convertToCalVer (now : Date) (lastTag : string) (commitsSince : Z)
    (branchName : string) (includeHash : bool) : string :=
  generateCalVerString now lastTag commitsSince "" branchName includeHash.

(** [generateVersionStringWithOptions] *)
Definition generateVersionStringWithOptions (now : Date) (lastTag : string)
    (commitsSince : Z) (shortHash branchName : string)
    (options : VersioningOptions) : string :=
  if (commitsSince =? 0) && negb (Hash options) then
    if Simple options then lastTag
    else if CalVer options then convertToCalVer now lastTag 0 branchName false
    else lastTag
  else if CalVer options then
    generateCalVerString now lastTag commitsSince shortHash branchName
      (Hash options)
  else if Semver options then
    generateSemVerString lastTag commitsSince shortHash branchName (Hash options)
  else if Simple options then
    generateSimpleString lastTag commitsSince shortHash (Hash options)
  else
    generateDefaultString lastTag commitsSince shortHash branchName
      (Hash options).

End SystemGitFormat.

(** ** Package main *)

Module Main.

Import GitType.

(** The fields of [CLI] that [main] reads after parsing. *)
Record CLI : Type := {
  Semver : bool;
  CalVer : bool;
  Simple : bool;
  Hash : bool;
  Go : bool;
  GoPath : string;
  Cpp : bool;
  CppPath : string;
  Yaml : bool;
  YamlPath : string;
  File : bool;
  FilePath : string
}.

(** The implementations of [filetype.FileType]. *)
Inductive FileType : Type := GoType | CPPType | YAMLFile | BasicFile.

(** What [main] does to the outside once the version is known. *)
Inductive Action : Type :=
| Println (version : string)
| WriteVersion (handler : FileType) (filename version : string)
| writeVersionToFile (filename version : string).

(** The closure [getFilePath] of [main]. *)
Definition getFilePath (providedPath defaultFilename : string) : string :=
  if (providedPath =? "")%string then defaultFilename
  else if GoLib.HasSuffix providedPath "/" then providedPath ++ defaultFilename
  else providedPath.

(** The [switch] on the file flags: the handler and the file name. *)
Definition fileTarget (cli : CLI) : option FileType * string :=
  if Go cli then (Some GoType, getFilePath (GoPath cli) "version.go")
  else if Cpp cli then (Some CPPType, getFilePath (CppPath cli) "version.h")
  else if Yaml cli then (Some YAMLFile, getFilePath (YamlPath cli) "version.yaml")
  else if File cli then (Some BasicFile, getFilePath (FilePath cli) ".VERSION")
  else (None, "").

(** The end of [main]: print, or write the file; the actions in order. *)
Definition emit (cli : CLI) (version : string) : list Action :=
  let (fileTypeHandler, filename) := fileTarget cli in
  let printed :=
    match fileTypeHandler with
    | None => [Println version]
    | Some _ => []
    end in
  let written :=
    match fileTypeHandler with
    | Some handler =>
        if negb (filename =? "")%string
        then [WriteVersion handler filename version]
        else []
    | None =>
        if negb (filename =? "")%string
        then [writeVersionToFile filename version]
        else []
    end in
  (printed ++ written)%list.

(** [main] from the choice of the entry point of the handler on; a fatal
    error ([log.Fatalf]) is an [Err]. *)
Definition main (gitHandler : GitHandler) (cli : CLI) : Result (list Action) :=
  let options :=
    {| VersionSchemes.Semver := Semver cli; VersionSchemes.CalVer := CalVer cli;
       VersionSchemes.Simple := Simple cli; VersionSchemes.Hash := Hash cli |} in
  let versionInfo :=
    if VersionSchemes.Semver options || VersionSchemes.CalVer options
       || VersionSchemes.Simple options || VersionSchemes.Hash options
    then GenerateVersionInfoWithOptions gitHandler options
    else GenerateVersionInfo gitHandler false in
  match versionInfo with
  | Err e => Err ("Failed to generate version info: " ++ e)
  | Ok info => Ok (emit cli (Version info))
  end.

End Main.

(** ** Further notions used in the statements *)

Module Notions.

(** No byte of the string is [+]. *)
Fixpoint noPlus (s : string) : bool :=
  match s with
  | EmptyString => true
  | String c rest => negb (c =? "+")%char && noPlus rest
  end.

(** Every byte of the string is ASCII. *)
Fixpoint asciiOnly (s : string) : bool :=
  match s with
  | EmptyString => true
  | String c rest => (byte_val c <? 128) && asciiOnly rest
  end.

(** The sanitization the specification proposes: byte by byte, keep what
    is in the class, put ["-"] for the rest. *)
Fixpoint sanitizeBytes (s : string) : string :=
  match s with
  | EmptyString => EmptyString
  | String c rest =>
      String (if VersionSchemes.in_class c then c else "-"%char)
             (sanitizeBytes rest)
  end.

(** Every byte of the string is a hexadecimal digit in lower case. *)
Fixpoint allHex (s : string) : bool :=
  match s with
  | EmptyString => true
  | String c rest =>
      (between 48 57 c || between 97 102 c) && allHex rest
  end.

(** What [sort.Slice] promises for a comparison by a key, largest first:
    a permutation of the slice, sorted. *)
Definition sortsByKey
    (sortSlice : forall A : Type, (A -> A -> bool) -> list A -> list A) : Prop :=
  forall (A : Type) (key : A -> Z) (l : list A),
    Permutation l (sortSlice A (fun a b => key a >? key b) l)
    /\ StronglySorted (fun a b => key a >= key b)
         (sortSlice A (fun a b => key a >? key b) l).

(** The tag [tagName] of the repository stands for the commit [target],
    of committer time [when], which is reachable from [from]. *)
Definition reachableTag (r : Repository) (from : plumbing_Hash)
    (tagName : string) (target : plumbing_Hash) (when : Z) : Prop :=
  exists refHash c,
    In (tagName, refHash) (tags r)
    /\ tagTarget r refHash = Some target
    /\ reachable r from target
    /\ CommitObject r target = Ok c
    /\ When c = when.

(** The tag names of the repository are distinct. *)
Definition tagNamesDistinct (r : Repository) : Prop :=
  NoDup (map fst (tags r)).

End Notions.
Import Notions.

(* ================================================================== *)
(** * Properties of the formatter *)
(* ================================================================== *)

Section Strings.

Lemma append_nil_r (s : string) : s ++ "" = s.
Proof. induction s as [|c s IH]; simpl; [reflexivity | now rewrite IH]. Qed.

Lemma append_assoc (a b c : string) : (a ++ b) ++ c = a ++ (b ++ c).
Proof. induction a as [|x a IH]; simpl; [reflexivity | now rewrite IH]. Qed.

End Strings.

Section Sanitization.

Import VersionSchemes.

Lemma replaceAllOutsideClass_in_class (s : string) :
  forall skip, allInClass (replaceAllOutsideClass skip s) = true.
Proof.
  induction s as [|c rest IH]; intros skip; simpl; [reflexivity|].
  destruct skip as [|k]; [|apply IH].
  destruct (in_class c) eqn:Hc; simpl.
  - now rewrite Hc, IH.
  - apply IH.
Qed.

Lemma replaceAllOutsideClass_fixed (s : string) :
  allInClass s = true -> replaceAllOutsideClass 0 s = s.
Proof.
  induction s as [|c rest IH]; simpl; [reflexivity|].
  intros H. apply andb_true_iff in H as [Hc Hrest].
  now rewrite Hc, IH.
Qed.

(** A non-trunk branch is neither [main] nor [master]. *)
Lemma non_trunk_not_main_master (branchName : string) :
  isMainBranch branchName = false ->
  branchName <> "main" /\ branchName <> "master".
Proof.
  unfold isMainBranch. intros H.
  apply orb_false_iff in H as [H _]. apply orb_false_iff in H as [H1 H2].
  now split; apply String.eqb_neq.
Qed.

End Sanitization.

(** C8. Branch-name sanitization is total (a function defined on every
    string, whatever its bytes) and idempotent: sanitizing a sanitized name
    changes nothing; moreover the sanitized name consists of bytes of
    [A-Za-z0-9-] only. *)
Theorem cleanBranchName_idempotent (s : string) :
  VersionSchemes.cleanBranchName (VersionSchemes.cleanBranchName s)
  = VersionSchemes.cleanBranchName s
  /\ allInClass (VersionSchemes.cleanBranchName s) = true.
Proof.
  unfold VersionSchemes.cleanBranchName. split.
  - apply replaceAllOutsideClass_fixed, replaceAllOutsideClass_in_class.
  - apply replaceAllOutsideClass_in_class.
Qed.

(** C10. In the legacy mode, at distance 0 the result is the resolved tag
    itself, whatever the branch name, the short hash and the docker flag. *)
Theorem GenerateLegacy_on_tag (lastTag shortHash branchName : string)
    (dockerFormat : bool) :
  VersionSchemes.GenerateLegacy lastTag 0 shortHash branchName dockerFormat
  = lastTag.
Proof. reflexivity. Qed.

(** Scenarios A, B, C and E of the specification. *)
Example formatter_scenarios (now : VersionSchemes.Date) :
  let Default := VersionSchemes.defaultScheme in
  let Semver := VersionSchemes.semverScheme false in
  let Simple h :=
    {| VersionSchemes.Semver := false; VersionSchemes.CalVer := false;
       VersionSchemes.Simple := true; VersionSchemes.Hash := h |} in
  let Format := VersionSchemes.GenerateVersion now in
  (* A *)
  Format "v1.2.3" 0 "abc1234" "main" (Default false) = "v1.2.3"
  /\ Format "v1.2.3" 0 "abc1234" "main" (Semver false) = "v1.2.3"
  /\ Format "v1.2.3" 0 "abc1234" "main" (Simple false) = "v1.2.3"
  (* B *)
  /\ Format "v1.2.3" 5 "abc1234" "main" (Default false) = "v1.2.3+5"
  /\ Format "v1.2.3" 5 "abc1234" "main" (Semver false) = "v1.2.3-dev.5"
  (* C *)
  /\ Format "v1.2.3" 3 "abc1234" "feature/auth" (Default false)
     = "v1.2.3-feature-auth+3"
  /\ Format "v1.2.3" 3 "abc1234" "feature/auth" (Semver false)
     = "v1.2.3-feature-auth.3"
  (* E *)
  /\ Format "v1.2.3" 0 "abc1234" "main" (Default true) = "v1.2.3+abc1234"
  /\ Format "v1.2.3" 0 "abc1234" "main" (Semver true) = "v1.2.3+abc1234".
Proof. repeat split. Qed.

(** A rune of several bytes becomes a single ["-"]: "caf\195\169/x", that
    is "cafe/x" with an acute accent on the e in UTF-8. *)
Example cleanBranchName_two_byte_rune :
  VersionSchemes.cleanBranchName
    ("caf" ++ String (ascii_of_nat 195) (String (ascii_of_nat 169) "/x"))
  = "caf--x".
Proof. reflexivity. Qed.

Section Formatter.

Import VersionSchemes.

Lemma positive_distance (n : Z) :
  n > 0 -> (n =? 0) = false /\ (n >? 0) = true.
Proof.
  intros H. split; [apply Z.eqb_neq; lia | apply Z.gtb_lt; lia].
Qed.

(** The source strips the prefix with [HasPrefix] and [version[1:]]. *)
Lemma strip_prefix_core (tag : string) :
  (if hasVersionPrefix tag then tail tag else tag) = core tag.
Proof.
  destruct tag as [|c rest]; [reflexivity|].
  unfold hasVersionPrefix, core; simpl.
  destruct (Ascii.eqb_spec c "v") as [->|Hne].
  - reflexivity.
  - destruct c as [[] [] [] [] [] [] [] []]; try reflexivity.
    now contradiction Hne.
Qed.

Lemma ensureVersionPrefix_has (s : string) :
  hasVersionPrefix (ensureVersionPrefix s) = true.
Proof.
  unfold ensureVersionPrefix.
  destruct (hasVersionPrefix s) eqn:H; simpl; [exact H | reflexivity].
Qed.

Lemma ensureVersionPrefix_adds (s : string) :
  hasVersionPrefix s = false -> ensureVersionPrefix s = "v" ++ s.
Proof. unfold ensureVersionPrefix. now intros ->. Qed.

(** A body [core ++ "-" ++ ...] starts with [v] only if [core] does. *)
Lemma hasVersionPrefix_body (a b : string) :
  hasVersionPrefix a = false ->
  hasVersionPrefix (a ++ String "-" b) = false.
Proof.
  destruct a as [|c a]; [reflexivity|].
  unfold hasVersionPrefix; simpl. now rewrite !andb_true_r.
Qed.

Lemma GenerateSemVer_body (lastTag branchName shortHash : string)
    (commitsSince : Z) (includeHash : bool) :
  (commitsSince =? 0) && negb includeHash = false ->
  GenerateSemVer lastTag commitsSince branchName includeHash shortHash
  = ensureVersionPrefix
      ((core lastTag ++
        (if isMainBranch branchName
         then if commitsSince >? 0 then "-dev." ++ fmt_d commitsSince else ""
         else if commitsSince >? 0
              then "-" ++ cleanBranchName branchName ++ "." ++ fmt_d commitsSince
              else "-" ++ cleanBranchName branchName))
       ++ hashSuffix includeHash shortHash).
Proof.
  intros Hgate. unfold GenerateSemVer, hashSuffix. rewrite Hgate.
  rewrite strip_prefix_core. f_equal.
  destruct (isMainBranch branchName), (commitsSince >? 0),
    (includeHash && negb (shortHash =? "")%string);
    rewrite ?append_nil_r, ?append_assoc; reflexivity.
Qed.

End Formatter.

(** C5. Default scheme, no hash, distance > 0: on a trunk branch the
    formatter returns [tag+distance], on any other branch
    [tag-branch+distance] with the sanitized branch name; the same holds of
    [GenerateDefault] called directly.  Tag v1.2.3 at distance 5 on trunk
    gives "v1.2.3+5"; at distance 3 on feature/auth it gives
    "v1.2.3-feature-auth+3". *)
Theorem Default_scheme_ahead_of_tag (now : VersionSchemes.Date)
    (lastTag shortHash branchName : string) (commitsSince : Z) :
  commitsSince > 0 ->
  let expected :=
    if VersionSchemes.isMainBranch branchName
    then lastTag ++ "+" ++ fmt_d commitsSince
    else lastTag ++ "-" ++ VersionSchemes.cleanBranchName branchName
                 ++ "+" ++ fmt_d commitsSince in
  VersionSchemes.GenerateVersion now lastTag commitsSince shortHash branchName
    (VersionSchemes.defaultScheme false) = expected
  /\ VersionSchemes.GenerateDefault lastTag commitsSince shortHash branchName
       false = expected
  /\ VersionSchemes.GenerateVersion now "v1.2.3" 5 shortHash "main"
       (VersionSchemes.defaultScheme false) = "v1.2.3+5"
  /\ VersionSchemes.GenerateVersion now "v1.2.3" 3 shortHash "feature/auth"
       (VersionSchemes.defaultScheme false) = "v1.2.3-feature-auth+3".
Proof.
  intros Hpos expected. destruct (positive_distance _ Hpos) as [Hne Hgt].
  assert (Hdefault :
    VersionSchemes.GenerateDefault lastTag commitsSince shortHash branchName
      false = expected).
  { unfold VersionSchemes.GenerateDefault, expected. rewrite Hne, Hgt. simpl.
    now destruct (VersionSchemes.isMainBranch branchName). }
  repeat split; try reflexivity; try exact Hdefault.
  unfold VersionSchemes.GenerateVersion. simpl. rewrite Hne. exact Hdefault.
Qed.

Lemma Default_scheme_ahead_of_tag_witness :
  7 > 0
  /\ VersionSchemes.GenerateDefault "v2.0.1" 7 "abc1234" "bug/fix-#123" false
     = "v2.0.1-bug-fix--123+7".
Proof.
  split; [lia|].
  exact (proj1 (proj2 (Default_scheme_ahead_of_tag
    {| VersionSchemes.Year := 2025; VersionSchemes.Month := 8 |}
    "v2.0.1" "abc1234" "bug/fix-#123" 7 ltac:(lia)))).
Defined.

(** C9. The CalVer scheme ignores the tag: at one and the same date two
    tags give the same string, which is [{Y}.{M:02}], then [.{distance}]
    only when the distance is positive, then [-branch] exactly on a
    non-trunk branch, then [+shortHash] only when the hash is asked for and
    is not empty. *)
Theorem GenerateCalVer_ignores_tag (now : VersionSchemes.Date)
    (tag1 tag2 branchName shortHash : string) (commitsSince : Z)
    (includeHash : bool) :
  VersionSchemes.GenerateCalVer now tag1 commitsSince branchName includeHash
    shortHash
  = VersionSchemes.GenerateCalVer now tag2 commitsSince branchName includeHash
      shortHash
  /\ VersionSchemes.GenerateCalVer now tag1 commitsSince branchName includeHash
       shortHash
     = (fmt_d (VersionSchemes.Year now) ++ "."
        ++ fmt_02d (VersionSchemes.Month now))
       ++ (if commitsSince >? 0 then "." ++ fmt_d commitsSince else "")
       ++ (if VersionSchemes.isMainBranch branchName then ""
           else "-" ++ VersionSchemes.cleanBranchName branchName)
       ++ hashSuffix includeHash shortHash.
Proof.
  split; [reflexivity|].
  unfold VersionSchemes.GenerateCalVer, hashSuffix.
  destruct (commitsSince >? 0), (VersionSchemes.isMainBranch branchName),
    (includeHash && negb (shortHash =? "")%string); simpl;
    rewrite ?append_nil_r, ?append_assoc; simpl;
    rewrite ?append_nil_r, ?append_assoc; reflexivity.
Qed.

(** Scenario F of the specification: CalVer in August 2025 on branch
    release/2.0 at distance 4. *)
Example CalVer_scenario_F :
  VersionSchemes.GenerateCalVer
    {| VersionSchemes.Year := 2025; VersionSchemes.Month := 8 |}
    "v1.2.3" 4 "release/2.0" false "abc1234"
  = "2025.08.4-release-2-0".
Proof. reflexivity. Qed.

(** C6, as the code has it.  Semver scheme, distance > 0: the result is
    [{core}-dev.{distance}] on a trunk branch and
    [{core}-{branch}.{distance}] on any other, followed by [+shortHash]
    when the hash is asked for and is not empty, and with a leading [v]
    put in front unless this string already starts with one.  So the
    result always starts with [v]; it is [v{core}-dev.{distance}]
    (respectively [v{core}-{branch}.{distance}]) when no hash is asked for
    and [{core}] does not itself start with [v].  Tag v1.2.3 at distance 5
    on trunk gives "v1.2.3-dev.5". *)
Theorem Semver_scheme_ahead_of_tag (now : VersionSchemes.Date)
    (lastTag shortHash branchName : string) (commitsSince : Z)
    (simple includeHash : bool) :
  commitsSince > 0 ->
  let body :=
    core lastTag ++
    (if VersionSchemes.isMainBranch branchName
     then "-dev." ++ fmt_d commitsSince
     else "-" ++ VersionSchemes.cleanBranchName branchName
              ++ "." ++ fmt_d commitsSince) in
  let result :=
    VersionSchemes.GenerateVersion now lastTag commitsSince shortHash
      branchName (VersionSchemes.semverScheme simple includeHash) in
  result
  = VersionSchemes.GenerateSemVer lastTag commitsSince branchName includeHash
      shortHash
  /\ result
     = VersionSchemes.ensureVersionPrefix
         (body ++ hashSuffix includeHash shortHash)
  /\ VersionSchemes.hasVersionPrefix result = true
  /\ (VersionSchemes.hasVersionPrefix (core lastTag) = false ->
      result = "v" ++ body ++ hashSuffix includeHash shortHash)
  /\ (VersionSchemes.hasVersionPrefix (core lastTag) = false ->
      includeHash = false -> result = "v" ++ body)
  /\ VersionSchemes.GenerateVersion now "v1.2.3" 5 shortHash "main"
       (VersionSchemes.semverScheme simple false) = "v1.2.3-dev.5".
Proof.
  intros Hpos body result. destruct (positive_distance _ Hpos) as [Hne Hgt].
  assert (Hsem : result
    = VersionSchemes.GenerateSemVer lastTag commitsSince branchName
        includeHash shortHash).
  { unfold result, VersionSchemes.GenerateVersion. simpl. now rewrite Hne. }
  assert (Hbody : result
    = VersionSchemes.ensureVersionPrefix
        (body ++ hashSuffix includeHash shortHash)).
  { rewrite Hsem, GenerateSemVer_body by now rewrite Hne.
    rewrite Hgt. unfold body.
    now destruct (VersionSchemes.isMainBranch branchName). }
  assert (Hv : VersionSchemes.hasVersionPrefix (core lastTag) = false ->
               result = "v" ++ body ++ hashSuffix includeHash shortHash).
  { intros Hcore. rewrite Hbody. apply ensureVersionPrefix_adds.
    unfold body.
    destruct (VersionSchemes.isMainBranch branchName);
      rewrite append_assoc; simpl; now apply hasVersionPrefix_body. }
  repeat split.
  - exact Hsem.
  - exact Hbody.
  - rewrite Hbody. apply ensureVersionPrefix_has.
  - exact Hv.
  - intros Hcore ->. rewrite (Hv Hcore). unfold hashSuffix. simpl.
    now rewrite append_nil_r.
Qed.

Lemma Semver_scheme_ahead_of_tag_witness :
  3 > 0
  /\ VersionSchemes.GenerateVersion
       {| VersionSchemes.Year := 2025; VersionSchemes.Month := 8 |}
       "v1.2.3" 3 "abc1234" "feature/auth"
       (VersionSchemes.semverScheme false false)
     = "v1.2.3-feature-auth.3".
Proof.
  split; [lia|].
  refine (proj1 (proj2 (proj2 (proj2 (proj2 (Semver_scheme_ahead_of_tag
    {| VersionSchemes.Year := 2025; VersionSchemes.Month := 8 |}
    "v1.2.3" "abc1234" "feature/auth" 3 false false _))))) _ _);
    [lia | reflexivity | reflexivity].
Defined.

(** C6 as stated fails when the hash is asked for: on trunk, tag v1.2.3,
    distance 5, hash abc1234, the Semver scheme returns
    "v1.2.3-dev.5+abc1234", not "v1.2.3-dev.5". *)
Lemma Semver_scheme_ahead_of_tag_with_hash :
  5 > 0
  /\ VersionSchemes.isMainBranch "main" = true
  /\ VersionSchemes.GenerateVersion
       {| VersionSchemes.Year := 2025; VersionSchemes.Month := 8 |}
       "v1.2.3" 5 "abc1234" "main" (VersionSchemes.semverScheme false true)
     = "v1.2.3-dev.5+abc1234"
  /\ VersionSchemes.GenerateSemVer "v1.2.3" 5 "main" true "abc1234"
     <> "v" ++ core "v1.2.3" ++ "-dev." ++ fmt_d 5.
Proof.
  repeat split. vm_compute. discriminate.
Qed.

(** The leading [v] is put back only when it is missing: a tag that
    starts with two [v] keeps one. *)
Example Semver_tag_with_two_v :
  VersionSchemes.GenerateSemVer "vv1.2.3" 5 "main" false "abc1234"
  = "v1.2.3-dev.5"
  /\ "v" ++ core "vv1.2.3" ++ "-dev." ++ fmt_d 5 = "vv1.2.3-dev.5".
Proof. split; reflexivity. Qed.

(** An empty hash adds nothing, not even the [+]. *)
Example Semver_empty_hash :
  VersionSchemes.GenerateSemVer "v1.2.3" 0 "feature/auth" true ""
  = "v1.2.3-feature-auth".
Proof. reflexivity. Qed.

(** C4, as the code has it.  Semver scheme on a non-trunk branch at
    distance 0: without the hash the result is the tag itself, unchanged;
    with the hash it is [{core}-{branch}], followed by [+shortHash] when
    the hash is not empty, with a leading [v] put in front unless this
    string already starts with one (so [v{core}-{branch}+shortHash] when
    [{core}] does not itself start with [v]). *)
Theorem Semver_scheme_on_tag_of_branch (now : VersionSchemes.Date)
    (lastTag shortHash branchName : string) (simple includeHash : bool) :
  VersionSchemes.isMainBranch branchName = false ->
  let body := core lastTag ++ "-" ++ VersionSchemes.cleanBranchName branchName in
  let result :=
    VersionSchemes.GenerateVersion now lastTag 0 shortHash branchName
      (VersionSchemes.semverScheme simple includeHash) in
  result
  = VersionSchemes.GenerateSemVer lastTag 0 branchName includeHash shortHash
  /\ (includeHash = false -> result = lastTag)
  /\ (includeHash = true ->
      result = VersionSchemes.ensureVersionPrefix
                 (body ++ hashSuffix true shortHash))
  /\ (includeHash = true ->
      VersionSchemes.hasVersionPrefix (core lastTag) = false ->
      result = "v" ++ body ++ hashSuffix true shortHash).
Proof.
  intros Hbranch body result.
  assert (Hsem : result
    = VersionSchemes.GenerateSemVer lastTag 0 branchName includeHash shortHash).
  { unfold result, VersionSchemes.GenerateVersion. simpl.
    destruct includeHash; simpl; [reflexivity|]. now destruct simple. }
  assert (Hbody : includeHash = true ->
    result = VersionSchemes.ensureVersionPrefix
               (body ++ hashSuffix true shortHash)).
  { intros ->. rewrite Hsem, GenerateSemVer_body by reflexivity.
    now rewrite Hbranch. }
  repeat split.
  - exact Hsem.
  - intros ->. now rewrite Hsem.
  - exact Hbody.
  - intros Hhash Hcore. rewrite (Hbody Hhash).
    apply ensureVersionPrefix_adds. unfold body.
    rewrite append_assoc. simpl. now apply hasVersionPrefix_body.
Qed.

Lemma Semver_scheme_on_tag_of_branch_witness :
  VersionSchemes.isMainBranch "feature/auth" = false
  /\ VersionSchemes.GenerateVersion
       {| VersionSchemes.Year := 2025; VersionSchemes.Month := 8 |}
       "v1.2.3" 0 "abc1234" "feature/auth"
       (VersionSchemes.semverScheme false true)
     = "v1.2.3-feature-auth+abc1234".
Proof.
  split; [reflexivity|].
  refine (proj2 (proj2 (proj2 (Semver_scheme_on_tag_of_branch
    {| VersionSchemes.Year := 2025; VersionSchemes.Month := 8 |}
    "v1.2.3" "abc1234" "feature/auth" false true _))) _ _); reflexivity.
Defined.

(** C4 as stated fails without the hash: on branch feature/auth, exactly
    on tag v1.2.3, the Semver scheme returns "v1.2.3", not
    "v1.2.3-feature-auth". *)
Lemma Semver_scheme_on_tag_of_branch_without_hash :
  VersionSchemes.isMainBranch "feature/auth" = false
  /\ VersionSchemes.GenerateVersion
       {| VersionSchemes.Year := 2025; VersionSchemes.Month := 8 |}
       "v1.2.3" 0 "abc1234" "feature/auth"
       (VersionSchemes.semverScheme false false)
     = "v1.2.3"
  /\ VersionSchemes.GenerateSemVer "v1.2.3" 0 "feature/auth" false "abc1234"
     <> "v" ++ core "v1.2.3" ++ "-"
            ++ VersionSchemes.cleanBranchName "feature/auth".
Proof.
  repeat split. vm_compute. discriminate.
Qed.

(* ================================================================== *)
(** * The commit walk *)
(* ================================================================== *)

Section Walk.

Local Open Scope list_scope.

Variable r : Repository.

Lemma mem_In (h : plumbing_Hash) (s : list plumbing_Hash) :
  mem h s = true <-> In h s.
Proof.
  unfold mem. rewrite existsb_exists. split.
  - intros [x [Hin Heq]]. apply N.eqb_eq in Heq. now subst.
  - intros Hin. exists h. split; [exact Hin | apply N.eqb_refl].
Qed.

Lemma mem_not_In (h : plumbing_Hash) (s : list plumbing_Hash) :
  mem h s = false <-> ~ In h s.
Proof.
  rewrite <- mem_In. destruct (mem h s); split; congruence.
Qed.

Lemma lookupObject_In (store : list (plumbing_Hash * Object))
    (h : plumbing_Hash) (o : Object) :
  lookupObject store h = Some o -> In (h, o) store.
Proof.
  induction store as [|[k o'] store IH]; simpl; [discriminate|].
  destruct (N.eqb_spec k h) as [->|Hne].
  - intros [= ->]. now left.
  - intros H. right. now apply IH.
Qed.

Lemma CommitObject_inv (h : plumbing_Hash) (c : Commit) :
  CommitObject r h = Ok c ->
  Hash c = h
  /\ lookupObject (objects r) h = Some (CommitObj (ParentHashes c) (When c)).
Proof.
  unfold CommitObject.
  destruct (lookupObject (objects r) h) as [[ps t| |]|]; try discriminate.
  intros [= <-]. now split.
Qed.

Lemma CommitObject_Hash (h : plumbing_Hash) (c : Commit) :
  CommitObject r h = Ok c -> Hash c = h.
Proof. intros H. now apply CommitObject_inv in H. Qed.

Lemma CommitObject_key (h : plumbing_Hash) (c : Commit) :
  CommitObject r h = Ok c -> In h (keys r).
Proof.
  intros H. apply CommitObject_inv in H as [_ H].
  apply lookupObject_In in H. unfold keys.
  change h with (fst (h, CommitObj (ParentHashes c) (When c))).
  now apply in_map.
Qed.

(** In an intact store the parents of a commit are commits. *)
Lemma parentsPresent_parent (h p : plumbing_Hash) (c : Commit) :
  parentsPresent r = true -> CommitObject r h = Ok c ->
  In p (ParentHashes c) -> exists c', CommitObject r p = Ok c'.
Proof.
  unfold parentsPresent. intros Hall Hc Hp.
  apply CommitObject_inv in Hc as [_ Hc]. apply lookupObject_In in Hc.
  rewrite forallb_forall in Hall. specialize (Hall _ Hc). simpl in Hall.
  rewrite forallb_forall in Hall. specialize (Hall _ Hp).
  destruct (CommitObject r p) as [c'|]; [now exists c' | discriminate].
Qed.

(** ** [reachable] *)

Lemma reachable_trans (a b c : plumbing_Hash) :
  reachable r a b -> reachable r b c -> reachable r a c.
Proof.
  induction 1 as [a | a p b x Hx Hp _ IH]; intros Hbc; [exact Hbc|].
  eapply reach_parent; eauto.
Qed.

Lemma reachable_parent_last (a b p : plumbing_Hash) (c : Commit) :
  reachable r a b -> CommitObject r b = Ok c -> In p (ParentHashes c) ->
  reachable r a p.
Proof.
  intros Hab Hc Hp. apply (reachable_trans a b p Hab).
  eapply reach_parent; eauto using reach_here.
Qed.

(** Everything reachable from a member of a set closed under parents is
    in the set. *)
Lemma reachable_closed (S : plumbing_Hash -> Prop) :
  (forall h c p, S h -> CommitObject r h = Ok c -> In p (ParentHashes c) -> S p) ->
  forall a b, reachable r a b -> S a -> S b.
Proof.
  intros Hclosed a b Hab. induction Hab as [a | a p b c Hc Hp _ IH]; eauto.
Qed.

(** ** One call of [Next] *)

(** [Next] on an iterator whose start commit is gone: it skips hashes
    already seen, then fails on a hash that is no commit, or hands out the
    first commit not seen; it ends when nothing is left. *)
Lemma nextFromStack_spec (seen0 : list plumbing_Hash)
    (stk : list (list plumbing_Hash)) :
  match nextFromStack r seen0 stk with
  | EOF => forall h, In h (List.concat stk) -> In h seen0
  | Failed e => exists h, In h (List.concat stk) /\ CommitObject r h = Err e
  | Yield c w' =>
      exists skipped rest,
        List.concat stk = skipped ++ Hash c :: rest
        /\ (forall h, In h skipped -> In h seen0)
        /\ ~ In (Hash c) seen0
        /\ CommitObject r (Hash c) = Ok c
        /\ start w' = None
        /\ seen w' = Hash c :: seen0
        /\ pending w' = filteredParentIter c (Hash c :: seen0) ++ rest
  end.
Proof.
  induction stk as [|top below IH]; simpl; [tauto|].
  induction top as [|h top IHtop]; simpl.
  - exact IH.
  - destruct (CommitObject r h) as [c|e] eqn:Hc.
    + destruct (mem h seen0) eqn:Hmem.
      * apply mem_In in Hmem.
        match goal with
        | |- match ?X with _ => _ end =>
            destruct X as [c' w'| |e'] eqn:Hnext
        end.
        -- destruct IHtop as (skipped & rest & Heq & Hsk & Hrest).
           exists (h :: skipped), rest. simpl. rewrite Heq.
           split; [reflexivity|]. split; [|exact Hrest].
           intros x [<-|Hx]; auto.
        -- intros x [<-|Hx]; auto.
        -- destruct IHtop as (x & Hx & He). exists x. auto.
      * apply mem_not_In in Hmem.
        pose proof (CommitObject_Hash _ _ Hc) as Hh. unfold visit.
        exists [], (top ++ List.concat below). rewrite Hh. simpl.
        split; [reflexivity|]. split; [intros x []|].
        split; [exact Hmem|]. split; [exact Hc|].
        split; [reflexivity|]. split; [reflexivity|].
        unfold pending. simpl.
        destruct (ParentHashes c) eqn:Hps; simpl.
        -- unfold filteredParentIter. now rewrite Hps.
        -- reflexivity.
    + exists h. split; [now left | exact Hc].
Qed.

(** ** The invariant of a walk started at the commit [h0] *)

Variable h0 : plumbing_Hash.

Lemma walking_pending_reachable (w : commitPreIterator) (p : plumbing_Hash) :
  walking r h0 w -> In p (pending w) -> reachable r h0 p.
Proof.
  intros Hw Hp. destruct (walking_pending r h0 w Hw p Hp) as (h & c & Hh & Hc & Hin).
  eapply reachable_parent_last; eauto. now apply (walking_seen r h0 w Hw).
Qed.

Lemma walking_Next_stack (w : commitPreIterator) :
  walking r h0 w -> Next r w = nextFromStack r (seen w) (stack w).
Proof. intros Hw. unfold Next. now rewrite (walking_started r h0 w Hw). Qed.

(** The first call of [Next] hands out the start commit. *)
Lemma walking_first (c : Commit) :
  CommitObject r h0 = Ok c ->
  exists w1, Next r (NewCommitPreorderIter c) = Yield c w1
             /\ walking r h0 w1 /\ seen w1 = [h0].
Proof.
  intros Hc. pose proof (CommitObject_Hash _ _ Hc) as Hh.
  unfold Next, NewCommitPreorderIter, visit. simpl. rewrite Hh.
  eexists. split; [reflexivity|]. split; [|reflexivity].
  constructor; simpl.
  - reflexivity.
  - constructor; [intros []|constructor].
  - now left.
  - intros h [<-|[]]. split; [now exists c | apply reach_here].
  - intros p Hp. exists h0, c. split; [now left|]. split; [exact Hc|].
    unfold pending in Hp. simpl in Hp.
    destruct (ParentHashes c) as [|q qs] eqn:Hps; simpl in Hp; [contradiction|].
    rewrite app_nil_r in Hp. unfold filteredParentIter in Hp.
    apply filter_In in Hp as [Hp _]. now rewrite Hps in Hp.
  - intros h c' p [<-|[]] Hc' Hp. assert (c' = c) as -> by congruence.
    destruct (mem p [h0]) eqn:Hmem;
      [left; exact (proj1 (mem_In _ _) Hmem)|right].
    unfold pending. simpl.
    destruct (ParentHashes c) as [|q qs] eqn:Hps; [contradiction|].
    simpl. rewrite app_nil_r. unfold filteredParentIter.
    apply filter_In. rewrite Hps. split; [exact Hp | now rewrite Hmem].
Qed.

(** A later call that hands out a commit keeps the invariant. *)
Lemma walking_next (w w' : commitPreIterator) (c : Commit) :
  walking r h0 w -> Next r w = Yield c w' ->
  walking r h0 w' /\ seen w' = Hash c :: seen w
  /\ CommitObject r (Hash c) = Ok c /\ ~ In (Hash c) (seen w).
Proof.
  intros Hw Hnext. rewrite (walking_Next_stack w Hw) in Hnext.
  pose proof (nextFromStack_spec (seen w) (stack w)) as Hspec.
  rewrite Hnext in Hspec.
  destruct Hspec as
    (skipped & rest & Hpend & Hskip & Hnew & Hc & Hstart & Hseen & Hpend').
  fold (pending w) in Hpend.
  split; [|now repeat split].
  assert (Hold : forall p, In p (pending w) -> In p (seen w') \/ In p (pending w')).
  { intros p Hp. rewrite Hpend in Hp. rewrite Hseen, Hpend'.
    apply in_app_or in Hp as [Hp|[<-|Hp]].
    - left. right. now apply Hskip.
    - left. now left.
    - right. apply in_or_app. now right. }
  constructor.
  - exact Hstart.
  - rewrite Hseen. constructor; [exact Hnew | apply (walking_nodup r h0 w Hw)].
  - rewrite Hseen. right. apply (walking_root r h0 w Hw).
  - rewrite Hseen. intros h [<-|Hh]; [|now apply (walking_seen r h0 w Hw)].
    split; [now exists c|]. apply (walking_pending_reachable w _ Hw).
    rewrite Hpend. apply in_or_app. right. now left.
  - intros p Hp. rewrite Hpend' in Hp. rewrite Hseen.
    apply in_app_or in Hp as [Hp|Hp].
    + exists (Hash c), c. split; [now left|]. split; [exact Hc|].
      unfold filteredParentIter in Hp. now apply filter_In in Hp.
    + destruct (walking_pending r h0 w Hw p) as (h & c' & Hh & Hc' & Hin).
      { rewrite Hpend. apply in_or_app. right. now right. }
      exists h, c'. split; [now right | now split].
  - intros h c' p Hh Hc' Hp. rewrite Hseen in Hh. destruct Hh as [<-|Hh].
    + assert (c' = c) as -> by congruence.
      destruct (mem p (Hash c :: seen w)) eqn:Hmem.
      * left. rewrite Hseen. now apply mem_In.
      * right. rewrite Hpend'. apply in_or_app. left.
        unfold filteredParentIter. apply filter_In.
        split; [exact Hp | now rewrite Hmem].
    + destruct (walking_closed r h0 w Hw h c' p Hh Hc' Hp) as [Hs|Hq].
      * left. rewrite Hseen. now right.
      * now apply Hold.
Qed.

(** When [Next] ends, exactly the commits reachable from the start have
    been handed out. *)
Lemma walking_eof (w : commitPreIterator) :
  walking r h0 w -> Next r w = EOF ->
  forall x, In x (seen w) <-> reachable r h0 x.
Proof.
  intros Hw Hnext x. rewrite (walking_Next_stack w Hw) in Hnext.
  pose proof (nextFromStack_spec (seen w) (stack w)) as Hspec.
  rewrite Hnext in Hspec. split.
  - intros Hx. now apply (walking_seen r h0 w Hw).
  - intros Hx.
    apply (reachable_closed (fun h => In h (seen w))) with (a := h0);
      [|exact Hx|apply (walking_root r h0 w Hw)].
    intros h c p Hh Hc Hp.
    destruct (walking_closed r h0 w Hw h c p Hh Hc Hp) as [Hs|Hq]; [exact Hs|].
    now apply Hspec.
Qed.

(** The only error of the store is that of a missing object. *)
Lemma CommitObject_Err (h : plumbing_Hash) (e : string) :
  CommitObject r h = Err e -> e = "object not found"%string.
Proof.
  unfold CommitObject.
  destruct (lookupObject (objects r) h) as [[ps t| |]|]; congruence.
Qed.

(** [Next] fails only on a missing object, *)
Lemma walking_failed_msg (w : commitPreIterator) (e : string) :
  walking r h0 w -> Next r w = Failed e -> e = "object not found"%string.
Proof.
  intros Hw Hnext. rewrite (walking_Next_stack w Hw) in Hnext.
  pose proof (nextFromStack_spec (seen w) (stack w)) as Hspec.
  rewrite Hnext in Hspec. destruct Hspec as (h & _ & He).
  now apply CommitObject_Err in He.
Qed.

(** and never in an intact store. *)
Lemma walking_never_fails (w : commitPreIterator) (e : string) :
  parentsPresent r = true -> walking r h0 w -> Next r w <> Failed e.
Proof.
  intros Hstore Hw Hnext. rewrite (walking_Next_stack w Hw) in Hnext.
  pose proof (nextFromStack_spec (seen w) (stack w)) as Hspec.
  rewrite Hnext in Hspec. destruct Hspec as (p & Hp & He).
  destruct (walking_pending r h0 w Hw p Hp) as (h & c & _ & Hc & Hin).
  destruct (parentsPresent_parent h p c Hstore Hc Hin) as [c' Hc'].
  congruence.
Qed.

(** The commits handed out are distinct objects of the store. *)
Lemma walking_seen_bound (w : commitPreIterator) :
  walking r h0 w -> (List.length (seen w) <= List.length (objects r))%nat.
Proof.
  intros Hw. unfold keys. rewrite <- (length_map fst (objects r)).
  apply NoDup_incl_length; [apply (walking_nodup r h0 w Hw)|].
  intros h Hh. destruct (walking_seen r h0 w Hw h Hh) as [[c Hc] _].
  now apply CommitObject_key in Hc.
Qed.

End Walk.

(* ================================================================== *)
(** * [ForEach] terminates, and a rule to reason about it *)
(* ================================================================== *)

Section Loop.

Local Open Scope list_scope.
Local Open Scope nat_scope.

Variable r : Repository.

Lemma filter_length_mono {A : Type} (f g : A -> bool) (l : list A) :
  (forall x, f x = true -> g x = true) ->
  List.length (filter f l) <= List.length (filter g l).
Proof.
  intros Hfg. induction l as [|x l IH]; simpl; [lia|].
  destruct (f x) eqn:Hf.
  - rewrite (Hfg x Hf). simpl. lia.
  - destruct (g x); simpl; lia.
Qed.

Lemma filter_length_strict {A : Type} (f g : A -> bool) (l : list A) (a : A) :
  (forall x, f x = true -> g x = true) ->
  In a l -> f a = false -> g a = true ->
  List.length (filter f l) < List.length (filter g l).
Proof.
  intros Hfg Hin Hfa Hga. induction l as [|x l IH]; simpl; [contradiction|].
  destruct Hin as [->|Hin].
  - rewrite Hfa, Hga. simpl.
    pose proof (filter_length_mono f g l Hfg). lia.
  - specialize (IH Hin). destruct (f x) eqn:Hf.
    + rewrite (Hfg x Hf). simpl. lia.
    + destruct (g x); simpl; lia.
Qed.

Lemma unseen_cons_le (h : plumbing_Hash) (seen : list plumbing_Hash) :
  unseen r (h :: seen) <= unseen r seen.
Proof.
  apply filter_length_mono. intros k. simpl.
  now destruct (k =? h)%N, (mem k seen).
Qed.

Lemma unseen_cons_lt (h : plumbing_Hash) (seen : list plumbing_Hash) :
  In h (keys r) -> ~ In h seen -> unseen r (h :: seen) < unseen r seen.
Proof.
  intros Hkey Hnew. apply filter_length_strict with (a := h); [|exact Hkey| |].
  - intros k. simpl. now destruct (k =? h)%N, (mem k seen).
  - simpl. now rewrite N.eqb_refl.
  - apply mem_not_In in Hnew. now rewrite Hnew.
Qed.

Lemma nextFromStack_remaining (seen0 : list plumbing_Hash)
    (stk : list (list plumbing_Hash)) (c : Commit) (w' : commitPreIterator) :
  nextFromStack r seen0 stk = Yield c w' -> remaining r w' < unseen r seen0.
Proof.
  intros Hnext. pose proof (nextFromStack_spec r seen0 stk) as Hspec.
  rewrite Hnext in Hspec.
  destruct Hspec as (_ & _ & _ & _ & Hnew & Hc & Hstart & Hseen & _).
  unfold remaining. rewrite Hstart, Hseen, Nat.add_0_r.
  apply unseen_cons_lt; [now apply CommitObject_key in Hc | exact Hnew].
Qed.

(** Each commit handed out takes one off the bound. *)
Lemma Next_remaining (w w' : commitPreIterator) (c : Commit) :
  Next r w = Yield c w' -> remaining r w' < remaining r w.
Proof.
  unfold Next. destruct (start w) as [c0|] eqn:Hstart.
  - destruct (mem (Hash c0) (seen w)).
    + intros H. apply nextFromStack_remaining in H.
      unfold remaining at 2. rewrite Hstart. lia.
    + unfold visit. intros [= <- <-]. unfold remaining at 1. simpl.
      unfold remaining. rewrite Hstart.
      pose proof (unseen_cons_le (Hash c0) (seen w)). lia.
  - intros H. apply nextFromStack_remaining in H.
    unfold remaining at 2. rewrite Hstart. lia.
Qed.

(** Fuel that covers the bound is never used up. *)
Lemma forEachLoop_fuel_enough {St : Type}
    (cb : Commit -> St -> St * option string) :
  forall (fuel : nat) (w : commitPreIterator) (s : St),
    remaining r w <= fuel -> forEachLoop fuel r w cb s <> None.
Proof.
  induction fuel as [|fuel IH]; intros w s Hfuel; simpl.
  - destruct (Next r w) as [c w'| |e] eqn:Hnext; try discriminate.
    apply Next_remaining in Hnext. lia.
  - destruct (Next r w) as [c w'| |e] eqn:Hnext; try discriminate.
    destruct (cb c s) as [s' [e|]]; [discriminate|].
    apply IH. apply Next_remaining in Hnext. lia.
Qed.

(** [ForEach] never runs out of fuel, whatever the iterator. *)
Lemma ForEach_terminates {St : Type} (cb : Commit -> St -> St * option string)
    (w : commitPreIterator) (s : St) :
  exists res,
    forEachLoop (walkFuel r) r w cb s = Some res
    /\ ForEach r w cb s = res.
Proof.
  unfold ForEach.
  destruct (forEachLoop (walkFuel r) r w cb s) as [res|] eqn:Hloop;
    [now exists res|].
  exfalso. revert Hloop. apply forEachLoop_fuel_enough.
  unfold remaining, walkFuel, unseen, keys.
  rewrite <- (length_map fst (objects r)).
  pose proof (List.filter_length_le
                (fun k => negb (mem k (seen w))) (map fst (objects r))).
  destruct (start w); lia.
Qed.

(** ** The rule

    To show [Q] of what [ForEach] returns on a walk from the commit [h0]:
    find a [P] that holds of the iterator and the callback's state after
    the first call and is kept by every later call, and show [Q] wherever
    the loop can stop. *)
Lemma ForEach_rule {St : Type} (h0 : plumbing_Hash) (c : Commit)
    (cb : Commit -> St -> St * option string) (s : St)
    (P : commitPreIterator -> St -> Prop) (Q : St * option string -> Prop) :
  CommitObject r h0 = Ok c ->
  (forall w1, walking r h0 w1 -> seen w1 = [h0] ->
     match cb c s with
     | (s', Some e) => Q (s', Some e)
     | (s', None) => P w1 s'
     end) ->
  (forall w s c' w', walking r h0 w -> P w s -> Next r w = Yield c' w' ->
     walking r h0 w' -> seen w' = Hash c' :: seen w ->
     match cb c' s with
     | (s', Some e) => Q (s', Some e)
     | (s', None) => P w' s'
     end) ->
  (forall w s, walking r h0 w -> P w s -> Next r w = EOF -> Q (s, None)) ->
  (forall w s e, walking r h0 w -> P w s -> Next r w = Failed e ->
     Q (s, Some e)) ->
  Q (ForEach r (NewCommitPreorderIter c) cb s).
Proof.
  intros Hc Hfirst Hstep Heof Hfail.
  destruct (ForEach_terminates cb (NewCommitPreorderIter c) s)
    as (res & Hloop & ->).
  assert (Hinv : forall fuel w s res,
            walking r h0 w -> P w s ->
            forEachLoop fuel r w cb s = Some res -> Q res).
  { clear Hloop res. induction fuel as [|fuel IH]; intros w s0 res Hw HP;
      simpl; destruct (Next r w) as [c' w'| |e] eqn:Hnext;
      try (intros [= <-]; eauto; fail).
    - destruct (walking_next r h0 w w' c' Hw Hnext) as (Hw' & Hseen & _).
      specialize (Hstep w s0 c' w' Hw HP Hnext Hw' Hseen).
      destruct (cb c' s0) as [s' [e|]]; [now intros [= <-] | discriminate].
    - destruct (walking_next r h0 w w' c' Hw Hnext) as (Hw' & Hseen & _).
      specialize (Hstep w s0 c' w' Hw HP Hnext Hw' Hseen).
      destruct (cb c' s0) as [s' [e|]]; [now intros [= <-] | eauto]. }
  destruct (walking_first r h0 c Hc) as (w1 & Hnext & Hw1 & Hseen1).
  specialize (Hfirst w1 Hw1 Hseen1).
  unfold walkFuel in Hloop. cbn [forEachLoop] in Hloop.
  rewrite Hnext in Hloop.
  destruct (cb c s) as [s' [e|]]; [now injection Hloop as <- | eauto].
Qed.

End Loop.

(* ================================================================== *)
(** * Properties of the go-git handler *)
(* ================================================================== *)

Section Counting.

Local Open Scope list_scope.

Variable r : Repository.

Lemma int_incr_small (n : Z) : 0 <= n < 2 ^ 63 - 1 -> int_incr n = n + 1.
Proof.
  intros Hn. unfold int_incr, wrap_int.
  rewrite Z.mod_small; lia.
Qed.

(** Counting the commits handed out so far does not overflow: they are
    distinct objects of a store of fewer than 2^63 objects. *)
Lemma count_step (h0 : plumbing_Hash) (w w' : commitPreIterator) (c : Commit) :
  Z.of_nat (List.length (objects r)) < 2 ^ 63 ->
  walking r h0 w' -> seen w' = Hash c :: seen w ->
  int_incr (Z.of_nat (List.length (seen w)))
  = Z.of_nat (List.length (seen w')).
Proof.
  intros Hsize Hw' Hseen. pose proof (walking_seen_bound r h0 w' Hw') as Hb.
  rewrite Hseen in *. simpl List.length in *.
  rewrite int_incr_small; lia.
Qed.

(** [countAllCommits] counts the commits reachable from [h], each once. *)
Lemma countAllCommits_spec (h : plumbing_Hash) (c : Commit) :
  parentsPresent r = true ->
  Z.of_nat (List.length (objects r)) < 2 ^ 63 ->
  CommitObject r h = Ok c ->
  exists ancestors,
    NoDup ancestors
    /\ (forall x, In x ancestors <-> reachable r h x)
    /\ GoGit.countAllCommits r h = Ok (Z.of_nat (List.length ancestors)).
Proof.
  intros Hstore Hsize Hc. unfold GoGit.countAllCommits. rewrite Hc.
  set (cb := fun (_ : Commit) (count : Z) => (int_incr count, @None string)).
  pose proof (ForEach_rule r h c cb 0
    (fun w n => n = Z.of_nat (List.length (seen w)))
    (fun res => exists l, NoDup l /\ (forall x, In x l <-> reachable r h x)
                          /\ res = (Z.of_nat (List.length l), None)) Hc)
    as Hrule.
  destruct Hrule as (l & Hnd & Hl & ->); [| | | |now exists l].
  - intros w1 Hw1 Hseen. simpl. now rewrite Hseen.
  - intros w n c' w' Hw -> Hnext Hw' Hseen. simpl.
    now apply count_step with (h0 := h) (c := c').
  - intros w n Hw -> Hnext. exists (seen w).
    split; [apply (walking_nodup r h w Hw)|].
    split; [now apply walking_eof | reflexivity].
  - intros w n e Hw _ Hnext.
    destruct (walking_never_fails r h w e Hstore Hw Hnext).
Qed.

End Counting.

Section Distance.

Local Open Scope list_scope.

Variable r : Repository.

Lemma walking_seen_nonempty (h0 : plumbing_Hash) (w : commitPreIterator) :
  walking r h0 w -> 1 <= Z.of_nat (List.length (seen w)).
Proof.
  intros Hw. pose proof (walking_root r h0 w Hw) as Hroot.
  destruct (seen w); [contradiction | simpl List.length; lia].
Qed.

(** The walk of [GetCommitsSinceTag] from a commit that is not the tag's:
    at least the start commit is counted; in an intact store the walk
    ends normally or at the tag's commit. *)
Lemma count_until_tag (head target : plumbing_Hash) (c : Commit) :
  Z.of_nat (List.length (objects r)) < 2 ^ 63 ->
  CommitObject r head = Ok c -> head <> target ->
  let cb (c : Commit) (count : Z) :=
    if (Hash c =? target)%N then (count, Some "found tag"%string)
    else (int_incr count, None) in
  let res := ForEach r (NewCommitPreorderIter c) cb 0 in
  1 <= fst res
  /\ (parentsPresent r = true ->
      snd res = None \/ snd res = Some "found tag"%string).
Proof.
  intros Hsize Hc Hne cb res. unfold res.
  apply (ForEach_rule r head c cb 0
    (fun w n => n = Z.of_nat (List.length (seen w)))
    (fun res => 1 <= fst res
                /\ (parentsPresent r = true ->
                    snd res = None \/ snd res = Some "found tag"%string)) Hc).
  - intros w1 Hw1 Hseen. unfold cb.
    rewrite (CommitObject_Hash r head c Hc).
    destruct (N.eqb_spec head target) as [Heq|_]; [contradiction|].
    rewrite Hseen. now rewrite int_incr_small by lia.
  - intros w n c' w' Hw -> Hnext Hw' Hseen. unfold cb.
    destruct (Hash c' =? target)%N; simpl.
    + split; [now apply walking_seen_nonempty with (h0 := head) | now right].
    + now apply (count_step r head w w' c').
  - intros w n Hw -> Hnext. simpl.
    split; [now apply walking_seen_nonempty with (h0 := head) | now left].
  - intros w n e Hw -> Hnext. simpl.
    split; [now apply walking_seen_nonempty with (h0 := head)|].
    intros Hstore. destruct (walking_never_fails r head w e Hstore Hw Hnext).
Qed.

Lemma tagTarget_inv (refHash target : plumbing_Hash) :
  tagTarget r refHash = Some target ->
  exists obj, AnyObject r refHash = Ok obj
              /\ GoGit.tagCommitHashOf refHash obj = Some target.
Proof.
  unfold tagTarget. destruct (AnyObject r refHash) as [obj|]; [|discriminate].
  intros H. now exists obj.
Qed.

End Distance.

(** C2. For a resolved tag other than the sentinel, whatever distance
    [GetCommitsSinceTag] returns is >= 0, and it is 0 if and only if HEAD
    is the commit of the tag; when HEAD is that commit, 0 is returned
    without reading a single commit (whatever the state of the store); and
    in an intact store a distance is returned. *)
Theorem GetCommitsSinceTag_zero_iff_on_tag (r : Repository)
    (tagName : string) (head tagRef target : plumbing_Hash) :
  tagName <> "v0.0.0" ->
  Head r = Ok head ->
  Tag r tagName = Ok tagRef ->
  tagTarget r tagRef = Some target ->
  Z.of_nat (List.length (objects r)) < 2 ^ 63 ->
  (forall n, GoGit.GetCommitsSinceTag r tagName = Ok n ->
     0 <= n /\ (n = 0 <-> head = target))
  /\ (head = target -> GoGit.GetCommitsSinceTag r tagName = Ok 0)
  /\ (parentsPresent r = true -> is_ok (CommitObject r head) = true ->
      exists n, GoGit.GetCommitsSinceTag r tagName = Ok n).
Proof.
  intros Hname Hhead Htag Htarget Hsize.
  destruct (tagTarget_inv r tagRef target Htarget) as (obj & Hobj & Hswitch).
  apply String.eqb_neq in Hname.
  unfold GoGit.GetCommitsSinceTag.
  rewrite Hhead, Hname, Htag, Hobj, Hswitch.
  destruct (N.eqb_spec head target) as [Heq|Hne].
  - split; [|split].
    + intros n [= <-]. split; [lia | tauto].
    + reflexivity.
    + intros _ _. now exists 0.
  - destruct (CommitObject r head) as [c|e] eqn:Hc.
    + pose proof (count_until_tag r head target c Hsize Hc Hne) as Hwalk.
      cbv zeta in Hwalk.
      match type of Hwalk with
      | context [ForEach r ?w ?cb 0] =>
          destruct (ForEach r w cb 0) as [count err]
      end.
      simpl in Hwalk. destruct Hwalk as [Hcount Herr].
      split; [|split].
      * assert (Hn : forall n, Ok count = Ok n ->
                  0 <= n /\ (n = 0 <-> head = target)).
        { intros n [= <-]. split; [lia|]. split; [lia | contradiction]. }
        destruct err as [msg|]; [|exact Hn].
        destruct (msg =? "found tag")%string; [exact Hn | discriminate].
      * contradiction.
      * intros Hstore _. exists count.
        destruct (Herr Hstore) as [->| ->]; reflexivity.
    + split; [|split].
      * discriminate.
      * contradiction.
      * discriminate.
Qed.

Lemma GetCommitsSinceTag_zero_iff_on_tag_witness :
  Head Examples.mergedFeature = Ok 5%N
  /\ tagTarget Examples.mergedFeature 2%N = Some 2%N
  /\ (forall n, GoGit.GetCommitsSinceTag Examples.mergedFeature "v1.0.0" = Ok n ->
        0 <= n /\ (n = 0 <-> 5%N = 2%N))
  /\ (5%N = 2%N -> GoGit.GetCommitsSinceTag Examples.mergedFeature "v1.0.0" = Ok 0)
  /\ (parentsPresent Examples.mergedFeature = true ->
      is_ok (CommitObject Examples.mergedFeature 5%N) = true ->
      exists n, GoGit.GetCommitsSinceTag Examples.mergedFeature "v1.0.0" = Ok n).
Proof.
  split; [reflexivity|]. split; [reflexivity|].
  apply (GetCommitsSinceTag_zero_iff_on_tag Examples.mergedFeature "v1.0.0"
           5%N 2%N 2%N); try reflexivity.
  discriminate.
Defined.

(** On the merged feature branch: two commits are handed out before the
    commit of v1.0.0, three before that of the annotated v0.9.0; the
    common ancestor found is 2, the first one in the order of the walk
    (5, 4, 2), not the trunk head 3; from there the resolver finds
    v1.0.0. *)
Example mergedFeature_distances :
  GoGit.GetCommitsSinceTag Examples.mergedFeature "v1.0.0" = Ok 2
  /\ GoGit.GetCommitsSinceTag Examples.mergedFeature "v0.9.0" = Ok 3
  /\ GoGit.findCommonAncestor Examples.mergedFeature 5%N 3%N = Ok 2%N
  /\ GoGit.GetLastTag InsertionSort.sortSlice Examples.mergedFeature
       "feature/auth" = Ok "v1.0.0".
Proof. repeat split; vm_compute; reflexivity. Qed.

Section Resolution.

Local Open Scope list_scope.

Variable r : Repository.

(** [isCommitReachable] answers once the start commit is read, *)
Lemma isCommitReachable_answers (from to : plumbing_Hash) :
  is_ok (CommitObject r from) = true ->
  exists b, GoGit.isCommitReachable r from to = Ok b.
Proof.
  unfold GoGit.isCommitReachable. intros Hfrom.
  destruct (from =? to)%N; [now exists true|].
  destruct (CommitObject r from) as [c|]; [|discriminate].
  match goal with
  | |- context [snd ?X] => destruct (snd X) as [msg|]
  end; eauto.
Qed.

(** and answers "yes" only for a commit of the store that is reachable. *)
Lemma isCommitReachable_sound (from to : plumbing_Hash) :
  is_ok (CommitObject r from) = true ->
  GoGit.isCommitReachable r from to = Ok true ->
  reachable r from to /\ is_ok (CommitObject r to) = true.
Proof.
  unfold GoGit.isCommitReachable. intros Hfrom.
  destruct (N.eqb_spec from to) as [<-|Hne].
  { intros _. split; [apply reach_here | exact Hfrom]. }
  destruct (CommitObject r from) as [c|] eqn:Hc; [|discriminate].
  set (cb := fun (c : Commit) (_ : unit) =>
               if (Hash c =? to)%N then (tt, Some "found"%string)
               else (tt, None)).
  pose proof (ForEach_rule r from c cb tt (fun _ _ => True)
    (fun res => snd res = Some "found"%string ->
                reachable r from to /\ is_ok (CommitObject r to) = true) Hc)
    as Hrule.
  intros Hres. apply Hrule.
  - intros w1 Hw1 Hseen. unfold cb.
    rewrite (CommitObject_Hash r from c Hc).
    destruct (N.eqb_spec from to); [contradiction | exact I].
  - intros w [] c' w' Hw _ Hnext Hw' Hseen. unfold cb.
    destruct (N.eqb_spec (Hash c') to) as [<-|_]; [|exact I].
    intros _.
    destruct (walking_seen r from w' Hw' (Hash c')) as [[x Hx] Hreach].
    { rewrite Hseen. now left. }
    split; [exact Hreach | now rewrite Hx].
  - intros w [] _ _ _. discriminate.
  - intros w [] e Hw _ Hnext. simpl.
    apply (walking_failed_msg r from w e Hw) in Hnext. subst e. discriminate.
  - fold cb in Hres.
    destruct (snd (ForEach r (NewCommitPreorderIter c) cb tt)) as [msg|];
      [|discriminate].
    injection Hres as Hmsg. apply String.eqb_eq in Hmsg. now subst msg.
Qed.

(** [findCommonAncestor] only ever returns a commit reachable from both
    of its arguments. *)
Lemma findCommonAncestor_sound (commit1 commit2 x : plumbing_Hash) :
  GoGit.findCommonAncestor r commit1 commit2 = Ok x ->
  reachable r commit1 x /\ reachable r commit2 x.
Proof.
  unfold GoGit.findCommonAncestor.
  destruct (N.eqb_spec commit1 commit2) as [<-|Hne].
  { intros [= <-]. split; apply reach_here. }
  destruct (CommitObject r commit1) as [c1|] eqn:Hc1; [|discriminate].
  destruct (CommitObject r commit2) as [c2|] eqn:Hc2; [|discriminate].
  set (collect := fun (c : Commit) (ancestorsMap : list plumbing_Hash) =>
                    (Hash c :: ancestorsMap, @None string)).
  pose proof (ForEach_rule r commit2 c2 collect []
    (fun w m => forall y, In y m -> reachable r commit2 y)
    (fun res => forall y, In y (fst res) -> reachable r commit2 y) Hc2)
    as Hrule2.
  assert (Hmap : forall y,
            In y (fst (ForEach r (NewCommitPreorderIter c2) collect [])) ->
            reachable r commit2 y).
  { apply Hrule2.
    - intros w1 Hw1 Hseen. simpl. intros y [<-|[]].
      rewrite (CommitObject_Hash r commit2 c2 Hc2). apply reach_here.
    - intros w m c' w' Hw Hm Hnext Hw' Hseen. simpl. intros y [<-|Hy]; auto.
      apply (walking_seen r commit2 w' Hw'). rewrite Hseen. now left.
    - intros w m _ Hm _. exact Hm.
    - intros w m e _ Hm _. exact Hm. }
  destruct (ForEach r (NewCommitPreorderIter c2) collect [])
    as [ancestorsMap [e|]]; [discriminate|]. simpl in Hmap.
  set (cb := fun (c : Commit) (commonAncestor : plumbing_Hash) =>
               if mem (Hash c) ancestorsMap
               then (Hash c, Some "found common ancestor"%string)
               else (commonAncestor, None)).
  pose proof (ForEach_rule r commit1 c1 cb ZeroHash (fun _ _ => True)
    (fun res => snd res = Some "found common ancestor"%string ->
                reachable r commit1 (fst res) /\ In (fst res) ancestorsMap)
    Hc1) as Hrule1.
  assert (Hfound :
    snd (ForEach r (NewCommitPreorderIter c1) cb ZeroHash)
    = Some "found common ancestor"%string ->
    reachable r commit1 (fst (ForEach r (NewCommitPreorderIter c1) cb ZeroHash))
    /\ In (fst (ForEach r (NewCommitPreorderIter c1) cb ZeroHash)) ancestorsMap).
  { apply Hrule1.
    - intros w1 Hw1 Hseen. unfold cb.
      destruct (mem (Hash c1) ancestorsMap) eqn:Hmem; [|exact I].
      intros _. simpl. split; [|now apply mem_In].
      rewrite (CommitObject_Hash r commit1 c1 Hc1). apply reach_here.
    - intros w a c' w' Hw _ Hnext Hw' Hseen. unfold cb.
      destruct (mem (Hash c') ancestorsMap) eqn:Hmem; [|exact I].
      intros _. simpl. split; [|now apply mem_In].
      apply (walking_seen r commit1 w' Hw'). rewrite Hseen. now left.
    - intros w a _ _ _. discriminate.
    - intros w a e Hw _ Hnext. simpl.
      apply (walking_failed_msg r commit1 w e Hw) in Hnext. subst e.
      discriminate. }
  destruct (ForEach r (NewCommitPreorderIter c1) cb ZeroHash)
    as [commonAncestor [msg|]]; [|discriminate]. simpl in Hfound.
  destruct (String.eqb_spec msg "found common ancestor") as [->|_];
    [|discriminate].
  intros [= <-]. destruct (Hfound eq_refl) as [H1 H2]. auto.
Qed.

(** Without a common ancestor, [findCommonAncestor] returns an error. *)
Lemma findCommonAncestor_none (commit1 commit2 : plumbing_Hash) :
  noCommonAncestor r commit1 commit2 ->
  exists e, GoGit.findCommonAncestor r commit1 commit2 = Err e.
Proof.
  intros Hnone.
  destruct (GoGit.findCommonAncestor r commit1 commit2) as [x|e] eqn:Hfind;
    [|now exists e].
  apply findCommonAncestor_sound in Hfind. now destruct (Hnone x).
Qed.

End Resolution.

Section TagSearch.

Local Open Scope list_scope.

Variable r : Repository.
Variable from : plumbing_Hash.

Hypothesis tags_present : tagsPresent r = true.
Hypothesis from_present : is_ok (CommitObject r from) = true.

Lemma tagsPresent_ref (tagName : string) (refHash : plumbing_Hash) :
  In (tagName, refHash) (tags r) -> exists obj, AnyObject r refHash = Ok obj.
Proof.
  intros Hin. unfold tagsPresent in tags_present.
  rewrite forallb_forall in tags_present.
  specialize (tags_present _ Hin). simpl in tags_present.
  destruct (AnyObject r refHash) as [obj|]; [now exists obj | discriminate].
Qed.

(** The loop over the tags ends without an error. *)
Lemma collectReachableTags_answers (refs : list (string * plumbing_Hash)) :
  incl refs (tags r) ->
  forall acc, exists l, GoGit.collectReachableTags r from refs acc = Ok l.
Proof.
  induction refs as [|[tagName refHash] refs IH]; intros Hincl acc; simpl.
  - now exists acc.
  - assert (Hrest : incl refs (tags r)) by (intros x Hx; apply Hincl; now right).
    destruct (tagsPresent_ref tagName refHash) as [obj ->];
      [apply Hincl; now left|].
    destruct (GoGit.tagCommitHashOf refHash obj) as [target|]; [|now apply IH].
    destruct (isCommitReachable_answers r from target from_present) as [b Hb].
    rewrite Hb. destruct b; [|now apply IH].
    destruct (isCommitReachable_sound r from target from_present Hb)
      as [_ Htarget].
    destruct (CommitObject r target) as [c|]; [now apply IH | discriminate].
Qed.

(** When no tag is reachable the loop collects nothing. *)
Lemma collectReachableTags_none (refs : list (string * plumbing_Hash)) :
  noTagReachable r from -> incl refs (tags r) ->
  forall acc, GoGit.collectReachableTags r from refs acc = Ok acc.
Proof.
  intros Hnone.
  induction refs as [|[tagName refHash] refs IH]; intros Hincl acc; simpl.
  - reflexivity.
  - assert (Hrest : incl refs (tags r)) by (intros x Hx; apply Hincl; now right).
    assert (Hin : In (tagName, refHash) (tags r)) by (apply Hincl; now left).
    destruct (tagsPresent_ref tagName refHash Hin) as [obj Hobj].
    rewrite Hobj.
    destruct (GoGit.tagCommitHashOf refHash obj) as [target|] eqn:Hswitch;
      [|now apply IH].
    destruct (isCommitReachable_answers r from target from_present) as [b Hb].
    rewrite Hb. destruct b; [|now apply IH].
    destruct (isCommitReachable_sound r from target from_present Hb)
      as [Hreach _].
    exfalso. apply (Hnone tagName refHash target Hin); [|exact Hreach].
    unfold tagTarget. now rewrite Hobj.
Qed.

Variable sortSlice : forall A : Type, (A -> A -> bool) -> list A -> list A.

Lemma findTagFromCurrentBranch_sentinel :
  noTagReachable r from ->
  GoGit.findTagFromCurrentBranch sortSlice r from = Ok "v0.0.0"%string.
Proof.
  intros Hnone. unfold GoGit.findTagFromCurrentBranch.
  now rewrite (collectReachableTags_none (tags r) Hnone (incl_refl _) []).
Qed.

Hypothesis sortSlice_permutes :
  forall (A : Type) (less : A -> A -> bool) (l : list A),
    Permutation l (sortSlice A less l).

Lemma findTagFromCurrentBranch_answers :
  exists t, GoGit.findTagFromCurrentBranch sortSlice r from = Ok t.
Proof.
  unfold GoGit.findTagFromCurrentBranch.
  destruct (collectReachableTags_answers (tags r) (incl_refl _) [])
    as [l ->].
  destruct l as [|t l]; simpl; [now eexists|].
  match goal with
  | |- context [sortSlice ?A ?less ?l] =>
      pose proof (sortSlice_permutes A less l) as Hperm;
      destruct (sortSlice A less l) as [|t' l']
  end.
  - apply Permutation_sym, Permutation_nil in Hperm. discriminate.
  - now eexists.
Qed.

End TagSearch.

Section InsertionSortPermutation.

Local Open Scope list_scope.

Lemma moveLeft_perm {A : Type} (less : A -> A -> bool) (x : A)
    (revPrefix : list A) :
  forall right,
    Permutation (x :: revPrefix ++ right)
                (InsertionSort.moveLeft less x revPrefix right).
Proof.
  induction revPrefix as [|y revPrefix IH]; intros right; simpl;
    [reflexivity|].
  destruct (less x y).
  - rewrite <- IH. apply perm_skip. apply Permutation_middle.
  - rewrite rev_append_rev, <- !Permutation_middle, perm_swap.
    do 2 apply perm_skip. apply Permutation_app_tail, Permutation_rev.
Qed.

Lemma sortSlice_perm (A : Type) (less : A -> A -> bool) (l : list A) :
  Permutation l (InsertionSort.sortSlice A less l).
Proof.
  unfold InsertionSort.sortSlice.
  assert (H : forall l sorted,
            Permutation (sorted ++ l)
              (fold_left (fun sorted x =>
                            InsertionSort.moveLeft less x (rev sorted) [])
                         l sorted)).
  { clear l. induction l as [|x l IH]; intros sorted; simpl.
    - now rewrite app_nil_r.
    - rewrite <- IH. change (x :: l) with ([x] ++ l).
      rewrite app_assoc. apply Permutation_app_tail.
      rewrite <- moveLeft_perm, app_nil_r, <- Permutation_rev.
      symmetry. apply Permutation_cons_append. }
  exact (H l []).
Qed.

End InsertionSortPermutation.

Section Enumeration.

Local Open Scope list_scope.

(** To bound what is reachable in a given repository: a list closed
    under parents contains all that is reachable from its members. *)
Lemma reachable_within (r : Repository) (l : list plumbing_Hash)
    (a x : plumbing_Hash) :
  closedUnderParents r l = true -> In a l -> reachable r a x -> In x l.
Proof.
  intros Hclosed Ha Hreach.
  apply (reachable_closed r (fun h => In h l)) with (a := a); auto.
  intros h c p Hh Hc Hp. unfold closedUnderParents in Hclosed.
  rewrite forallb_forall in Hclosed. specialize (Hclosed h Hh).
  rewrite Hc, forallb_forall in Hclosed. apply mem_In. now apply Hclosed.
Qed.

End Enumeration.

(** C3. When no tag is reachable from the commit the resolver starts at,
    it returns the sentinel "v0.0.0" as a normal result (the tag objects
    and the start commit being readable); and given the sentinel,
    [GetCommitsSinceTag] returns the number of commits reachable from HEAD
    (HEAD included), each counted once (in an intact store). *)
Theorem no_reachable_tag_gives_sentinel
    (sortSlice : forall A : Type, (A -> A -> bool) -> list A -> list A)
    (r : Repository) (from head : plumbing_Hash) :
  (tagsPresent r = true ->
   is_ok (CommitObject r from) = true ->
   noTagReachable r from ->
   GoGit.findTagFromCurrentBranch sortSlice r from = Ok "v0.0.0")
  /\ (parentsPresent r = true ->
      Z.of_nat (List.length (objects r)) < 2 ^ 63 ->
      Head r = Ok head ->
      is_ok (CommitObject r head) = true ->
      exists ancestors : list plumbing_Hash,
        NoDup ancestors
        /\ (forall x, In x ancestors <-> reachable r head x)
        /\ GoGit.GetCommitsSinceTag r "v0.0.0"
           = Ok (Z.of_nat (List.length ancestors))).
Proof.
  split.
  - intros Htags Hfrom Hnone. now apply findTagFromCurrentBranch_sentinel.
  - intros Hstore Hsize Hhead Hcommit.
    unfold GoGit.GetCommitsSinceTag. rewrite Hhead. simpl.
    destruct (CommitObject r head) as [c|] eqn:Hc; [|discriminate].
    now apply countAllCommits_spec with (c := c).
Qed.

Lemma no_reachable_tag_gives_sentinel_witness :
  noTagReachable Examples.detachedAhead 1%N
  /\ GoGit.findTagFromCurrentBranch InsertionSort.sortSlice
       Examples.detachedAhead 1%N = Ok "v0.0.0"
  /\ exists ancestors : list plumbing_Hash,
       NoDup ancestors
       /\ (forall x, In x ancestors <-> reachable Examples.detachedAhead 2%N x)
       /\ GoGit.GetCommitsSinceTag Examples.detachedAhead "v0.0.0"
          = Ok (Z.of_nat (List.length ancestors)).
Proof.
  assert (Hnone : noTagReachable Examples.detachedAhead 1%N).
  { intros tagName refHash target [[= <- <-]|[]] [= <-] Hreach.
    apply (reachable_within Examples.detachedAhead [1%N]) in Hreach;
      [|reflexivity|now left].
    destruct Hreach as [Heq|[]]. discriminate. }
  split; [exact Hnone|].
  destruct (no_reachable_tag_gives_sentinel InsertionSort.sortSlice
              Examples.detachedAhead 1%N 2%N) as [Hsentinel Hcount].
  split.
  - apply Hsentinel; [reflexivity | reflexivity | exact Hnone].
  - apply Hcount; reflexivity.
Defined.

Section Dispatch.

Variable sortSlice : forall A : Type, (A -> A -> bool) -> list A -> list A.
Variable r : Repository.

(** The trunk head [findTagFromRebasePoint] settles on. *)
Lemma findTagFromRebasePoint_trunkHead (commitHash : plumbing_Hash)
    (branchName : string) :
  GoGit.findTagFromRebasePoint sortSlice r commitHash branchName
  = match trunkHead r with
    | None => GoGit.findTagFromCurrentBranch sortSlice r commitHash
    | Some mainHash =>
        match GoGit.findCommonAncestor r commitHash mainHash with
        | Err _ => GoGit.findTagFromCurrentBranch sortSlice r commitHash
        | Ok commonAncestor =>
            GoGit.findTagFromCurrentBranch sortSlice r commonAncestor
        end
    end.
Proof.
  unfold GoGit.findTagFromRebasePoint, trunkHead, BranchReference.
  destruct (lookupRef (branches r) "main"); [reflexivity|].
  now destruct (lookupRef (branches r) "master").
Qed.

Lemma GetLastTag_other (branchName : string) (head : plumbing_Hash) :
  Head r = Ok head -> branchName <> "main" -> branchName <> "master" ->
  GoGit.GetLastTag sortSlice r branchName
  = GoGit.findTagFromRebasePoint sortSlice r head branchName.
Proof.
  intros Hhead Hmain Hmaster. unfold GoGit.GetLastTag. rewrite Hhead.
  apply String.eqb_neq in Hmain, Hmaster. now rewrite Hmain, Hmaster.
Qed.

Lemma GetLastTag_main_master (branchName : string) (head : plumbing_Hash) :
  Head r = Ok head -> branchName = "main" \/ branchName = "master" ->
  GoGit.GetLastTag sortSlice r branchName
  = GoGit.findTagFromCurrentBranch sortSlice r head.
Proof.
  intros Hhead Hname. unfold GoGit.GetLastTag. rewrite Hhead.
  now destruct Hname as [-> | ->].
Qed.

End Dispatch.

Section SystemGitDispatch.

Variable runGitCommand : list string -> Result string.

Lemma SystemGit_GetLastTag_other (branchName : string) :
  branchName <> "main" -> branchName <> "master" ->
  SystemGit.GetLastTag runGitCommand branchName
  = SystemGit.findTagFromRebasePoint runGitCommand branchName.
Proof.
  intros Hmain Hmaster. apply String.eqb_neq in Hmain, Hmaster.
  unfold SystemGit.GetLastTag, SystemGit.findTagFromRebasePoint,
    SystemGit.findTagFromRebasePoint_calling. simpl.
  now rewrite Hmain, Hmaster.
Qed.

(** On [main] and [master] the system handler asks [git describe] about
    HEAD; a failure of the command reads as "no tag". *)
Lemma SystemGit_GetLastTag_main_master (branchName : string) :
  branchName = "main" \/ branchName = "master" ->
  SystemGit.GetLastTag runGitCommand branchName
  = match runGitCommand ["describe"; "--tags"; "--abbrev=0"] with
    | Err _ => Ok "v0.0.0"
    | Ok output => Ok output
    end.
Proof. now intros [-> | ->]. Qed.

(** When [git merge-base] fails for both [main] and [master] (no such
    branch, or no common ancestor), the system handler resolves from HEAD
    and returns a tag. *)
Lemma SystemGit_fallback (branchName : string) :
  branchName <> "main" -> branchName <> "master" ->
  is_ok (runGitCommand ["merge-base"; "HEAD"; "main"]) = false ->
  is_ok (runGitCommand ["merge-base"; "HEAD"; "master"]) = false ->
  SystemGit.GetLastTag runGitCommand branchName
  = SystemGit.GetLastTag runGitCommand "main"
  /\ exists t, SystemGit.GetLastTag runGitCommand branchName = Ok t.
Proof.
  intros Hmain Hmaster Hbase1 Hbase2.
  rewrite (SystemGit_GetLastTag_other branchName Hmain Hmaster).
  unfold SystemGit.findTagFromRebasePoint,
    SystemGit.findTagFromRebasePoint_calling.
  destruct (runGitCommand ["merge-base"; "HEAD"; "main"]); [discriminate|].
  destruct (runGitCommand ["merge-base"; "HEAD"; "master"]); [discriminate|].
  split; [reflexivity|].
  rewrite SystemGit_GetLastTag_main_master by now left.
  destruct (runGitCommand ["describe"; "--tags"; "--abbrev=0"]); eauto.
Qed.

(** When [git merge-base] fails for [main] and answers for [master], the
    system handler resolves from the merge base with [master]. *)
Lemma SystemGit_master_base (branchName mergeBase : string) :
  branchName <> "main" -> branchName <> "master" ->
  is_ok (runGitCommand ["merge-base"; "HEAD"; "main"]) = false ->
  runGitCommand ["merge-base"; "HEAD"; "master"] = Ok mergeBase ->
  SystemGit.GetLastTag runGitCommand branchName
  = match runGitCommand ["describe"; "--tags"; "--abbrev=0"; mergeBase] with
    | Err _ => Ok "v0.0.0"
    | Ok output => Ok output
    end.
Proof.
  intros Hmain Hmaster Hbase1 Hbase2.
  rewrite (SystemGit_GetLastTag_other branchName Hmain Hmaster).
  unfold SystemGit.findTagFromRebasePoint,
    SystemGit.findTagFromRebasePoint_calling.
  destruct (runGitCommand ["merge-base"; "HEAD"; "main"]); [discriminate|].
  now rewrite Hbase2.
Qed.

(** Whatever [git] does, the system handler returns a tag. *)
Lemma SystemGit_GetLastTag_answers (branchName : string) :
  exists t, SystemGit.GetLastTag runGitCommand branchName = Ok t.
Proof.
  unfold SystemGit.GetLastTag. simpl.
  destruct (negb (branchName =? "main")%string
            && negb (branchName =? "master")%string).
  - unfold SystemGit.findTagFromRebasePoint_calling.
    destruct (runGitCommand ["merge-base"; "HEAD"; "main"]) as [mb|].
    + destruct (runGitCommand ["describe"; "--tags"; "--abbrev=0"; mb]); eauto.
    + destruct (runGitCommand ["merge-base"; "HEAD"; "master"]) as [mb|].
      * destruct (runGitCommand ["describe"; "--tags"; "--abbrev=0"; mb]);
          eauto.
      * simpl.
        destruct (runGitCommand ["describe"; "--tags"; "--abbrev=0"]); eauto.
  - destruct (runGitCommand ["describe"; "--tags"; "--abbrev=0"]); eauto.
Qed.

End SystemGitDispatch.







(** Scenario D of the specification: no tag in the repository, on trunk,
    ten commits in all. *)
Example scenario_D (now : VersionSchemes.Date) :
  GoGit.GetLastTag InsertionSort.sortSlice Examples.tenUntagged "main"
  = Ok "v0.0.0"
  /\ GoGit.GetCommitsSinceTag Examples.tenUntagged "v0.0.0" = Ok 10
  /\ VersionSchemes.GenerateVersion now "v0.0.0" 10 "abcdef0" "main"
       (VersionSchemes.defaultScheme false) = "v0.0.0+10".
Proof. repeat split; vm_compute; reflexivity. Qed.

(** The system handler without [main] and [master]: the tag [git
    describe] finds from HEAD. *)
Example SystemGit_no_trunk :
  SystemGit.GetLastTag Examples.gitNoTrunk "feature/auth" = Ok "v1.0.0".
Proof. reflexivity. Qed.

(* ================================================================== *)
(** * Further properties of the formatter *)
(* ================================================================== *)

Section DecimalStrings.

Lemma to_int_not_nil (n : Z) :
  Z.to_int n <> Decimal.Pos Decimal.Nil /\ Z.to_int n <> Decimal.Neg Decimal.Nil.
Proof.
  destruct n as [|p|p]; simpl; split; try discriminate;
    intros [= H]; now apply DecimalPos.Unsigned.to_uint_nonnil in H.
Qed.

(** [%d] prints different numbers differently. *)
Lemma fmt_d_inj (n m : Z) : fmt_d n = fmt_d m -> n = m.
Proof.
  unfold fmt_d. intros H. apply DecimalZ.to_int_inj.
  destruct (to_int_not_nil n) as [Hn1 Hn2].
  destruct (to_int_not_nil m) as [Hm1 Hm2].
  pose proof (NilZero.isi (Z.to_int n) Hn1 Hn2) as Hin.
  pose proof (NilZero.isi (Z.to_int m) Hm1 Hm2) as Him.
  rewrite H in Hin. congruence.
Qed.

Lemma noPlus_app (a b : string) : noPlus (a ++ b) = noPlus a && noPlus b.
Proof.
  induction a as [|c a IH]; simpl; [reflexivity|].
  now rewrite IH, andb_assoc.
Qed.

Lemma noPlus_uint (d : Decimal.uint) :
  noPlus (NilEmpty.string_of_uint d) = true.
Proof. induction d; simpl; auto. Qed.

(** [%d] never prints a [+]. *)
Lemma noPlus_fmt_d (n : Z) : noPlus (fmt_d n) = true.
Proof.
  unfold fmt_d, NilZero.string_of_int, NilZero.string_of_uint.
  destruct (Z.to_int n) as [d|d]; destruct d; simpl;
    try reflexivity; apply noPlus_uint.
Qed.

Lemma allInClass_noPlus (s : string) : allInClass s = true -> noPlus s = true.
Proof.
  induction s as [|c s IH]; simpl; [reflexivity|].
  intros H. apply andb_true_iff in H as [Hc Hs]. rewrite (IH Hs), andb_true_r.
  destruct (Ascii.eqb_spec c "+") as [->|_]; [discriminate | reflexivity].
Qed.

Lemma append_cancel_l (a x y : string) : a ++ x = a ++ y -> x = y.
Proof.
  induction a as [|c a IH]; simpl; [auto|]. intros [= H]. auto.
Qed.

Lemma append_self_nil (a x : string) : a = a ++ x -> x = "".
Proof.
  induction a as [|c a IH]; simpl; [auto|]. intros [= H]. auto.
Qed.

End DecimalStrings.

Section SanitizationMore.

Import VersionSchemes.

Lemma replaceAllOutsideClass_length (s : string) :
  forall skip,
    (String.length (replaceAllOutsideClass skip s) <= String.length s)%nat.
Proof.
  induction s as [|c rest IH]; intros skip; simpl; [lia|].
  destruct skip as [|k]; [|specialize (IH k); lia].
  destruct (in_class c); simpl.
  - specialize (IH 0%nat). lia.
  - match goal with
    | |- context [replaceAllOutsideClass ?k rest] => specialize (IH k)
    end. lia.
Qed.

(** On ASCII input every rune is one byte wide. *)
Lemma replaceAllOutsideClass_ascii (s : string) :
  asciiOnly s = true -> replaceAllOutsideClass 0 s = sanitizeBytes s.
Proof.
  induction s as [|c rest IH]; simpl; [reflexivity|].
  intros H. apply andb_true_iff in H as [Hc Hrest].
  destruct (in_class c); rewrite ?Hc; simpl; now rewrite IH.
Qed.

End SanitizationMore.

(** X1. Sanitizing leaves a branch name as it is exactly when every byte
    of the name is in [A-Za-z0-9-]. *)
Theorem cleanBranchName_fixed_points (s : string) :
  VersionSchemes.cleanBranchName s = s <-> allInClass s = true.
Proof.
  unfold VersionSchemes.cleanBranchName. split.
  - intros H. rewrite <- H. apply replaceAllOutsideClass_in_class.
  - apply replaceAllOutsideClass_fixed.
Qed.

(** X2. On a name of ASCII bytes the sanitization works byte by byte:
    bytes of the class are kept, the others become ["-"].  On other names
    it does not (a rune of several bytes becomes one ["-"]), but the result
    is never longer than the name. *)
Theorem cleanBranchName_bytewise_on_ascii (s : string) :
  (asciiOnly s = true -> VersionSchemes.cleanBranchName s = sanitizeBytes s)
  /\ (String.length (VersionSchemes.cleanBranchName s) <= String.length s)%nat
  /\ (exists name,
        VersionSchemes.cleanBranchName name <> sanitizeBytes name).
Proof.
  split; [apply replaceAllOutsideClass_ascii|]. split.
  - apply replaceAllOutsideClass_length.
  - exists (String (ascii_of_nat 195) (String (ascii_of_nat 169) "")).
    vm_compute. discriminate.
Qed.

Lemma cleanBranchName_bytewise_on_ascii_witness :
  asciiOnly "bug/fix-#123" = true
  /\ VersionSchemes.cleanBranchName "bug/fix-#123" = "bug-fix--123".
Proof.
  split; [reflexivity|].
  exact (proj1 (cleanBranchName_bytewise_on_ascii "bug/fix-#123") eq_refl).
Defined.

(** X3. For a distance >= 0 the legacy entry point without the docker
    flag and the Default scheme without hash give the same version. *)
Theorem GenerateLegacy_is_Default (now : VersionSchemes.Date)
    (lastTag shortHash branchName : string) (commitsSince : Z) :
  0 <= commitsSince ->
  VersionSchemes.GenerateLegacy lastTag commitsSince shortHash branchName false
  = VersionSchemes.GenerateVersion now lastTag commitsSince shortHash
      branchName (VersionSchemes.defaultScheme false).
Proof.
  intros Hd. unfold VersionSchemes.GenerateLegacy,
    VersionSchemes.GenerateVersion, VersionSchemes.GenerateDefault. simpl.
  destruct (Z.eqb_spec commitsSince 0) as [->|Hne]; [reflexivity|].
  simpl. assert ((commitsSince >? 0) = true) as -> by (apply Z.gtb_lt; lia).
  reflexivity.
Qed.

Lemma GenerateLegacy_is_Default_witness :
  0 <= 4
  /\ VersionSchemes.GenerateLegacy "v1.2.3" 4 "abc1234" "release/2.0" false
     = VersionSchemes.GenerateVersion
         {| VersionSchemes.Year := 2025; VersionSchemes.Month := 8 |}
         "v1.2.3" 4 "abc1234" "release/2.0" (VersionSchemes.defaultScheme false).
Proof.
  split; [lia|].
  apply (GenerateLegacy_is_Default
           {| VersionSchemes.Year := 2025; VersionSchemes.Month := 8 |}
           "v1.2.3" "abc1234" "release/2.0" 4).
  lia.
Defined.

(** Below 0 they differ: the legacy format prints the distance, the
    Default scheme drops it. *)
Example GenerateLegacy_negative_distance (now : VersionSchemes.Date) :
  VersionSchemes.GenerateLegacy "v1.2.3" (-1) "abc1234" "main" false = "v1.2.3+-1"
  /\ VersionSchemes.GenerateVersion now "v1.2.3" (-1) "abc1234" "main"
       (VersionSchemes.defaultScheme false) = "v1.2.3".
Proof. split; reflexivity. Qed.

(** X4. In docker format the version has no [+] unless the tag itself has
    one, whatever the branch name and the distance. *)
Theorem GenerateLegacy_docker_no_plus (lastTag shortHash branchName : string)
    (commitsSince : Z) :
  noPlus lastTag = true ->
  noPlus (VersionSchemes.GenerateLegacy lastTag commitsSince shortHash
            branchName true) = true.
Proof.
  intros Htag. unfold VersionSchemes.GenerateLegacy.
  destruct (commitsSince =? 0); [exact Htag|].
  destruct (VersionSchemes.isMainBranch branchName);
    rewrite !noPlus_app, Htag, noPlus_fmt_d; simpl; [reflexivity|].
  rewrite allInClass_noPlus; [reflexivity|].
  apply replaceAllOutsideClass_in_class.
Qed.

Lemma GenerateLegacy_docker_no_plus_witness :
  noPlus "v1.2.3" = true
  /\ noPlus (VersionSchemes.GenerateLegacy "v1.2.3" 3 "abc1234"
               "feature/c++-port" true) = true.
Proof.
  split; [reflexivity|].
  now apply (GenerateLegacy_docker_no_plus "v1.2.3" "abc1234"
               "feature/c++-port" 3).
Defined.

(** X5. With only the Simple flag among the schemes, the version is the
    tag, followed by [+shortHash] when the hash is asked for; neither the
    distance nor the branch name has any effect. *)
Theorem Simple_scheme_ignores_distance_and_branch (now : VersionSchemes.Date)
    (lastTag shortHash branchName : string) (commitsSince : Z)
    (includeHash : bool) :
  VersionSchemes.GenerateVersion now lastTag commitsSince shortHash branchName
    {| VersionSchemes.Semver := false; VersionSchemes.CalVer := false;
       VersionSchemes.Simple := true; VersionSchemes.Hash := includeHash |}
  = if includeHash then lastTag ++ "+" ++ shortHash else lastTag.
Proof.
  unfold VersionSchemes.GenerateVersion, VersionSchemes.GenerateSimple. simpl.
  now destruct (commitsSince =? 0), includeHash.
Qed.

(** X6. The scheme flags are not exclusive; CalVer wins over the others,
    except that exactly on a tag, without hash, the Simple flag wins over
    CalVer and the version is the tag itself, not the date. *)
Theorem CalVer_flag_precedence (now : VersionSchemes.Date)
    (lastTag shortHash branchName : string) (commitsSince : Z)
    (semver simple includeHash : bool) :
  VersionSchemes.GenerateVersion now lastTag commitsSince shortHash branchName
    {| VersionSchemes.Semver := semver; VersionSchemes.CalVer := true;
       VersionSchemes.Simple := simple; VersionSchemes.Hash := includeHash |}
  = if (commitsSince =? 0) && negb includeHash && simple then lastTag
    else VersionSchemes.GenerateCalVer now lastTag commitsSince branchName
           includeHash shortHash.
Proof.
  unfold VersionSchemes.GenerateVersion. simpl.
  destruct (Z.eqb_spec commitsSince 0) as [->|Hne], includeHash, simple;
    reflexivity.
Qed.

(** X7. In the Default scheme, asking for the hash appends [+shortHash]
    (even an empty one) to the version without hash, except exactly on a
    tag on a non-trunk branch, where the branch name comes in with it. *)
Theorem GenerateDefault_hash_appends (lastTag shortHash branchName : string)
    (commitsSince : Z) :
  (commitsSince <> 0 \/ VersionSchemes.isMainBranch branchName = true ->
   VersionSchemes.GenerateDefault lastTag commitsSince shortHash branchName true
   = VersionSchemes.GenerateDefault lastTag commitsSince shortHash branchName
       false ++ "+" ++ shortHash)
  /\ (VersionSchemes.isMainBranch branchName = false ->
      VersionSchemes.GenerateDefault lastTag 0 shortHash branchName true
      = lastTag ++ "-" ++ VersionSchemes.cleanBranchName branchName
                ++ "+" ++ shortHash
      /\ VersionSchemes.GenerateDefault lastTag 0 shortHash branchName false
         = lastTag).
Proof.
  unfold VersionSchemes.GenerateDefault. split.
  - intros [Hne | Htrunk].
    + apply Z.eqb_neq in Hne. rewrite Hne. reflexivity.
    + rewrite Htrunk. destruct (Z.eqb_spec commitsSince 0) as [->|Hne];
        reflexivity.
  - intros ->. simpl. split; [|reflexivity].
    now rewrite !append_assoc.
Qed.

Lemma GenerateDefault_hash_appends_witness :
  VersionSchemes.GenerateDefault "v1.2.3" 3 "abc1234" "feature/auth" true
  = "v1.2.3-feature-auth+3+abc1234"
  /\ VersionSchemes.GenerateDefault "v1.2.3" 0 "abc1234" "feature/auth" true
     = "v1.2.3-feature-auth+abc1234".
Proof.
  split.
  - apply (proj1 (GenerateDefault_hash_appends "v1.2.3" "abc1234"
                    "feature/auth" 3)). left. discriminate.
  - apply (proj2 (GenerateDefault_hash_appends "v1.2.3" "abc1234"
                    "feature/auth" 0)). reflexivity.
Defined.

(** X8. Whenever the Semver scheme does not return the tag unchanged
    (that is, unless the distance is 0 and no hash is asked for), a leading
    [v] of the tag makes no difference: the tags [vX] and [X] give the same
    version, which starts with [v]. *)
Theorem GenerateSemVer_tag_prefix_irrelevant
    (tag shortHash branchName : string) (commitsSince : Z) (includeHash : bool) :
  VersionSchemes.hasVersionPrefix tag = false ->
  (commitsSince =? 0) && negb includeHash = false ->
  VersionSchemes.GenerateSemVer ("v" ++ tag) commitsSince branchName
    includeHash shortHash
  = VersionSchemes.GenerateSemVer tag commitsSince branchName includeHash
      shortHash
  /\ VersionSchemes.hasVersionPrefix
       (VersionSchemes.GenerateSemVer tag commitsSince branchName includeHash
          shortHash) = true.
Proof.
  intros Htag Hgate. rewrite !GenerateSemVer_body by exact Hgate.
  split; [|apply ensureVersionPrefix_has].
  do 3 f_equal. simpl. rewrite <- (strip_prefix_core tag). now rewrite Htag.
Qed.

Lemma GenerateSemVer_tag_prefix_irrelevant_witness :
  VersionSchemes.GenerateSemVer "v1.2.3" 2 "main" true "abc1234"
  = VersionSchemes.GenerateSemVer "1.2.3" 2 "main" true "abc1234"
  /\ VersionSchemes.hasVersionPrefix
       (VersionSchemes.GenerateSemVer "1.2.3" 2 "main" true "abc1234") = true.
Proof.
  apply (GenerateSemVer_tag_prefix_irrelevant "1.2.3" "abc1234" "main" 2 true);
    reflexivity.
Defined.

(** X9. The three trunk names are interchangeable: on [main], [master] or
    [detached] every scheme and the legacy format give the same version. *)
Theorem trunk_names_interchangeable (now : VersionSchemes.Date)
    (lastTag shortHash branch1 branch2 : string) (commitsSince : Z)
    (options : VersionSchemes.VersioningOptions) (dockerFormat : bool) :
  VersionSchemes.isMainBranch branch1 = true ->
  VersionSchemes.isMainBranch branch2 = true ->
  VersionSchemes.GenerateVersion now lastTag commitsSince shortHash branch1
    options
  = VersionSchemes.GenerateVersion now lastTag commitsSince shortHash branch2
      options
  /\ VersionSchemes.GenerateLegacy lastTag commitsSince shortHash branch1
       dockerFormat
     = VersionSchemes.GenerateLegacy lastTag commitsSince shortHash branch2
         dockerFormat.
Proof.
  intros H1 H2.
  unfold VersionSchemes.GenerateVersion, VersionSchemes.GenerateLegacy,
    VersionSchemes.GenerateCalVer, VersionSchemes.GenerateSemVer,
    VersionSchemes.GenerateDefault.
  now rewrite H1, H2.
Qed.

Lemma trunk_names_interchangeable_witness :
  VersionSchemes.GenerateVersion
    {| VersionSchemes.Year := 2025; VersionSchemes.Month := 8 |}
    "v1.2.3" 5 "abc1234" "detached" (VersionSchemes.semverScheme false true)
  = VersionSchemes.GenerateVersion
      {| VersionSchemes.Year := 2025; VersionSchemes.Month := 8 |}
      "v1.2.3" 5 "abc1234" "master" (VersionSchemes.semverScheme false true).
Proof.
  apply (proj1 (trunk_names_interchangeable
    {| VersionSchemes.Year := 2025; VersionSchemes.Month := 8 |}
    "v1.2.3" "abc1234" "detached" "master" 5
    (VersionSchemes.semverScheme false true) false eq_refl eq_refl)).
Defined.

(** X10. On one branch and one tag, the legacy version tells the distance:
    two distances that give the same version are equal. *)
Theorem GenerateLegacy_distance_inj (lastTag shortHash branchName : string)
    (distance1 distance2 : Z) (dockerFormat : bool) :
  VersionSchemes.GenerateLegacy lastTag distance1 shortHash branchName
    dockerFormat
  = VersionSchemes.GenerateLegacy lastTag distance2 shortHash branchName
      dockerFormat ->
  distance1 = distance2.
Proof.
  unfold VersionSchemes.GenerateLegacy.
  destruct (Z.eqb_spec distance1 0) as [->|H1],
           (Z.eqb_spec distance2 0) as [->|H2]; [reflexivity| | |].
  - intros H. exfalso.
    destruct (VersionSchemes.isMainBranch branchName), dockerFormat;
      apply append_self_nil in H; discriminate.
  - intros H. exfalso. symmetry in H.
    destruct (VersionSchemes.isMainBranch branchName), dockerFormat;
      apply append_self_nil in H; discriminate.
  - intros H. apply fmt_d_inj.
    destruct (VersionSchemes.isMainBranch branchName), dockerFormat;
      repeat (apply append_cancel_l in H; try injection H as H);
      exact H.
Qed.

Lemma GenerateLegacy_distance_inj_witness :
  VersionSchemes.GenerateLegacy "v1.2.3" 12 "abc1234" "feature/auth" false
  = VersionSchemes.GenerateLegacy "v1.2.3" (10 + 2) "abc1234" "feature/auth" false
  /\ 12 = 10 + 2.
Proof.
  split; [reflexivity|].
  now apply (GenerateLegacy_distance_inj "v1.2.3" "abc1234" "feature/auth"
               12 (10 + 2) false).
Defined.

(* ================================================================== *)
(** * The formatting of [systemgit_handler.go] against [versionSchemes] *)
(* ================================================================== *)

Section TwoFormatters.

Import VersionSchemes.

Lemma old_trunk_test (branchName : string) :
  (branchName =? "main")%string || (branchName =? "master")%string
  || (branchName =? "detached")%string = isMainBranch branchName.
Proof. reflexivity. Qed.

Lemma old_branch_test (branchName : string) :
  negb (branchName =? "main")%string && negb (branchName =? "master")%string
  && negb (branchName =? "detached")%string = negb (isMainBranch branchName).
Proof.
  unfold isMainBranch.
  now destruct (branchName =? "main")%string, (branchName =? "master")%string,
    (branchName =? "detached")%string.
Qed.

Lemma no_v_append (a b : string) :
  hasVersionPrefix a = false -> hasVersionPrefix b = false ->
  hasVersionPrefix (a ++ b) = false.
Proof.
  destruct a as [|c a]; simpl; [auto|].
  unfold hasVersionPrefix. simpl. now rewrite !andb_true_r.
Qed.

(** Without the hash, or with a hash that is not empty, the two ways of
    appending it agree. *)
Lemma hash_suffix_agree (includeHash : bool) (shortHash v : string) :
  includeHash = false \/ shortHash <> "" ->
  (if includeHash && negb (shortHash =? "")%string
   then v ++ "+" ++ shortHash else v)
  = (if includeHash then v ++ "+" ++ shortHash else v).
Proof.
  intros [-> | Hne]; [reflexivity|].
  apply String.eqb_neq in Hne. rewrite Hne. now destruct includeHash.
Qed.

Lemma generateCalVerString_agrees (now : Date) (lastTag shortHash branchName : string)
    (commitsSince : Z) (includeHash : bool) :
  includeHash = false \/ shortHash <> "" ->
  SystemGitFormat.generateCalVerString now lastTag commitsSince shortHash
    branchName includeHash
  = GenerateCalVer now lastTag commitsSince branchName includeHash shortHash.
Proof.
  intros Hhash.
  unfold SystemGitFormat.generateCalVerString, GenerateCalVer,
    SystemGitFormat.cleanBranch, cleanBranchName.
  cbv zeta. rewrite old_branch_test. symmetry. now apply hash_suffix_agree.
Qed.

Lemma generateSemVerString_agrees (lastTag shortHash branchName : string)
    (commitsSince : Z) (includeHash : bool) :
  includeHash = false \/ shortHash <> "" ->
  hasVersionPrefix (core lastTag) = false ->
  SystemGitFormat.generateSemVerString lastTag commitsSince shortHash
    branchName includeHash
  = GenerateSemVer lastTag commitsSince branchName includeHash shortHash.
Proof.
  intros Hhash Hcore.
  unfold SystemGitFormat.generateSemVerString, GenerateSemVer,
    SystemGitFormat.cleanBranch, cleanBranchName.
  destruct ((commitsSince =? 0) && negb includeHash); [reflexivity|].
  cbv zeta. rewrite old_trunk_test.
  change (HasPrefix lastTag "v") with (hasVersionPrefix lastTag).
  rewrite strip_prefix_core, hash_suffix_agree by exact Hhash.
  symmetry. apply ensureVersionPrefix_adds.
  destruct (isMainBranch branchName), (commitsSince >? 0), includeHash;
    repeat (apply no_v_append; try exact Hcore; try reflexivity);
    exact Hcore.
Qed.

End TwoFormatters.

(** X11. The legacy formatting of the older system handler and
    [GenerateLegacy] agree on every branch name but [detached]: the older
    one treats [detached] as an ordinary branch and puts its name in the
    version. *)
Theorem generateVersionString_vs_GenerateLegacy
    (lastTag shortHash branchName : string) (commitsSince : Z)
    (dockerFormat : bool) :
  (branchName <> "detached" ->
   SystemGitFormat.generateVersionString lastTag commitsSince shortHash
     branchName dockerFormat
   = VersionSchemes.GenerateLegacy lastTag commitsSince shortHash branchName
       dockerFormat)
  /\ (commitsSince <> 0 ->
      SystemGitFormat.generateVersionString lastTag commitsSince shortHash
        "detached" false
      = lastTag ++ "-detached+" ++ fmt_d commitsSince
      /\ VersionSchemes.GenerateLegacy lastTag commitsSince shortHash
           "detached" false
         = lastTag ++ "+" ++ fmt_d commitsSince).
Proof.
  unfold SystemGitFormat.generateVersionString, VersionSchemes.GenerateLegacy,
    VersionSchemes.isMainBranch. split.
  - intros Hne. apply String.eqb_neq in Hne. rewrite Hne, orb_false_r.
    reflexivity.
  - intros Hne. apply Z.eqb_neq in Hne. rewrite Hne. now split.
Qed.

Lemma generateVersionString_vs_GenerateLegacy_witness :
  SystemGitFormat.generateVersionString "v1.2.3" 2 "abc1234" "feature/auth" true
  = "v1.2.3-feature-auth-2"
  /\ SystemGitFormat.generateVersionString "v1.2.3" 2 "abc1234" "detached" false
     = "v1.2.3-detached+2".
Proof.
  destruct (generateVersionString_vs_GenerateLegacy "v1.2.3" "abc1234"
              "feature/auth" 2 true) as [Hsame Hdetached].
  split.
  - rewrite Hsame; [reflexivity | discriminate].
  - apply Hdetached. discriminate.
Defined.

(** X12. The scheme formatting of the older system handler and
    [GenerateVersion] give the same version whenever the short hash is not
    empty (or not asked for) and the tag does not start with two [v]; the
    Default and Simple schemes agree always. *)
Theorem generateVersionStringWithOptions_vs_GenerateVersion
    (now : VersionSchemes.Date) (lastTag shortHash branchName : string)
    (commitsSince : Z) (options : VersionSchemes.VersioningOptions) :
  (VersionSchemes.Hash options = false \/ shortHash <> "" ->
   VersionSchemes.hasVersionPrefix (core lastTag) = false ->
   SystemGitFormat.generateVersionStringWithOptions now lastTag commitsSince
     shortHash branchName options
   = VersionSchemes.GenerateVersion now lastTag commitsSince shortHash
       branchName options)
  /\ (VersionSchemes.CalVer options = false ->
      VersionSchemes.Semver options = false ->
      SystemGitFormat.generateVersionStringWithOptions now lastTag commitsSince
        shortHash branchName options
      = VersionSchemes.GenerateVersion now lastTag commitsSince shortHash
          branchName options).
Proof.
  assert (Hdefault :
    SystemGitFormat.generateDefaultString lastTag commitsSince shortHash
      branchName (VersionSchemes.Hash options)
    = VersionSchemes.GenerateDefault lastTag commitsSince shortHash branchName
        (VersionSchemes.Hash options)) by reflexivity.
  assert (Hon_tag :
    SystemGitFormat.convertToCalVer now lastTag 0 branchName false
    = VersionSchemes.GenerateCalVer now lastTag 0 branchName false shortHash).
  { unfold SystemGitFormat.convertToCalVer.
    rewrite generateCalVerString_agrees by now left. reflexivity. }
  unfold SystemGitFormat.generateVersionStringWithOptions,
    VersionSchemes.GenerateVersion. split.
  - intros Hhash Hcore. rewrite Hon_tag, Hdefault.
    rewrite generateCalVerString_agrees by exact Hhash.
    rewrite generateSemVerString_agrees by assumption. reflexivity.
  - intros -> ->. now rewrite Hdefault.
Qed.

Lemma generateVersionStringWithOptions_vs_GenerateVersion_witness :
  SystemGitFormat.generateVersionStringWithOptions
    {| VersionSchemes.Year := 2025; VersionSchemes.Month := 8 |}
    "v1.2.3" 3 "abc1234" "feature/auth" (VersionSchemes.semverScheme false true)
  = "v1.2.3-feature-auth.3+abc1234".
Proof.
  rewrite (proj1 (generateVersionStringWithOptions_vs_GenerateVersion
    {| VersionSchemes.Year := 2025; VersionSchemes.Month := 8 |}
    "v1.2.3" "abc1234" "feature/auth" 3
    (VersionSchemes.semverScheme false true)));
    [reflexivity | right; discriminate | reflexivity].
Defined.

(** Where they part: an empty hash, a tag that starts with two [v]. *)
Example two_formatters_differ :
  SystemGitFormat.generateSemVerString "v1.2.3" 1 "" "main" true = "v1.2.3-dev.1+"
  /\ VersionSchemes.GenerateSemVer "v1.2.3" 1 "main" true "" = "v1.2.3-dev.1"
  /\ SystemGitFormat.generateSemVerString "vv1.2.3" 1 "a" "main" false
     = "vv1.2.3-dev.1"
  /\ VersionSchemes.GenerateSemVer "vv1.2.3" 1 "main" false "a" = "v1.2.3-dev.1".
Proof. repeat split. Qed.

(* ================================================================== *)
(** * Further properties of the go-git handler *)
(* ================================================================== *)

Section Search.

Local Open Scope list_scope.

Variable r : Repository.

(** A walk whose callback stops at the commit [to], and only there: in an
    intact store, when [to] is reachable the walk ends by the callback
    stopping at [to]. *)
Lemma search_walk_finds {St : Type} (from to : plumbing_Hash) (c : Commit)
    (cb : Commit -> St -> St * option string) (s0 : St) :
  CommitObject r from = Ok c ->
  (forall c s, Hash c = to -> snd (cb c s) <> None) ->
  (forall c s, Hash c <> to -> snd (cb c s) = None) ->
  parentsPresent r = true ->
  reachable r from to ->
  exists cto s,
    Hash cto = to /\ snd (cb cto s) <> None
    /\ ForEach r (NewCommitPreorderIter c) cb s0 = cb cto s.
Proof.
  intros Hc Hstop Hgo Hstore Hreach.
  apply (ForEach_rule r from c cb s0
    (fun w _ => ~ In to (seen w))
    (fun res => exists cto s, Hash cto = to /\ snd (cb cto s) <> None
                              /\ res = cb cto s) Hc).
  - intros w1 Hw1 Hseen.
    destruct (N.eq_dec (Hash c) to) as [Heq|Hne].
    + specialize (Hstop c s0 Heq).
      destruct (cb c s0) as [s' [e|]] eqn:Hcb; [|now contradiction Hstop].
      exists c, s0. rewrite Hcb. repeat split; auto.
    + specialize (Hgo c s0 Hne). destruct (cb c s0) as [s' [e|]];
        [discriminate|].
      rewrite Hseen, <- (CommitObject_Hash r from c Hc).
      intros [H|[]]. congruence.
  - intros w s c' w' Hw Hnot Hnext Hw' Hseen.
    destruct (N.eq_dec (Hash c') to) as [Heq|Hne].
    + specialize (Hstop c' s Heq).
      destruct (cb c' s) as [s' [e|]] eqn:Hcb; [|now contradiction Hstop].
      exists c', s. rewrite Hcb. repeat split; auto.
    + specialize (Hgo c' s Hne). destruct (cb c' s) as [s' [e|]];
        [discriminate|].
      rewrite Hseen. intros [H|H]; [congruence | contradiction].
  - intros w s Hw Hnot Hnext. exfalso. apply Hnot.
    now apply (walking_eof r from w Hw Hnext).
  - intros w s e Hw _ Hnext.
    destruct (walking_never_fails r from w e Hstore Hw Hnext).
Qed.

Lemma isCommitReachable_true (from to : plumbing_Hash) :
  GoGit.isCommitReachable r from to = Ok true -> reachable r from to.
Proof.
  intros H. destruct (CommitObject r from) as [c|e] eqn:Hc.
  - apply isCommitReachable_sound; [now rewrite Hc | exact H].
  - unfold GoGit.isCommitReachable in H. rewrite Hc in H.
    destruct (N.eqb_spec from to) as [<-|_]; [apply reach_here | discriminate].
Qed.

Lemma isCommitReachable_complete (from to : plumbing_Hash) :
  parentsPresent r = true -> is_ok (CommitObject r from) = true ->
  reachable r from to -> GoGit.isCommitReachable r from to = Ok true.
Proof.
  intros Hstore Hfrom Hreach. unfold GoGit.isCommitReachable.
  destruct (from =? to)%N; [reflexivity|].
  destruct (CommitObject r from) as [c|] eqn:Hc; [|discriminate].
  set (cb := fun (c : Commit) (_ : unit) =>
               if (Hash c =? to)%N then (tt, Some "found"%string)
               else (tt, None)).
  destruct (search_walk_finds from to c cb tt Hc) as (cto & s & Hto & _ & ->);
    auto.
  - intros c' s Heq. unfold cb. apply N.eqb_eq in Heq. now rewrite Heq.
  - intros c' s Hne. unfold cb. apply N.eqb_neq in Hne. now rewrite Hne.
  - unfold cb. apply N.eqb_eq in Hto. now rewrite Hto.
Qed.

(** The first walk of [findCommonAncestor] collects, in an intact store,
    exactly the commits reachable from the second commit. *)
Lemma collect_ancestors (h : plumbing_Hash) (c : Commit) :
  parentsPresent r = true -> CommitObject r h = Ok c ->
  let collect (c : Commit) (ancestorsMap : list plumbing_Hash) :=
    (Hash c :: ancestorsMap, @None string) in
  exists ancestorsMap,
    ForEach r (NewCommitPreorderIter c) collect [] = (ancestorsMap, None)
    /\ forall x, In x ancestorsMap <-> reachable r h x.
Proof.
  intros Hstore Hc collect.
  apply (ForEach_rule r h c collect []
    (fun w m => m = seen w)
    (fun res => exists m, res = (m, None)
                          /\ forall x, In x m <-> reachable r h x) Hc).
  - intros w1 Hw1 Hseen. simpl.
    now rewrite Hseen, (CommitObject_Hash r h c Hc).
  - intros w m c' w' Hw -> Hnext Hw' Hseen. simpl. now rewrite Hseen.
  - intros w m Hw -> Hnext. exists (seen w). split; [reflexivity|].
    now apply walking_eof.
  - intros w m e Hw _ Hnext.
    destruct (walking_never_fails r h w e Hstore Hw Hnext).
Qed.

(** The second walk stops at the first commit it hands out that the first
    walk has collected; what it returns is a commit of the store. *)
Lemma findCommonAncestor_commit (commit1 commit2 x : plumbing_Hash) :
  is_ok (CommitObject r commit1) = true ->
  GoGit.findCommonAncestor r commit1 commit2 = Ok x ->
  is_ok (CommitObject r x) = true.
Proof.
  intros H1. unfold GoGit.findCommonAncestor.
  destruct (commit1 =? commit2)%N; [now intros [= <-]|].
  destruct (CommitObject r commit1) as [c1|] eqn:Hc1; [|discriminate].
  destruct (CommitObject r commit2) as [c2|] eqn:Hc2; [|discriminate].
  match goal with
  | |- context [ForEach r (NewCommitPreorderIter c2) ?f []] =>
      destruct (ForEach r (NewCommitPreorderIter c2) f [])
        as [ancestorsMap [e|]]; [discriminate|]
  end.
  set (cb := fun (c : Commit) (commonAncestor : plumbing_Hash) =>
               if mem (Hash c) ancestorsMap
               then (Hash c, Some "found common ancestor"%string)
               else (commonAncestor, None)).
  assert (Hfound :
    snd (ForEach r (NewCommitPreorderIter c1) cb ZeroHash)
    = Some "found common ancestor"%string ->
    is_ok (CommitObject r (fst (ForEach r (NewCommitPreorderIter c1) cb ZeroHash)))
    = true).
  { apply (ForEach_rule r commit1 c1 cb ZeroHash (fun _ _ => True)
      (fun res => snd res = Some "found common ancestor"%string ->
                  is_ok (CommitObject r (fst res)) = true) Hc1).
    - intros w1 Hw1 Hseen. unfold cb.
      destruct (mem (Hash c1) ancestorsMap); [|exact I].
      intros _. simpl. now rewrite (CommitObject_Hash r commit1 c1 Hc1), Hc1.
    - intros w a c' w' Hw _ Hnext Hw' Hseen. unfold cb.
      destruct (mem (Hash c') ancestorsMap); [|exact I].
      intros _. simpl.
      destruct (walking_next r commit1 w w' c' Hw Hnext) as (_ & _ & Hc' & _).
      now rewrite Hc'.
    - intros w a _ _ _. discriminate.
    - intros w a e Hw _ Hnext. simpl.
      apply (walking_failed_msg r commit1 w e Hw) in Hnext. subst e.
      discriminate. }
  destruct (ForEach r (NewCommitPreorderIter c1) cb ZeroHash)
    as [commonAncestor [msg|]]; [|discriminate]. simpl in Hfound.
  destruct (String.eqb_spec msg "found common ancestor") as [->|_];
    [|discriminate].
  intros [= <-]. now apply Hfound.
Qed.

(** When the first commit is in the history of the second, it is itself
    the common ancestor found. *)
Lemma findCommonAncestor_contained (commit1 commit2 : plumbing_Hash) :
  parentsPresent r = true ->
  is_ok (CommitObject r commit1) = true ->
  is_ok (CommitObject r commit2) = true ->
  reachable r commit2 commit1 ->
  GoGit.findCommonAncestor r commit1 commit2 = Ok commit1.
Proof.
  intros Hstore H1 H2 Hreach. unfold GoGit.findCommonAncestor.
  destruct (commit1 =? commit2)%N; [reflexivity|].
  destruct (CommitObject r commit1) as [c1|] eqn:Hc1; [|discriminate].
  destruct (CommitObject r commit2) as [c2|] eqn:Hc2; [|discriminate].
  destruct (collect_ancestors commit2 c2 Hstore Hc2) as (m & -> & Hm).
  set (cb := fun (c : Commit) (commonAncestor : plumbing_Hash) =>
               if mem (Hash c) m
               then (Hash c, Some "found common ancestor"%string)
               else (commonAncestor, None)).
  assert (Hfirst : ForEach r (NewCommitPreorderIter c1) cb ZeroHash
                   = (commit1, Some "found common ancestor"%string)).
  { apply (ForEach_rule r commit1 c1 cb ZeroHash (fun _ _ => False)
      (fun res => res = (commit1, Some "found common ancestor"%string)) Hc1).
    - intros w1 Hw1 Hseen. unfold cb.
      rewrite (CommitObject_Hash r commit1 c1 Hc1).
      assert (mem commit1 m = true) as -> by (apply mem_In; now apply Hm).
      reflexivity.
    - intros w s c' w' _ [].
    - intros w s _ [].
    - intros w s e _ []. }
  now rewrite Hfirst.
Qed.

(** In an intact store a common ancestor, if there is one, is found. *)
Lemma findCommonAncestor_complete (commit1 commit2 x : plumbing_Hash) :
  parentsPresent r = true ->
  is_ok (CommitObject r commit1) = true ->
  is_ok (CommitObject r commit2) = true ->
  reachable r commit1 x -> reachable r commit2 x ->
  exists y, GoGit.findCommonAncestor r commit1 commit2 = Ok y.
Proof.
  intros Hstore H1 H2 Hx1 Hx2. unfold GoGit.findCommonAncestor.
  destruct (commit1 =? commit2)%N; [now eexists|].
  destruct (CommitObject r commit1) as [c1|] eqn:Hc1; [|discriminate].
  destruct (CommitObject r commit2) as [c2|] eqn:Hc2; [|discriminate].
  destruct (collect_ancestors commit2 c2 Hstore Hc2) as (m & -> & Hm).
  set (cb := fun (c : Commit) (commonAncestor : plumbing_Hash) =>
               if mem (Hash c) m
               then (Hash c, Some "found common ancestor"%string)
               else (commonAncestor, None)).
  assert (Hfound : exists y,
            ForEach r (NewCommitPreorderIter c1) cb ZeroHash
            = (y, Some "found common ancestor"%string)).
  { apply (ForEach_rule r commit1 c1 cb ZeroHash
      (fun w _ => forall h, In h (seen w) -> ~ In h m)
      (fun res => exists y, res = (y, Some "found common ancestor"%string))
      Hc1).
    - intros w1 Hw1 Hseen. unfold cb.
      destruct (mem (Hash c1) m) eqn:Hmem; [now eexists|].
      apply mem_not_In in Hmem. rewrite Hseen.
      rewrite (CommitObject_Hash r commit1 c1 Hc1) in Hmem.
      now intros h [<-|[]].
    - intros w s c' w' Hw Hnone Hnext Hw' Hseen. unfold cb.
      destruct (mem (Hash c') m) eqn:Hmem; [now eexists|].
      apply mem_not_In in Hmem. rewrite Hseen.
      intros h [<-|Hh]; auto.
    - intros w s Hw Hnone Hnext. exfalso.
      apply (Hnone x); [now apply (walking_eof r commit1 w Hw Hnext)|].
      now apply Hm.
    - intros w s e Hw _ Hnext.
      destruct (walking_never_fails r commit1 w e Hstore Hw Hnext). }
  destruct Hfound as [y ->]. now exists y.
Qed.

End Search.

(** X13. [isCommitReachable] never fails once the start commit can be
    read: an error of the walk reads as "no".  It answers "yes" only for a
    commit that is reachable, and in an intact store exactly for those. *)
Theorem isCommitReachable_decides (r : Repository) (from to : plumbing_Hash) :
  is_ok (CommitObject r from) = true ->
  (exists b, GoGit.isCommitReachable r from to = Ok b)
  /\ (GoGit.isCommitReachable r from to = Ok true -> reachable r from to)
  /\ (parentsPresent r = true ->
      (GoGit.isCommitReachable r from to = Ok true <-> reachable r from to)).
Proof.
  intros Hfrom. split; [now apply isCommitReachable_answers|].
  split; [apply isCommitReachable_true|].
  intros Hstore. split; [apply isCommitReachable_true|].
  now apply isCommitReachable_complete.
Qed.

Lemma isCommitReachable_decides_witness :
  GoGit.isCommitReachable Examples.mergedFeature 5%N 1%N = Ok true
  /\ reachable Examples.mergedFeature 5%N 1%N.
Proof.
  split; [reflexivity|].
  apply (proj1 (proj2 (isCommitReachable_decides Examples.mergedFeature
                         5%N 1%N eq_refl))).
  reflexivity.
Defined.

(** A store with a missing parent: the walk from 2 fails on the missing
    commit 1, and the tagged commit 3 behind it reads as not reachable. *)
Example isCommitReachable_broken_store :
  let broken :=
    {| objects := [(2%N, CommitObj [1%N; 3%N] 200); (3%N, CommitObj [] 100)];
       HEAD := Some 2%N; branches := []; tags := [("v1.0.0", 3%N)] |} in
  GoGit.isCommitReachable broken 2%N 3%N = Ok false
  /\ reachable broken 2%N 3%N.
Proof.
  split; [reflexivity|].
  eapply reach_parent; [reflexivity | right; now left | apply reach_here].
Qed.

(** X14. What [findCommonAncestor] returns is an ancestor of both commits
    and, the first commit being readable, a commit of the store; in an
    intact store with both commits readable it returns an error exactly
    when the two have no common ancestor. *)
Theorem findCommonAncestor_correct (r : Repository)
    (commit1 commit2 : plumbing_Hash) :
  is_ok (CommitObject r commit1) = true ->
  (forall x, GoGit.findCommonAncestor r commit1 commit2 = Ok x ->
     reachable r commit1 x /\ reachable r commit2 x
     /\ is_ok (CommitObject r x) = true)
  /\ (parentsPresent r = true -> is_ok (CommitObject r commit2) = true ->
      (is_ok (GoGit.findCommonAncestor r commit1 commit2) = false
       <-> noCommonAncestor r commit1 commit2)).
Proof.
  intros H1. split.
  - intros x Hx. destruct (findCommonAncestor_sound r commit1 commit2 x Hx).
    repeat split; auto. now apply (findCommonAncestor_commit r commit1 commit2).
  - intros Hstore H2. split.
    + intros Herr x [Hx1 Hx2].
      destruct (findCommonAncestor_complete r commit1 commit2 x) as [y Hy];
        auto.
      now rewrite Hy in Herr.
    + intros Hnone.
      now destruct (findCommonAncestor_none r commit1 commit2 Hnone) as [e ->].
Qed.

Lemma findCommonAncestor_correct_witness :
  GoGit.findCommonAncestor Examples.mergedFeature 5%N 3%N = Ok 2%N
  /\ reachable Examples.mergedFeature 5%N 2%N
  /\ reachable Examples.mergedFeature 3%N 2%N
  /\ is_ok (CommitObject Examples.mergedFeature 2%N) = true.
Proof.
  split; [reflexivity|].
  apply (proj1 (findCommonAncestor_correct Examples.mergedFeature 5%N 3%N
                  eq_refl) 2%N).
  reflexivity.
Defined.

(** X15. On a branch whose HEAD commit is already in the history of the
    trunk head (a branch not yet ahead of the trunk, or a commit of the
    trunk checked out under another name), the rebase point is HEAD itself
    and [GetLastTag] resolves from the current position, as on the trunk. *)
Theorem GetLastTag_inside_trunk
    (sortSlice : forall A : Type, (A -> A -> bool) -> list A -> list A)
    (r : Repository) (branchName : string) (head trunk : plumbing_Hash) :
  parentsPresent r = true ->
  Head r = Ok head ->
  trunkHead r = Some trunk ->
  is_ok (CommitObject r head) = true ->
  is_ok (CommitObject r trunk) = true ->
  reachable r trunk head ->
  GoGit.findCommonAncestor r head trunk = Ok head
  /\ GoGit.GetLastTag sortSlice r branchName
     = GoGit.findTagFromCurrentBranch sortSlice r head.
Proof.
  intros Hstore Hhead Htrunk Hc1 Hc2 Hreach.
  assert (Hfind : GoGit.findCommonAncestor r head trunk = Ok head)
    by now apply findCommonAncestor_contained.
  split; [exact Hfind|].
  unfold GoGit.GetLastTag. rewrite Hhead.
  destruct (negb (branchName =? "main")%string
            && negb (branchName =? "master")%string); [|reflexivity].
  rewrite findTagFromRebasePoint_trunkHead. now rewrite Htrunk, Hfind.
Qed.

Lemma GetLastTag_inside_trunk_witness :
  reachable Examples.detachedBehind 2%N 2%N
  /\ GoGit.GetLastTag InsertionSort.sortSlice Examples.detachedBehind "hotfix"
     = Ok "v1.0.0".
Proof.
  split; [apply reach_here|].
  rewrite (proj2 (GetLastTag_inside_trunk InsertionSort.sortSlice
    Examples.detachedBehind "hotfix" 2%N 3%N eq_refl eq_refl eq_refl eq_refl
    eq_refl
    (reach_parent Examples.detachedBehind 3%N 2%N 2%N
       {| Hash := 3%N; ParentHashes := [2%N]; When := 300 |}
       eq_refl (or_introl eq_refl) (reach_here _ 2%N)))).
  reflexivity.
Defined.

Section NewestTag.

Local Open Scope list_scope.

Variable r : Repository.
Variable from : plumbing_Hash.

(** Every tag the loop collects is a reachable tag of the repository. *)
Lemma collectReachableTags_sound (refs : list (string * plumbing_Hash)) :
  incl refs (tags r) ->
  forall acc l,
    GoGit.collectReachableTags r from refs acc = Ok l ->
    forall e, In e l ->
      In e acc
      \/ reachableTag r from (GoGit.name e) (GoGit.hash e) (GoGit.time e).
Proof.
  induction refs as [|[tagName refHash] refs IH]; intros Hincl acc l; simpl.
  - intros [= <-] e He. now left.
  - assert (Hrest : incl refs (tags r)) by (intros x Hx; apply Hincl; now right).
    assert (Hin : In (tagName, refHash) (tags r)) by (apply Hincl; now left).
    destruct (AnyObject r refHash) as [obj|] eqn:Hobj; [|discriminate].
    destruct (GoGit.tagCommitHashOf refHash obj) as [target|] eqn:Hswitch;
      [|now apply IH].
    destruct (GoGit.isCommitReachable r from target) as [[|]|] eqn:Hreach;
      [|now apply IH|discriminate].
    destruct (CommitObject r target) as [c|] eqn:Hc; [|discriminate].
    intros Hl e He. destruct (IH Hrest _ _ Hl e He) as [Hacc|Htag];
      [|now right].
    apply in_app_or in Hacc as [Hacc|[<-|[]]]; [now left|right].
    exists refHash, c. simpl. repeat split; auto.
    + unfold tagTarget. now rewrite Hobj.
    + now apply isCommitReachable_true.
Qed.

(** In an intact store every reachable tag is collected. *)
Lemma collectReachableTags_complete (refs : list (string * plumbing_Hash)) :
  parentsPresent r = true -> is_ok (CommitObject r from) = true ->
  forall acc l,
    GoGit.collectReachableTags r from refs acc = Ok l ->
    incl acc l
    /\ forall tagName refHash target,
         In (tagName, refHash) refs -> tagTarget r refHash = Some target ->
         reachable r from target ->
         exists e c, In e l /\ GoGit.name e = tagName
                     /\ CommitObject r target = Ok c /\ GoGit.time e = When c.
Proof.
  intros Hstore Hfrom.
  induction refs as [|[tagName refHash] refs IH]; intros acc l; simpl.
  - intros [= <-]. split; [apply incl_refl | intros ? ? ? []].
  - destruct (AnyObject r refHash) as [obj|] eqn:Hobj; [|discriminate].
    assert (Htarget : tagTarget r refHash = GoGit.tagCommitHashOf refHash obj)
      by (unfold tagTarget; now rewrite Hobj).
    destruct (GoGit.tagCommitHashOf refHash obj) as [target|] eqn:Hswitch.
    + destruct (GoGit.isCommitReachable r from target) as [[|]|] eqn:Hreach;
        [| |discriminate].
      * destruct (CommitObject r target) as [c|] eqn:Hc; [|discriminate].
        intros Hl. destruct (IH _ _ Hl) as [Hacc Hall]. split.
        -- intros e He. apply Hacc. apply in_or_app. now left.
        -- intros n h t [[= <- <-]|Hin] Ht Hrt; [|eauto].
           rewrite Htarget in Ht. injection Ht as <-.
           eexists _, c. split; [apply Hacc, in_or_app; right; now left|].
           now repeat split.
      * intros Hl. destruct (IH _ _ Hl) as [Hacc Hall]. split; [exact Hacc|].
        intros n h t [[= <- <-]|Hin] Ht Hrt; [|eauto].
        rewrite Htarget in Ht. injection Ht as <-.
        rewrite (isCommitReachable_complete r from target Hstore Hfrom Hrt)
          in Hreach. discriminate.
    + intros Hl. destruct (IH _ _ Hl) as [Hacc Hall]. split; [exact Hacc|].
      intros n h t [[= <- <-]|Hin] Ht Hrt; [|eauto].
      rewrite Htarget in Ht. discriminate.
Qed.

End NewestTag.

Section InsertionSortSorted.

Local Open Scope list_scope.

Variable A : Type.
Variable key : A -> Z.

(** Putting [x] right after [y] in a sorted list, when [y >= x] and [x]
    is above all that follows. *)
Lemma sorted_insert_after (l1 l2 : list A) (x y : A) :
  StronglySorted (fun a b : A => key a >= key b) (l1 ++ y :: l2) -> key y >= key x ->
  Forall (fun b => key x >= key b) l2 ->
  StronglySorted (fun a b : A => key a >= key b) (l1 ++ y :: x :: l2).
Proof.
  intros Hsorted Hyx Hx. induction l1 as [|a l1 IH]; simpl in *.
  - apply StronglySorted_inv in Hsorted as [Hs Hy].
    constructor; [constructor; auto|]. constructor; auto.
  - apply StronglySorted_inv in Hsorted as [Hs Ha].
    constructor; [now apply IH|].
    apply Forall_app in Ha as [Ha1 Ha2]. apply Forall_app. split; [exact Ha1|].
    apply Forall_cons_iff in Ha2 as [Hay Ha2].
    repeat constructor; auto. lia.
Qed.

Lemma moveLeft_sorted (x : A) (revPrefix : list A) :
  forall right,
    StronglySorted (fun a b : A => key a >= key b) (rev revPrefix ++ right) ->
    Forall (fun b => key x >= key b) right ->
    StronglySorted (fun a b : A => key a >= key b) (InsertionSort.moveLeft (fun a b : A => key a >? key b) x revPrefix right).
Proof.
  induction revPrefix as [|y revPrefix IH]; intros right Hsorted Hx; simpl.
  - constructor; auto.
  - simpl in Hsorted. rewrite <- app_assoc in Hsorted. simpl in Hsorted.
    destruct (key x >? key y) eqn:Hcmp.
    + apply IH; [exact Hsorted|]. constructor; [|exact Hx].
      apply Z.gtb_lt in Hcmp. lia.
    + rewrite rev_append_rev.
      apply sorted_insert_after; auto.
      rewrite Z.gtb_ltb in Hcmp. apply Z.ltb_ge in Hcmp. lia.
Qed.

Lemma insertion_sorted (l : list A) :
  StronglySorted (fun a b : A => key a >= key b) (InsertionSort.sortSlice A (fun a b : A => key a >? key b) l).
Proof.
  unfold InsertionSort.sortSlice.
  assert (H : forall l sorted,
            StronglySorted (fun a b : A => key a >= key b) sorted ->
            StronglySorted (fun a b : A => key a >= key b)
              (fold_left (fun sorted x =>
                            InsertionSort.moveLeft (fun a b : A => key a >? key b) x (rev sorted) [])
                         l sorted)).
  { clear l. induction l as [|x l IH]; intros sorted Hs; simpl; [exact Hs|].
    apply IH. apply moveLeft_sorted; [|constructor].
    now rewrite rev_involutive, app_nil_r. }
  apply H. constructor.
Qed.

End InsertionSortSorted.

(** Insertion sort keeps the promise of [sort.Slice]. *)
Lemma InsertionSort_sortsByKey : sortsByKey InsertionSort.sortSlice.
Proof.
  intros A key l. split; [apply sortSlice_perm | apply insertion_sorted].
Qed.

(** X16. In an intact store, what [findTagFromCurrentBranch] returns is
    the sentinel when no tag is reachable from the start commit, and
    otherwise the name of a reachable tag whose commit is the newest: no
    reachable tag stands for a commit with a later committer time.
    ([sort.Slice] is taken to sort.) *)
Theorem newest_reachable_tag_wins
    (sortSlice : forall A : Type, (A -> A -> bool) -> list A -> list A)
    (r : Repository) (from : plumbing_Hash) (tagName : string) :
  sortsByKey sortSlice ->
  parentsPresent r = true ->
  is_ok (CommitObject r from) = true ->
  GoGit.findTagFromCurrentBranch sortSlice r from = Ok tagName ->
  (tagName = "v0.0.0"
   /\ forall name target when, ~ reachableTag r from name target when)
  \/ (exists target when,
        reachableTag r from tagName target when
        /\ forall name' target' when',
             reachableTag r from name' target' when' -> when' <= when).
Proof.
  intros Hsort Hstore Hfrom. unfold GoGit.findTagFromCurrentBranch.
  destruct (GoGit.collectReachableTags r from (tags r) []) as [l|] eqn:Hl;
    [|discriminate].
  pose proof (collectReachableTags_sound r from (tags r) (incl_refl _) [] l Hl)
    as Hsound.
  destruct (collectReachableTags_complete r from (tags r) Hstore Hfrom [] l Hl)
    as [_ Hcomplete].
  destruct l as [|e0 l0]; simpl.
  - intros [= <-]. left. split; [reflexivity|].
    intros name target when (refHash & c & Hin & Htarget & Hreach & _).
    destruct (Hcomplete name refHash target Hin Htarget Hreach)
      as (e & _ & [] & _).
  - destruct (Hsort GoGit.tagEntry GoGit.time (e0 :: l0)) as [Hperm Hsorted].
    destruct (sortSlice GoGit.tagEntry (fun a b => GoGit.time a >? GoGit.time b)
                (e0 :: l0)) as [|t rest]; [discriminate|].
    intros [= <-]. right.
    assert (Ht : In t (e0 :: l0))
      by (apply (Permutation_in _ (Permutation_sym Hperm)); now left).
    destruct (Hsound t Ht) as [[]|Htag].
    exists (GoGit.hash t), (GoGit.time t). split; [exact Htag|].
    intros name' target' when' (refHash & c & Hin & Htarget & Hreach & Hc & <-).
    destruct (Hcomplete name' refHash target' Hin Htarget Hreach)
      as (e & c' & He & _ & Hc' & Htime).
    assert (c' = c) as -> by congruence. rewrite <- Htime.
    apply (Permutation_in _ Hperm) in He. destruct He as [<-|He]; [lia|].
    apply StronglySorted_inv in Hsorted as [_ Hall].
    rewrite Forall_forall in Hall. specialize (Hall e He). simpl in Hall. lia.
Qed.

Lemma newest_reachable_tag_wins_witness :
  GoGit.findTagFromCurrentBranch InsertionSort.sortSlice
    Examples.mergedFeature 5%N = Ok "v1.0.0"
  /\ exists target when,
       reachableTag Examples.mergedFeature 5%N "v1.0.0" target when
       /\ forall name' target' when',
            reachableTag Examples.mergedFeature 5%N name' target' when' ->
            when' <= when.
Proof.
  split; [reflexivity|].
  destruct (newest_reachable_tag_wins InsertionSort.sortSlice
              Examples.mergedFeature 5%N "v1.0.0" InsertionSort_sortsByKey
              eq_refl eq_refl eq_refl) as [[Hsentinel _]|Hnewest].
  - discriminate.
  - exact Hnewest.
Defined.

Section DistanceMore.

Local Open Scope list_scope.

Variable r : Repository.

Hypothesis store_size : Z.of_nat (List.length (objects r)) < 2 ^ 63.

(** Whatever [countAllCommits] returns is at least 1 (the start commit)
    and at most the number of objects of the store. *)
Lemma countAllCommits_bounds (h : plumbing_Hash) (n : Z) :
  GoGit.countAllCommits r h = Ok n ->
  1 <= n <= Z.of_nat (List.length (objects r)).
Proof.
  unfold GoGit.countAllCommits.
  destruct (CommitObject r h) as [c|] eqn:Hc; [|discriminate].
  set (cb := fun (_ : Commit) (count : Z) => (int_incr count, @None string)).
  pose proof (ForEach_rule r h c cb 0
    (fun w n => n = Z.of_nat (List.length (seen w)))
    (fun res => snd res = None ->
                1 <= fst res <= Z.of_nat (List.length (objects r))) Hc)
    as Hrule.
  assert (Hres : snd (ForEach r (NewCommitPreorderIter c) cb 0) = None ->
                 1 <= fst (ForEach r (NewCommitPreorderIter c) cb 0)
                 <= Z.of_nat (List.length (objects r))).
  { apply Hrule.
    - intros w1 Hw1 Hseen. simpl. now rewrite Hseen.
    - intros w m c' w' Hw -> Hnext Hw' Hseen. simpl.
      now apply (count_step r h w w' c').
    - intros w m Hw -> _ _. simpl.
      pose proof (walking_seen_nonempty r h w Hw).
      pose proof (walking_seen_bound r h w Hw). lia.
    - intros w m e _ _ _. discriminate. }
  destruct (ForEach r (NewCommitPreorderIter c) cb 0) as [count [e|]];
    [discriminate|].
  intros [= <-]. now apply Hres.
Qed.

(** The walk of [GetCommitsSinceTag] in an intact store: the commits
    counted are distinct, reachable and not the tag's; the walk stops at
    the tag's commit if that is reachable and goes through the whole
    history if not. *)
Lemma count_until_tag_exact (head target : plumbing_Hash) (c : Commit) :
  parentsPresent r = true ->
  CommitObject r head = Ok c -> head <> target ->
  let cb (c : Commit) (count : Z) :=
    if (Hash c =? target)%N then (count, Some "found tag"%string)
    else (int_incr count, None) in
  exists counted err,
    ForEach r (NewCommitPreorderIter c) cb 0
    = (Z.of_nat (List.length counted), err)
    /\ NoDup counted /\ ~ In target counted
    /\ (forall x, In x counted -> reachable r head x)
    /\ ((err = None /\ forall x, reachable r head x -> In x counted)
        \/ (err = Some "found tag"%string /\ reachable r head target)).
Proof.
  intros Hstore Hc Hne cb.
  apply (ForEach_rule r head c cb 0
    (fun w n => n = Z.of_nat (List.length (seen w)) /\ ~ In target (seen w))
    (fun res => exists counted err,
       res = (Z.of_nat (List.length counted), err)
       /\ NoDup counted /\ ~ In target counted
       /\ (forall x, In x counted -> reachable r head x)
       /\ ((err = None /\ forall x, reachable r head x -> In x counted)
           \/ (err = Some "found tag"%string /\ reachable r head target)))
    Hc).
  - intros w1 Hw1 Hseen. unfold cb.
    rewrite (CommitObject_Hash r head c Hc).
    destruct (N.eqb_spec head target) as [Heq|_]; [contradiction|].
    rewrite Hseen. split; [now rewrite int_incr_small by lia|].
    intros [H|[]]. contradiction.
  - intros w n c' w' Hw [-> Hnot] Hnext Hw' Hseen. unfold cb.
    destruct (N.eqb_spec (Hash c') target) as [Heq|Hne'].
    + exists (seen w), (Some "found tag"%string).
      split; [reflexivity|]. split; [apply (walking_nodup r head w Hw)|].
      split; [exact Hnot|].
      split; [intros x Hx; now apply (walking_seen r head w Hw)|].
      right. split; [reflexivity|].
      apply (walking_seen r head w' Hw'). rewrite Hseen, Heq. now left.
    + split; [now apply (count_step r head w w' c')|].
      rewrite Hseen. intros [H|H]; [congruence | contradiction].
  - intros w n Hw [-> Hnot] Hnext. exists (seen w), None.
    split; [reflexivity|]. split; [apply (walking_nodup r head w Hw)|].
    split; [exact Hnot|].
    split; [intros x Hx; now apply (walking_eof r head w Hw Hnext)|].
    left. split; [reflexivity|].
    intros x Hx. now apply (walking_eof r head w Hw Hnext).
  - intros w n e Hw _ Hnext.
    destruct (walking_never_fails r head w e Hstore Hw Hnext).
Qed.

End DistanceMore.

(** X17. Without a tag the distance is never 0: given the sentinel,
    whatever [GetCommitsSinceTag] returns is at least 1 (HEAD itself is
    counted) and at most the number of objects of the store; so the legacy
    version of an untagged repository is never the bare sentinel. *)
Theorem sentinel_distance_positive (r : Repository) (n : Z)
    (shortHash branchName : string) (dockerFormat : bool) :
  Z.of_nat (List.length (objects r)) < 2 ^ 63 ->
  GoGit.GetCommitsSinceTag r "v0.0.0" = Ok n ->
  1 <= n <= Z.of_nat (List.length (objects r))
  /\ VersionSchemes.GenerateLegacy "v0.0.0" n shortHash branchName dockerFormat
     <> "v0.0.0".
Proof.
  intros Hsize. unfold GoGit.GetCommitsSinceTag.
  destruct (Head r) as [head|]; [|discriminate]. simpl.
  intros Hcount. apply (countAllCommits_bounds r Hsize) in Hcount.
  split; [exact Hcount|].
  unfold VersionSchemes.GenerateLegacy.
  destruct (Z.eqb_spec n 0) as [->|_]; [lia|].
  intros H. symmetry in H.
  destruct (VersionSchemes.isMainBranch branchName), dockerFormat;
    apply (append_self_nil "v0.0.0") in H; discriminate.
Qed.

Lemma sentinel_distance_positive_witness :
  GoGit.GetCommitsSinceTag Examples.tenUntagged "v0.0.0" = Ok 10
  /\ 1 <= 10 <= Z.of_nat (List.length (objects Examples.tenUntagged))
  /\ VersionSchemes.GenerateLegacy "v0.0.0" 10 "abcdef0" "main" false
     <> "v0.0.0".
Proof.
  split; [reflexivity|].
  apply (sentinel_distance_positive Examples.tenUntagged 10 "abcdef0" "main"
           false); reflexivity.
Defined.

(** X18. In an intact store the distance to a tag whose commit is
    reachable from HEAD is smaller than the number of commits in the
    history of HEAD; the distance to a tag whose commit is not reachable is
    that number itself, the same as for the sentinel. *)
Theorem tag_distance_against_history (r : Repository) (tagName : string)
    (head tagRef target : plumbing_Hash) :
  parentsPresent r = true ->
  Z.of_nat (List.length (objects r)) < 2 ^ 63 ->
  Head r = Ok head ->
  is_ok (CommitObject r head) = true ->
  tagName <> "v0.0.0" ->
  Tag r tagName = Ok tagRef ->
  tagTarget r tagRef = Some target ->
  exists distance history,
    GoGit.GetCommitsSinceTag r tagName = Ok distance
    /\ GoGit.GetCommitsSinceTag r "v0.0.0" = Ok history
    /\ (reachable r head target -> distance < history)
    /\ (~ reachable r head target -> distance = history).
Proof.
  intros Hstore Hsize Hhead Hcommit Hname Htag Htarget.
  destruct (tagTarget_inv r tagRef target Htarget) as (obj & Hobj & Hswitch).
  apply String.eqb_neq in Hname.
  destruct (CommitObject r head) as [c|] eqn:Hc; [|discriminate].
  destruct (countAllCommits_spec r head c Hstore Hsize Hc)
    as (ancestors & Hnd & Hanc & Hall).
  assert (Hpos : (1 <= List.length ancestors)%nat).
  { assert (Hin : In head ancestors) by (apply Hanc; apply reach_here).
    destruct ancestors; [contradiction | simpl; lia]. }
  unfold GoGit.GetCommitsSinceTag at 2. rewrite Hhead. simpl. rewrite Hall.
  unfold GoGit.GetCommitsSinceTag.
  rewrite Hhead, Hname, Htag, Hobj, Hswitch.
  destruct (N.eqb_spec head target) as [<-|Hne].
  { exists 0, (Z.of_nat (List.length ancestors)). repeat split; try lia.
    intros Hnot. destruct Hnot. apply reach_here. }
  rewrite Hc.
  destruct (count_until_tag_exact r Hsize head target c Hstore Hc Hne)
    as (counted & err & -> & Hcnd & Hnot & Hreach & Hend).
  assert (Hle : (List.length counted <= List.length ancestors)%nat).
  { apply NoDup_incl_length; [exact Hcnd|].
    intros x Hx. apply Hanc. now apply Hreach. }
  destruct Hend as [[-> Hfull]|[-> Hfound]].
  - exists (Z.of_nat (List.length counted)), (Z.of_nat (List.length ancestors)).
    split; [reflexivity|]. split; [reflexivity|]. split.
    + intros Ht. destruct Hnot. now apply Hfull.
    + intros _. f_equal. apply Nat.le_antisymm; [exact Hle|].
      apply NoDup_incl_length; [exact Hnd|].
      intros x Hx. apply Hfull. now apply Hanc.
  - exists (Z.of_nat (List.length counted)), (Z.of_nat (List.length ancestors)).
    split; [reflexivity|]. split; [reflexivity|]. split.
    + intros _.
      assert (Hlt : (List.length (target :: counted)
                     <= List.length ancestors)%nat).
      { apply NoDup_incl_length; [now constructor|].
        intros x [<-|Hx]; apply Hanc; auto. }
      simpl in Hlt. lia.
    + intros Hnr. now destruct Hnr.
Qed.

Lemma tag_distance_against_history_witness :
  exists distance history,
    GoGit.GetCommitsSinceTag Examples.orphanBranch "v1.0.0" = Ok distance
    /\ GoGit.GetCommitsSinceTag Examples.orphanBranch "v0.0.0" = Ok history
    /\ (reachable Examples.orphanBranch 11%N 1%N -> distance < history)
    /\ (~ reachable Examples.orphanBranch 11%N 1%N -> distance = history).
Proof.
  apply (tag_distance_against_history Examples.orphanBranch "v1.0.0"
           11%N 1%N 1%N); try reflexivity.
  discriminate.
Defined.

(** The tag v1.0.0 of [main] is not in the history of the orphan branch:
    the distance to it is the whole history of HEAD, two commits. *)
Example orphanBranch_distance :
  GoGit.GetCommitsSinceTag Examples.orphanBranch "v1.0.0" = Ok 2
  /\ GoGit.GetCommitsSinceTag Examples.orphanBranch "v0.0.0" = Ok 2.
Proof. split; reflexivity. Qed.

(* ================================================================== *)
(** * The current branch, the short hash, the whole pass *)
(* ================================================================== *)

Section CurrentBranch.

Local Open Scope list_scope.

Variable r : Repository.
Variable currentHash : plumbing_Hash.

Lemma branchContains_sound (h : plumbing_Hash) (c : Commit) :
  CommitObject r h = Ok c ->
  GoGitHandler.branchContains r currentHash c = true ->
  reachable r h currentHash.
Proof.
  intros Hc. unfold GoGitHandler.branchContains.
  set (cb := fun (c : Commit) (found : bool) =>
               if (Hash c =? currentHash)%N then (true, Some "found"%string)
               else (found, None)).
  apply (ForEach_rule r h c cb false (fun _ found => found = false)
    (fun res => fst res = true -> reachable r h currentHash) Hc).
  - intros w1 Hw1 Hseen. unfold cb.
    rewrite (CommitObject_Hash r h c Hc).
    destruct (N.eqb_spec h currentHash) as [<-|_];
      [intros _; apply reach_here | reflexivity].
  - intros w found c' w' Hw -> Hnext Hw' Hseen. unfold cb.
    destruct (N.eqb_spec (Hash c') currentHash) as [<-|_]; [|reflexivity].
    intros _. apply (walking_seen r h w' Hw'). rewrite Hseen. now left.
  - intros w found _ -> _. discriminate.
  - intros w found e _ -> _. discriminate.
Qed.

Lemma branchContains_complete (h : plumbing_Hash) (c : Commit) :
  parentsPresent r = true -> CommitObject r h = Ok c ->
  reachable r h currentHash ->
  GoGitHandler.branchContains r currentHash c = true.
Proof.
  intros Hstore Hc Hreach. unfold GoGitHandler.branchContains.
  set (cb := fun (c : Commit) (found : bool) =>
               if (Hash c =? currentHash)%N then (true, Some "found"%string)
               else (found, None)).
  destruct (search_walk_finds r h currentHash c cb false Hc)
    as (cto & s & Hto & _ & ->); auto.
  - intros c' s Heq. unfold cb. apply N.eqb_eq in Heq. now rewrite Heq.
  - intros c' s Hne. unfold cb. apply N.eqb_neq in Hne. now rewrite Hne.
  - unfold cb. apply N.eqb_eq in Hto. now rewrite Hto.
Qed.

Lemma scanBranches_sound (refs : list (string * plumbing_Hash)) (msg : string) :
  GoGitHandler.scanBranches r currentHash refs = Some msg ->
  exists short h,
    In (short, h) refs /\ msg = ("branch:" ++ short)%string
    /\ reachable r h currentHash.
Proof.
  induction refs as [|[short h] refs IH]; simpl; [discriminate|].
  destruct (CommitObject r h) as [c|] eqn:Hc.
  - destruct (GoGitHandler.branchContains r currentHash c) eqn:Hcontains.
    + intros [= <-]. exists short, h. split; [now left|]. split; [reflexivity|].
      now apply (branchContains_sound h c).
    + intros H. destruct (IH H) as (s & h' & Hin & Hmsg & Hreach).
      exists s, h'. split; [now right | now split].
  - intros H. destruct (IH H) as (s & h' & Hin & Hmsg & Hreach).
    exists s, h'. split; [now right | now split].
Qed.

Lemma scanBranches_complete (refs : list (string * plumbing_Hash))
    (short : string) (h : plumbing_Hash) :
  parentsPresent r = true ->
  In (short, h) refs -> is_ok (CommitObject r h) = true ->
  reachable r h currentHash ->
  exists msg, GoGitHandler.scanBranches r currentHash refs = Some msg.
Proof.
  intros Hstore Hin Hcommit Hreach.
  induction refs as [|[short' h'] refs IH]; simpl; [contradiction|].
  destruct Hin as [[= -> ->]|Hin].
  - destruct (CommitObject r h) as [c|] eqn:Hc; [|discriminate].
    rewrite (branchContains_complete h c Hstore Hc Hreach). now eexists.
  - destruct (CommitObject r h') as [c'|]; [|now apply IH].
    destruct (GoGitHandler.branchContains r currentHash c');
      [now eexists | now apply IH].
Qed.

(** Reading the branch name back from the error message. *)
Lemma branch_message (short : string) :
  (if negb ("branch:" ++ short =? "")%string
      && (7 <? String.length ("branch:" ++ short))%nat
      && (GoLib.take 7 ("branch:" ++ short) =? "branch:")%string
   then Ok (GoLib.drop 7 ("branch:" ++ short))
   else Ok "detached"%string)
  = Ok (if (short =? "")%string then "detached"%string else short).
Proof. destruct short as [|c short]; reflexivity. Qed.

End CurrentBranch.

(** X19. [GetCurrentBranch] does not fail when HEAD resolves.  With HEAD
    on a branch it returns that branch.  With HEAD detached it returns
    [detached] or the name of a branch whose history contains the HEAD
    commit; and in an intact store, if some branch (they have non-empty
    names) contains the HEAD commit, such a branch is what it returns. *)
Theorem GetCurrentBranch_detached_head (r : Repository) (head : plumbing_Hash) :
  Head r = Ok head ->
  (forall short, GoGitHandler.GetCurrentBranch r (Some short) = Ok short)
  /\ (exists name, GoGitHandler.GetCurrentBranch r None = Ok name)
  /\ (forall name,
        GoGitHandler.GetCurrentBranch r None = Ok name ->
        name = "detached"
        \/ exists h, In (name, h) (branches r) /\ reachable r h head)
  /\ (parentsPresent r = true ->
      (forall short h, In (short, h) (branches r) -> short <> "") ->
      forall short h,
        In (short, h) (branches r) -> is_ok (CommitObject r h) = true ->
        reachable r h head ->
        exists name h',
          GoGitHandler.GetCurrentBranch r None = Ok name
          /\ In (name, h') (branches r) /\ reachable r h' head).
Proof.
  intros Hhead. unfold GoGitHandler.GetCurrentBranch. rewrite Hhead.
  split; [reflexivity|].
  assert (Hscan : forall msg,
    GoGitHandler.scanBranches r head (branches r) = Some msg ->
    exists short h, In (short, h) (branches r) /\ reachable r h head
      /\ (if negb (msg =? "")%string && (7 <? String.length msg)%nat
             && (GoLib.take 7 msg =? "branch:")%string
          then Ok (GoLib.drop 7 msg) else Ok "detached"%string)
         = Ok (if (short =? "")%string then "detached"%string else short)).
  { intros msg Hmsg.
    destruct (scanBranches_sound r head _ msg Hmsg) as (short & h & Hin & -> & Hr).
    exists short, h. split; [exact Hin|]. split; [exact Hr|].
    apply branch_message. }
  split; [|split].
  - destruct (GoGitHandler.scanBranches r head (branches r)) as [msg|];
      [|now eexists].
    destruct (Hscan msg eq_refl) as (short & h & _ & _ & ->). now eexists.
  - intros name.
    destruct (GoGitHandler.scanBranches r head (branches r)) as [msg|];
      [|intros [= <-]; now left].
    destruct (Hscan msg eq_refl) as (short & h & Hin & Hr & ->).
    intros [= <-]. destruct (String.eqb_spec short ""); [now left|].
    right. now exists h.
  - intros Hstore Hnames short h Hin Hcommit Hreach.
    destruct (scanBranches_complete r head _ short h Hstore Hin Hcommit Hreach)
      as [msg Hmsg].
    rewrite Hmsg.
    destruct (Hscan msg Hmsg) as (short' & h' & Hin' & Hr' & ->).
    exists short', h'. split; [|now split].
    destruct (String.eqb_spec short' "") as [Hempty|_]; [|reflexivity].
    now destruct (Hnames short' h' Hin').
Qed.

Lemma GetCurrentBranch_detached_head_witness :
  Head Examples.detachedBehind = Ok 2%N
  /\ GoGitHandler.GetCurrentBranch Examples.detachedBehind None = Ok "main"
  /\ ("main" = "detached"
      \/ exists h, In ("main", h) (branches Examples.detachedBehind)
                   /\ reachable Examples.detachedBehind h 2%N).
Proof.
  split; [reflexivity|]. split; [reflexivity|].
  apply (proj1 (proj2 (proj2 (GetCurrentBranch_detached_head
                                Examples.detachedBehind 2%N eq_refl)))).
  reflexivity.
Defined.

Section ShortHash.

Lemma hexDigit_hex (d : N) :
  (d < 16)%N ->
  between 48 57 (GoLib.hexDigit d) || between 97 102 (GoLib.hexDigit d) = true.
Proof.
  intros Hd.
  assert (H : (d = 0 \/ d = 1 \/ d = 2 \/ d = 3 \/ d = 4 \/ d = 5 \/ d = 6
               \/ d = 7 \/ d = 8 \/ d = 9 \/ d = 10 \/ d = 11 \/ d = 12
               \/ d = 13 \/ d = 14 \/ d = 15)%N) by lia.
  repeat (destruct H as [->|H]; [reflexivity|]). now subst.
Qed.

Lemma hexOf_length (digits : nat) :
  forall h acc,
    String.length (GoLib.hexOf digits h acc)
    = (digits + String.length acc)%nat.
Proof.
  induction digits as [|digits IH]; intros h acc; simpl; [reflexivity|].
  rewrite IH. simpl. lia.
Qed.

Lemma hexOf_hex (digits : nat) :
  forall h acc, allHex acc = true -> allHex (GoLib.hexOf digits h acc) = true.
Proof.
  induction digits as [|digits IH]; intros h acc Hacc; simpl; [exact Hacc|].
  apply IH. simpl. rewrite Hacc, andb_true_r. apply hexDigit_hex.
  apply N.mod_lt. discriminate.
Qed.

Lemma take_length (n : nat) :
  forall s, (n <= String.length s)%nat -> String.length (GoLib.take n s) = n.
Proof.
  induction n as [|n IH]; intros [|c s] Hn; simpl in *; try lia.
  rewrite IH; lia.
Qed.

Lemma take_hex (n : nat) :
  forall s, allHex s = true -> allHex (GoLib.take n s) = true.
Proof.
  induction n as [|n IH]; intros [|c s]; simpl; auto.
  intros H. apply andb_true_iff in H as [Hc Hs]. now rewrite Hc, IH.
Qed.

End ShortHash.

(** X20. The short hash of the go-git handler is always seven hexadecimal
    digits; in particular it is never empty. *)
Theorem GetShortHash_seven_digits (r : Repository) (head : plumbing_Hash) :
  Head r = Ok head ->
  exists shortHash,
    GoGitHandler.GetShortHash r = Ok shortHash
    /\ String.length shortHash = 7%nat
    /\ allHex shortHash = true
    /\ shortHash <> "".
Proof.
  intros Hhead. unfold GoGitHandler.GetShortHash. rewrite Hhead.
  eexists. split; [reflexivity|].
  assert (Hlen : String.length (GoLib.take 7 (Hash_String head)) = 7%nat).
  { apply take_length. unfold Hash_String. rewrite hexOf_length. simpl. lia. }
  split; [exact Hlen|]. split.
  - apply take_hex. unfold Hash_String. now apply hexOf_hex.
  - intros Hempty. rewrite Hempty in Hlen. discriminate.
Qed.

Lemma GetShortHash_seven_digits_witness :
  GoGitHandler.GetShortHash Examples.orphanBranch = Ok "0000000"
  /\ exists shortHash,
       GoGitHandler.GetShortHash Examples.orphanBranch = Ok shortHash
       /\ String.length shortHash = 7%nat
       /\ allHex shortHash = true
       /\ shortHash <> "".
Proof.
  split; [reflexivity|].
  now apply (GetShortHash_seven_digits Examples.orphanBranch 11%N).
Defined.

Section WholePass.

Local Open Scope list_scope.

Variable sortSlice : forall A : Type, (A -> A -> bool) -> list A -> list A.
Variable r : Repository.

Lemma lookupRef_distinct (refs : list (string * plumbing_Hash))
    (short : string) (h : plumbing_Hash) :
  NoDup (map fst refs) -> In (short, h) refs -> lookupRef refs short = Some h.
Proof.
  induction refs as [|[k h'] refs IH]; simpl; [contradiction|].
  intros Hnodup Hin. apply NoDup_cons_iff in Hnodup as [Hfresh Hnodup].
  destruct Hin as [[= -> ->]|Hin]; [now rewrite String.eqb_refl|].
  destruct (String.eqb_spec k short) as [->|_]; [|now apply IH].
  destruct Hfresh. now apply (in_map fst refs (short, h)).
Qed.

Hypothesis sortSlice_permutes :
  forall (A : Type) (less : A -> A -> bool) (l : list A),
    Permutation l (sortSlice A less l).

(** What [findTagFromCurrentBranch] returns is the sentinel or the name of
    a tag of the repository that stands for a commit. *)
Lemma findTagFromCurrentBranch_name (from : plumbing_Hash) (t : string) :
  GoGit.findTagFromCurrentBranch sortSlice r from = Ok t ->
  t = "v0.0.0"%string
  \/ exists refHash target,
       In (t, refHash) (tags r) /\ tagTarget r refHash = Some target.
Proof.
  unfold GoGit.findTagFromCurrentBranch.
  destruct (GoGit.collectReachableTags r from (tags r) []) as [l|] eqn:Hl;
    [|discriminate].
  pose proof (collectReachableTags_sound r from (tags r) (incl_refl _) [] l Hl)
    as Hsound.
  destruct l as [|e0 l0]; simpl; [intros [= <-]; now left|].
  pose proof (sortSlice_permutes GoGit.tagEntry
                (fun a b => GoGit.time a >? GoGit.time b) (e0 :: l0)) as Hperm.
  destruct (sortSlice GoGit.tagEntry (fun a b => GoGit.time a >? GoGit.time b)
              (e0 :: l0)) as [|e rest]; [discriminate|].
  intros [= <-]. right.
  assert (He : In e (e0 :: l0))
    by (apply (Permutation_in _ (Permutation_sym Hperm)); now left).
  destruct (Hsound e He) as [[]|(refHash & c & Hin & Htarget & _)].
  now exists refHash, (GoGit.hash e).
Qed.

Lemma GetLastTag_name (branchName t : string) :
  GoGit.GetLastTag sortSlice r branchName = Ok t ->
  t = "v0.0.0"%string
  \/ exists refHash target,
       In (t, refHash) (tags r) /\ tagTarget r refHash = Some target.
Proof.
  unfold GoGit.GetLastTag. destruct (Head r) as [head|]; [|discriminate].
  destruct (negb (branchName =? "main")%string
            && negb (branchName =? "master")%string);
    [|apply findTagFromCurrentBranch_name].
  rewrite findTagFromRebasePoint_trunkHead.
  destruct (trunkHead r) as [mainHash|]; [|apply findTagFromCurrentBranch_name].
  destruct (GoGit.findCommonAncestor r head mainHash);
    apply findTagFromCurrentBranch_name.
Qed.

Lemma GetLastTag_answers (branchName : string) (head : plumbing_Hash) :
  tagsPresent r = true -> Head r = Ok head ->
  is_ok (CommitObject r head) = true ->
  exists t, GoGit.GetLastTag sortSlice r branchName = Ok t.
Proof.
  intros Htags Hhead Hcommit. unfold GoGit.GetLastTag. rewrite Hhead.
  destruct (negb (branchName =? "main")%string
            && negb (branchName =? "master")%string);
    [|now apply findTagFromCurrentBranch_answers].
  rewrite findTagFromRebasePoint_trunkHead.
  destruct (trunkHead r) as [mainHash|];
    [|now apply findTagFromCurrentBranch_answers].
  destruct (GoGit.findCommonAncestor r head mainHash) as [a|] eqn:Ha;
    [|now apply findTagFromCurrentBranch_answers].
  apply findTagFromCurrentBranch_answers; auto.
  now apply (findCommonAncestor_commit r head mainHash a).
Qed.

Hypothesis store_size : Z.of_nat (List.length (objects r)) < 2 ^ 63.

Lemma GetCommitsSinceTag_nonneg (tagName : string) (n : Z) :
  GoGit.GetCommitsSinceTag r tagName = Ok n -> 0 <= n.
Proof.
  unfold GoGit.GetCommitsSinceTag.
  destruct (Head r) as [head|]; [|discriminate].
  destruct (tagName =? "v0.0.0")%string.
  { intros H. apply (countAllCommits_bounds r store_size) in H. lia. }
  destruct (Tag r tagName) as [tagRef|]; [|discriminate].
  destruct (AnyObject r tagRef) as [obj|]; [|discriminate].
  destruct (GoGit.tagCommitHashOf tagRef obj) as [target|]; [|discriminate].
  destruct (N.eqb_spec head target) as [_|Hne]; [intros [= <-]; lia|].
  destruct (CommitObject r head) as [c|] eqn:Hc; [|discriminate].
  destruct (count_until_tag r head target c store_size Hc Hne) as [Hone _].
  cbv zeta in Hone.
  match goal with
  | |- context [ForEach r ?it ?cb 0] =>
      destruct (ForEach r it cb 0) as [count [msg|]]
  end; simpl in Hone.
  - destruct (msg =? "found tag")%string; [|discriminate].
    intros [= <-]. lia.
  - intros [= <-]. lia.
Qed.

Lemma GetCommitsSinceTag_answers (tagName : string) (head : plumbing_Hash) :
  parentsPresent r = true -> Head r = Ok head ->
  is_ok (CommitObject r head) = true ->
  tagName = "v0.0.0"%string
  \/ (exists refHash target,
        Tag r tagName = Ok refHash /\ tagTarget r refHash = Some target) ->
  exists n, GoGit.GetCommitsSinceTag r tagName = Ok n.
Proof.
  intros Hstore Hhead Hcommit Htag. unfold GoGit.GetCommitsSinceTag.
  rewrite Hhead.
  destruct (CommitObject r head) as [c|] eqn:Hc; [|discriminate].
  destruct (String.eqb_spec tagName "v0.0.0") as [_|Hne].
  { destruct (countAllCommits_spec r head c Hstore store_size Hc)
      as (ancestors & _ & _ & ->). now eexists. }
  destruct Htag as [->|(refHash & target & -> & Htarget)]; [now destruct Hne|].
  destruct (tagTarget_inv r refHash target Htarget) as (obj & -> & ->).
  destruct (N.eqb_spec head target) as [_|Hdiff]; [now eexists|].
  destruct (count_until_tag r head target c store_size Hc Hdiff) as [_ Herr].
  cbv zeta in Herr. specialize (Herr Hstore).
  match goal with
  | |- context [ForEach r ?it ?cb 0] =>
      destruct (ForEach r it cb 0) as [count [msg|]]
  end; simpl in Herr.
  - destruct Herr as [[=]|[= ->]]. now eexists.
  - now eexists.
Qed.

(** The four steps in an intact repository. *)
Lemma components_answer (head : plumbing_Hash) (headBranch : option string) :
  parentsPresent r = true -> tagsPresent r = true -> tagNamesDistinct r ->
  Head r = Ok head -> is_ok (CommitObject r head) = true ->
  exists branchName shortHash lastTag commitsSince,
    GoGitHandler.components sortSlice r headBranch
    = Ok (branchName, shortHash, lastTag, commitsSince)
    /\ GoGitHandler.GetCurrentBranch r headBranch = Ok branchName
    /\ GoGitHandler.GetShortHash r = Ok shortHash
    /\ GoGit.GetLastTag sortSlice r branchName = Ok lastTag
    /\ GoGit.GetCommitsSinceTag r lastTag = Ok commitsSince.
Proof.
  intros Hstore Htags Hdistinct Hhead Hcommit.
  unfold GoGitHandler.components.
  assert (Hbranch : exists b, GoGitHandler.GetCurrentBranch r headBranch = Ok b).
  { unfold GoGitHandler.GetCurrentBranch. rewrite Hhead.
    destruct headBranch as [short|]; [now eexists|].
    destruct (GoGitHandler.scanBranches r head (branches r)) as [msg|];
      [|now eexists].
    match goal with |- context [if ?b then _ else _] => destruct b end;
      now eexists. }
  destruct Hbranch as [branchName Hbranch]. rewrite Hbranch.
  assert (Hshort : GoGitHandler.GetShortHash r
                   = Ok (GoLib.take 7 (Hash_String head)))
    by (unfold GoGitHandler.GetShortHash; now rewrite Hhead).
  rewrite Hshort.
  destruct (GetLastTag_answers branchName head Htags Hhead Hcommit)
    as [lastTag Htag].
  rewrite Htag.
  destruct (GetCommitsSinceTag_answers lastTag head Hstore Hhead Hcommit)
    as [n Hn].
  { destruct (GetLastTag_name branchName lastTag Htag)
      as [->|(refHash & target & Hin & Htarget)]; [now left|].
    right. exists refHash, target. split; [|exact Htarget].
    unfold Tag. now rewrite (lookupRef_distinct (tags r) lastTag refHash). }
  rewrite Hn. exists branchName, (GoLib.take 7 (Hash_String head)), lastTag, n.
  split; [reflexivity|]. split; [reflexivity|]. split; [reflexivity|].
  split; [exact Htag | exact Hn].
Qed.

End WholePass.

(** X21. In an intact repository (every parent and every tag object in
    the store, distinct tag names, HEAD on a commit, fewer than 2^63
    objects) both entry points of the go-git handler return a version,
    whatever the branch state and the options; the version is the
    formatter's result on the returned fields, the tag is the one
    [GetLastTag] gives for the returned branch and the distance the one
    [GetCommitsSinceTag] gives for that tag. *)
Theorem GenerateVersionInfo_intact_repository
    (sortSlice : forall A : Type, (A -> A -> bool) -> list A -> list A)
    (now : VersionSchemes.Date) (r : Repository) (head : plumbing_Hash)
    (headBranch : option string) :
  (forall (A : Type) (less : A -> A -> bool) (l : list A),
     Permutation l (sortSlice A less l)) ->
  Z.of_nat (List.length (objects r)) < 2 ^ 63 ->
  parentsPresent r = true -> tagsPresent r = true -> tagNamesDistinct r ->
  Head r = Ok head -> is_ok (CommitObject r head) = true ->
  (forall dockerFormat, exists info,
     GoGitHandler.GenerateVersionInfo sortSlice r headBranch dockerFormat
     = Ok info
     /\ GoGit.GetLastTag sortSlice r (GitType.Branch info)
        = Ok (GitType.LastTag info)
     /\ GoGit.GetCommitsSinceTag r (GitType.LastTag info)
        = Ok (GitType.CommitsSince info)
     /\ GitType.Version info
        = VersionSchemes.GenerateLegacy (GitType.LastTag info)
            (GitType.CommitsSince info) (GitType.ShortHash info)
            (GitType.Branch info) dockerFormat)
  /\ (forall options, exists info,
        GoGitHandler.GenerateVersionInfoWithOptions sortSlice now r headBranch
          options = Ok info
        /\ GoGit.GetLastTag sortSlice r (GitType.Branch info)
           = Ok (GitType.LastTag info)
        /\ GoGit.GetCommitsSinceTag r (GitType.LastTag info)
           = Ok (GitType.CommitsSince info)
        /\ GitType.Version info
           = VersionSchemes.GenerateVersion now (GitType.LastTag info)
               (GitType.CommitsSince info) (GitType.ShortHash info)
               (GitType.Branch info) options).
Proof.
  intros Hperm Hsize Hstore Htags Hdistinct Hhead Hcommit.
  destruct (components_answer sortSlice r Hperm Hsize head headBranch
              Hstore Htags Hdistinct Hhead Hcommit)
    as (b & sh & t & n & Hc & _ & _ & Htag & Hn).
  split.
  - intros dockerFormat. unfold GoGitHandler.GenerateVersionInfo. rewrite Hc.
    eexists. split; [reflexivity|]. simpl. now repeat split.
  - intros options. unfold GoGitHandler.GenerateVersionInfoWithOptions.
    rewrite Hc. eexists. split; [reflexivity|]. simpl. now repeat split.
Qed.

Lemma GenerateVersionInfo_intact_repository_witness :
  GoGitHandler.GenerateVersionInfo InsertionSort.sortSlice
    Examples.mergedFeature (Some "feature/login") false
  = Ok {| GitType.Branch := "feature/login"; GitType.LastTag := "v1.0.0";
          GitType.CommitsSince := 2; GitType.ShortHash := "0000000";
          GitType.Version := "v1.0.0-feature-login+2" |}
  /\ exists info,
       GoGitHandler.GenerateVersionInfoWithOptions InsertionSort.sortSlice
         {| VersionSchemes.Year := 2025; VersionSchemes.Month := 8 |}
         Examples.mergedFeature (Some "feature/login")
         (VersionSchemes.semverScheme false true) = Ok info
       /\ GoGit.GetLastTag InsertionSort.sortSlice Examples.mergedFeature
            (GitType.Branch info) = Ok (GitType.LastTag info)
       /\ GoGit.GetCommitsSinceTag Examples.mergedFeature (GitType.LastTag info)
          = Ok (GitType.CommitsSince info)
       /\ GitType.Version info
          = VersionSchemes.GenerateVersion
              {| VersionSchemes.Year := 2025; VersionSchemes.Month := 8 |}
              (GitType.LastTag info) (GitType.CommitsSince info)
              (GitType.ShortHash info) (GitType.Branch info)
              (VersionSchemes.semverScheme false true).
Proof.
  split; [vm_compute; reflexivity|].
  refine (proj2 (GenerateVersionInfo_intact_repository InsertionSort.sortSlice
            {| VersionSchemes.Year := 2025; VersionSchemes.Month := 8 |}
            Examples.mergedFeature 5%N (Some "feature/login")
            (fun A less l => sortSlice_perm A less l) _ eq_refl eq_refl _
            eq_refl eq_refl) (VersionSchemes.semverScheme false true)).
  - vm_compute. reflexivity.
  - unfold tagNamesDistinct. simpl. repeat constructor; simpl; intuition discriminate.
Defined.

(* ================================================================== *)
(** * Package main *)
(* ================================================================== *)

Section Output.

Lemma HasSuffix_slash_cons (c : ascii) (s : string) :
  s <> "" -> GoLib.HasSuffix (String c s) "/" = GoLib.HasSuffix s "/".
Proof.
  destruct s as [|c' s']; [now intros []|]. intros _.
  unfold GoLib.HasSuffix. simpl. now rewrite !Nat.sub_0_r.
Qed.

Lemma HasSuffix_slash_app (p s : string) :
  s <> "" -> GoLib.HasSuffix (p ++ s) "/" = GoLib.HasSuffix s "/".
Proof.
  intros Hs. induction p as [|c p IH]; simpl; [reflexivity|].
  rewrite HasSuffix_slash_cons; [exact IH|].
  destruct p; simpl; [exact Hs | discriminate].
Qed.

Lemma getFilePath_nonempty (providedPath defaultFilename : string) :
  defaultFilename <> "" ->
  Main.getFilePath providedPath defaultFilename <> "".
Proof.
  intros Hd. unfold Main.getFilePath.
  destruct (String.eqb_spec providedPath "") as [_|Hp]; [exact Hd|].
  destruct (GoLib.HasSuffix providedPath "/"); [|exact Hp].
  destruct providedPath; [now destruct Hp | discriminate].
Qed.

Lemma fileTarget_filename (cli : Main.CLI) (handler : Main.FileType) :
  fst (Main.fileTarget cli) = Some handler ->
  (snd (Main.fileTarget cli) =? "")%string = false.
Proof.
  unfold Main.fileTarget.
  destruct (Main.Go cli); [|destruct (Main.Cpp cli);
    [|destruct (Main.Yaml cli); [|destruct (Main.File cli)]]];
    simpl; intros H; try discriminate;
    apply String.eqb_neq, getFilePath_nonempty; discriminate.
Qed.

End Output.



(** X23. Once the version is known [main] does exactly one thing with it:
    without a file flag it prints it, and with one it writes one file and
    prints nothing.  Of several file flags only one counts, Go before C++
    before YAML before the plain file, and the fallback
    [writeVersionToFile] is never taken. *)
Theorem emit_one_action (cli : Main.CLI) (version : string) :
  exists action,
    Main.emit cli version = [action]
    /\ (action = Main.Println version
        <-> Main.Go cli = false /\ Main.Cpp cli = false
            /\ Main.Yaml cli = false /\ Main.File cli = false)
    /\ (forall filename v, action <> Main.writeVersionToFile filename v)
    /\ (Main.Go cli = true ->
        action = Main.WriteVersion Main.GoType
                   (Main.getFilePath (Main.GoPath cli) "version.go") version)
    /\ (Main.Go cli = false -> Main.Cpp cli = true ->
        action = Main.WriteVersion Main.CPPType
                   (Main.getFilePath (Main.CppPath cli) "version.h") version)
    /\ (Main.Go cli = false -> Main.Cpp cli = false -> Main.Yaml cli = true ->
        action = Main.WriteVersion Main.YAMLFile
                   (Main.getFilePath (Main.YamlPath cli) "version.yaml") version)
    /\ (Main.Go cli = false -> Main.Cpp cli = false -> Main.Yaml cli = false ->
        Main.File cli = true ->
        action = Main.WriteVersion Main.BasicFile
                   (Main.getFilePath (Main.FilePath cli) ".VERSION") version).
Proof.
  unfold Main.emit.
  pose proof (fileTarget_filename cli) as Hname.
  unfold Main.fileTarget in *.
  destruct (Main.Go cli); [|destruct (Main.Cpp cli);
    [|destruct (Main.Yaml cli); [|destruct (Main.File cli)]]];
    simpl in *;
    try (rewrite (Hname _ eq_refl); simpl; eexists; split; [reflexivity|];
         repeat split; try discriminate; try reflexivity;
         intros; intuition discriminate).
  eexists. split; [reflexivity|]. repeat split; try discriminate.
Qed.



(** X25. [GetLastTag] of the system-git handler never returns an error,
    whatever git does: its result is the sentinel or what a
    [git describe --tags --abbrev=0] printed. *)
Theorem SystemGit_GetLastTag_never_fails
    (runGitCommand : list string -> Result string) (branchName : string) :
  exists t,
    SystemGit.GetLastTag runGitCommand branchName = Ok t
    /\ (t = "v0.0.0"
        \/ exists rest,
             runGitCommand ("describe" :: "--tags" :: "--abbrev=0" :: rest)
             = Ok t).
Proof.
  unfold SystemGit.GetLastTag. simpl.
  assert (Htrunk :
    exists t,
      match runGitCommand ["describe"; "--tags"; "--abbrev=0"] with
      | Err _ => Ok "v0.0.0"
      | Ok output => Ok output
      end = Ok t
      /\ (t = "v0.0.0"
          \/ exists rest,
               runGitCommand ("describe" :: "--tags" :: "--abbrev=0" :: rest)
               = Ok t)).
  { destruct (runGitCommand ["describe"; "--tags"; "--abbrev=0"]) as [o|] eqn:Ho.
    - exists o. split; [reflexivity|]. right. now exists [].
    - exists "v0.0.0". split; [reflexivity | now left]. }
  assert (Hbase : forall mergeBase,
    exists t,
      match runGitCommand ["describe"; "--tags"; "--abbrev=0"; mergeBase] with
      | Err _ => Ok "v0.0.0"
      | Ok output => Ok output
      end = Ok t
      /\ (t = "v0.0.0"
          \/ exists rest,
               runGitCommand ("describe" :: "--tags" :: "--abbrev=0" :: rest)
               = Ok t)).
  { intros mergeBase.
    destruct (runGitCommand ["describe"; "--tags"; "--abbrev=0"; mergeBase])
      as [o|] eqn:Ho.
    - exists o. split; [reflexivity|]. right. now exists [mergeBase].
    - exists "v0.0.0". split; [reflexivity | now left]. }
  destruct (negb (branchName =? "main")%string
            && negb (branchName =? "master")%string); [|exact Htrunk].
  unfold SystemGit.findTagFromRebasePoint_calling.
  destruct (runGitCommand ["merge-base"; "HEAD"; "main"]) as [mb|];
    [apply Hbase|].
  destruct (runGitCommand ["merge-base"; "HEAD"; "master"]) as [mb|];
    [apply Hbase | exact Htrunk].
Qed.
